(** * CrowdCare: report resolution and status lifecycle

    A shallow embedding of the status lifecycle
    ([services/status_service.py]), the geofenced resolution
    ([services/resolution_service.py]), the report creation with its duplicate
    scan ([main.py], [services/report_service.py]) and the citizen soft
    deletion ([main.py]) of the CrowdCare backend, followed by the properties
    of the written specification that were checked against them, and by
    further properties of the code: distances and EXIF positions, the reading
    of histories, timelines and resolutions, the errors of the operations
    under a failing database, and what every run keeps.

    Conventions of the embedding.
    - Python [float] values are real numbers extended with the infinite
      sentinel [float('inf')]; rounding is not modelled and NaN cannot arise
      from range-checked inputs.
    - Python [str] values are [string]: a string is the sequence of the code
      points of the text, each below 256 (Latin-1).  On these, [lower] and
      [strip] are those of Python: the letters with another case are A-Z and
      U+00C0-U+00DE without U+00D7, and the white space is U+0009-U+000D,
      U+001C-U+0020, U+0085 and U+00A0.  A text with a code point from 256 on
      has no counterpart in the embedding.
    - A pydantic model that constrains its fields is built by a function
      that checks them and raises [ValueError] when one is refused, as the
      [ValidationError] of pydantic is a [ValueError]; a JSON text is read by
      the [json_loads] of the environment, and only the kind of the value it
      yields is kept.
    - Exceptions are values of [exn]; a service call is a state transformer
      over the SQLAlchemy session that returns either a value or an [exn].
    - The session keeps the committed store, seen by every other caller, next
      to its own working copy; [db.commit()] publishes the working copy and
      [db.rollback()] discards it.  Database round trips may fail according to
      a fault schedule carried by the session. *)

From Stdlib Require Import String Ascii List Bool ZArith Lia Permutation.
From Stdlib Require Import DecimalString.
From Stdlib Require Import Reals Lra.
Import ListNotations.

Local Open Scope string_scope.
Local Open Scope Z_scope.

(* ------------------------------------------------------------------ *)
(** ** Python strings *)

Module PyStr.

(** [needle in hay] *)
Fixpoint contains (needle hay : string) : bool :=
  if String.prefix needle hay then true
  else match hay with
       | EmptyString => false
       | String _ rest => contains needle rest
       end.

(** [repr(s)] for a string without quotes or escapes. *)
Definition repr (s : string) : string := "'" ++ s ++ "'".

(** [str(n)] for an integer. *)
Definition of_Z (n : Z) : string := NilZero.string_of_int (Z.to_int n).

(** The code points below 256 that [str.lower()] changes: A-Z and the
    capital letters of Latin-1, U+00C0 to U+00DE without the sign U+00D7. *)
Definition is_upper (c : ascii) : bool :=
  let n := nat_of_ascii c in
  ((Nat.leb 65 n && Nat.leb n 90)
   || (Nat.leb 192 n && Nat.leb n 222 && negb (Nat.eqb n 215)))%bool.

Definition lower_char (c : ascii) : ascii :=
  if is_upper c then ascii_of_nat (nat_of_ascii c + 32) else c.

(** [s.lower()] *)
Fixpoint lower (s : string) : string :=
  match s with
  | EmptyString => EmptyString
  | String c rest => String (lower_char c) (lower rest)
  end.

(** The characters removed by [str.strip()]: those of [str.isspace()]. *)
Definition is_space (c : ascii) : bool :=
  let n := nat_of_ascii c in
  ((Nat.leb 9 n && Nat.leb n 13) || (Nat.leb 28 n && Nat.leb n 32)
   || Nat.eqb n 133 || Nat.eqb n 160)%bool.

Fixpoint lstrip (s : string) : string :=
  match s with
  | EmptyString => EmptyString
  | String c rest => if is_space c then lstrip rest else s
  end.

Fixpoint rstrip (s : string) : string :=
  match s with
  | EmptyString => EmptyString
  | String c rest =>
      match rstrip rest with
      | EmptyString => if is_space c then EmptyString else String c EmptyString
      | rest' => String c rest'
      end
  end.

(** [s.strip()] *)
Definition strip (s : string) : string := rstrip (lstrip s).

(** [s.startswith(p)] *)
Definition startswith (s p : string) : bool := String.prefix p s.

(** [x in l] for a list of strings. *)
Definition mem (x : string) (l : list string) : bool :=
  existsb (String.eqb x) l.

End PyStr.

(* ------------------------------------------------------------------ *)
(** ** Python floats *)

Module PyFloat.

Local Open Scope R_scope.

Inductive t : Type :=
| Finite (x : R)
| Inf.                      (* float('inf') *)

Definition Rleb (x y : R) : bool := if Rle_dec x y then true else false.
Definition Rltb (x y : R) : bool := if Rlt_dec x y then true else false.
Definition Reqb (x y : R) : bool := if Req_dec_T x y then true else false.

(** [x <= y] and [x < y] on floats. *)
Definition leb (x y : t) : bool :=
  match x, y with
  | Finite a, Finite b => Rleb a b
  | Finite _, Inf => true
  | Inf, Finite _ => false
  | Inf, Inf => true
  end.

Definition ltb (x y : t) : bool :=
  match x, y with
  | Finite a, Finite b => Rltb a b
  | Finite _, Inf => true
  | Inf, _ => false
  end.

(** [round(x, 2)]: nearest multiple of 0.01, ties to the even one. *)
Definition round2 (x : R) : R :=
  let y := x * 100 in
  let n := Int_part y in
  let f := frac_part y in
  let up := if Rltb f (1 / 2) then n
            else if Rltb (1 / 2) f then (n + 1)%Z
            else if Z.even n then n else (n + 1)%Z in
  IZR up / 100.

Definition round2_t (d : t) : t :=
  match d with Finite x => Finite (round2 x) | Inf => Inf end.

End PyFloat.

Definition pyfloat : Type := PyFloat.t.

(* ------------------------------------------------------------------ *)
(** ** Exceptions and service results *)

(** The formatted part of a message that prints a float. *)
Inductive detail : Type :=
| Text (s : string)
| EvidenceTooFar (distance : pyfloat) (max_allowed : R).
    (* f"Evidence location too far from reported issue. Distance: {distance:.2f}m,
        Maximum allowed: {max}m. Please take a photo from within {max}m of the
        original location." *)

Inductive exn : Type :=
| ValueError (msg : string)
| HTTPException (status_code : Z) (what : detail)
| DatabaseError.              (* raised by a failing database round trip *)

Inductive Result (A : Type) : Type :=
| Ok (a : A)
| Raise (e : exn).

Arguments Ok {A} a.
Arguments Raise {A} e.

Definition timestamp : Type := nat.

(* ------------------------------------------------------------------ *)
(** ** Data model ([models.py]) *)

Module Models.

(** A note attached to a status change: free text, or the resolution service's
    f"Resolved with geo-verified evidence. Distance: {distance:.2f}m". *)
Inductive Note : Type :=
| NoteText (s : string)
| NoteGeoVerified (distance : pyfloat).

(** One element of the JSON list kept in [Report.status_history]. *)
Record StatusHistoryJson : Type := mkStatusHistoryJson {
  j_status : string;
  j_changed_by : string;
  j_changed_at : timestamp;
  j_notes : option Note
}.

(** The JSON object kept in [Report.resolution_coordinates]. *)
Record ResolutionCoordinates : Type := mkResolutionCoordinates {
  c_latitude : R;
  c_longitude : R;
  c_distance_from_original_meters : pyfloat;
  c_coordinate_source : string
}.

(** [Report], with the columns that the status lifecycle, the resolution and
    the duplicate scan read or write; the description, the AI texts, the MCQ
    answers and the audit timestamps play no part in them. *)
Record Report : Type := mkReport {
  id : Z;
  title : string;
  category : string;
  image_url : option string;
  latitude : R;
  longitude : R;
  urgency_score : Z;
  urgency_label : string;
  reporter_id : string;
  status : string;
  admin_notes : option string;
  status_history : option (list StatusHistoryJson);
  is_deleted : bool;
  deletion_reason : option string;
  deleted_at : option timestamp;
  resolved_by : option string;
  resolved_at : option timestamp;
  resolution_image_url : option string;
  resolution_coordinates : option ResolutionCoordinates;
  reported_at : timestamp;
  acknowledged_at : option timestamp;
  in_progress_at : option timestamp
}.

Definition set_status (v : string) (r : Report) : Report :=
  mkReport (id r) (title r) (category r) (image_url r) (latitude r) (longitude r)
    (urgency_score r) (urgency_label r) (reporter_id r) v (admin_notes r)
    (status_history r) (is_deleted r) (deletion_reason r) (deleted_at r) (resolved_by r)
    (resolved_at r) (resolution_image_url r) (resolution_coordinates r) (reported_at r)
    (acknowledged_at r) (in_progress_at r).

Definition set_admin_notes (v : option string) (r : Report) : Report :=
  mkReport (id r) (title r) (category r) (image_url r) (latitude r) (longitude r)
    (urgency_score r) (urgency_label r) (reporter_id r) (status r) v (status_history r)
    (is_deleted r) (deletion_reason r) (deleted_at r) (resolved_by r) (resolved_at r)
    (resolution_image_url r) (resolution_coordinates r) (reported_at r) (acknowledged_at
    r) (in_progress_at r).

Definition set_status_history (v : option (list StatusHistoryJson)) (r : Report) : Report :=
  mkReport (id r) (title r) (category r) (image_url r) (latitude r) (longitude r)
    (urgency_score r) (urgency_label r) (reporter_id r) (status r) (admin_notes r) v
    (is_deleted r) (deletion_reason r) (deleted_at r) (resolved_by r) (resolved_at r)
    (resolution_image_url r) (resolution_coordinates r) (reported_at r) (acknowledged_at
    r) (in_progress_at r).

Definition set_is_deleted (v : bool) (r : Report) : Report :=
  mkReport (id r) (title r) (category r) (image_url r) (latitude r) (longitude r)
    (urgency_score r) (urgency_label r) (reporter_id r) (status r) (admin_notes r)
    (status_history r) v (deletion_reason r) (deleted_at r) (resolved_by r) (resolved_at
    r) (resolution_image_url r) (resolution_coordinates r) (reported_at r)
    (acknowledged_at r) (in_progress_at r).

Definition set_deletion_reason (v : option string) (r : Report) : Report :=
  mkReport (id r) (title r) (category r) (image_url r) (latitude r) (longitude r)
    (urgency_score r) (urgency_label r) (reporter_id r) (status r) (admin_notes r)
    (status_history r) (is_deleted r) v (deleted_at r) (resolved_by r) (resolved_at r)
    (resolution_image_url r) (resolution_coordinates r) (reported_at r) (acknowledged_at
    r) (in_progress_at r).

Definition set_deleted_at (v : option timestamp) (r : Report) : Report :=
  mkReport (id r) (title r) (category r) (image_url r) (latitude r) (longitude r)
    (urgency_score r) (urgency_label r) (reporter_id r) (status r) (admin_notes r)
    (status_history r) (is_deleted r) (deletion_reason r) v (resolved_by r) (resolved_at
    r) (resolution_image_url r) (resolution_coordinates r) (reported_at r)
    (acknowledged_at r) (in_progress_at r).

Definition set_resolved_by (v : option string) (r : Report) : Report :=
  mkReport (id r) (title r) (category r) (image_url r) (latitude r) (longitude r)
    (urgency_score r) (urgency_label r) (reporter_id r) (status r) (admin_notes r)
    (status_history r) (is_deleted r) (deletion_reason r) (deleted_at r) v (resolved_at
    r) (resolution_image_url r) (resolution_coordinates r) (reported_at r)
    (acknowledged_at r) (in_progress_at r).

Definition set_resolved_at (v : option timestamp) (r : Report) : Report :=
  mkReport (id r) (title r) (category r) (image_url r) (latitude r) (longitude r)
    (urgency_score r) (urgency_label r) (reporter_id r) (status r) (admin_notes r)
    (status_history r) (is_deleted r) (deletion_reason r) (deleted_at r) (resolved_by r)
    v (resolution_image_url r) (resolution_coordinates r) (reported_at r)
    (acknowledged_at r) (in_progress_at r).

Definition set_resolution_image_url (v : option string) (r : Report) : Report :=
  mkReport (id r) (title r) (category r) (image_url r) (latitude r) (longitude r)
    (urgency_score r) (urgency_label r) (reporter_id r) (status r) (admin_notes r)
    (status_history r) (is_deleted r) (deletion_reason r) (deleted_at r) (resolved_by r)
    (resolved_at r) v (resolution_coordinates r) (reported_at r) (acknowledged_at r)
    (in_progress_at r).

Definition set_resolution_coordinates (v : option ResolutionCoordinates) (r : Report) : Report :=
  mkReport (id r) (title r) (category r) (image_url r) (latitude r) (longitude r)
    (urgency_score r) (urgency_label r) (reporter_id r) (status r) (admin_notes r)
    (status_history r) (is_deleted r) (deletion_reason r) (deleted_at r) (resolved_by r)
    (resolved_at r) (resolution_image_url r) v (reported_at r) (acknowledged_at r)
    (in_progress_at r).

Definition set_acknowledged_at (v : option timestamp) (r : Report) : Report :=
  mkReport (id r) (title r) (category r) (image_url r) (latitude r) (longitude r)
    (urgency_score r) (urgency_label r) (reporter_id r) (status r) (admin_notes r)
    (status_history r) (is_deleted r) (deletion_reason r) (deleted_at r) (resolved_by r)
    (resolved_at r) (resolution_image_url r) (resolution_coordinates r) (reported_at r)
    v (in_progress_at r).

Definition set_in_progress_at (v : option timestamp) (r : Report) : Report :=
  mkReport (id r) (title r) (category r) (image_url r) (latitude r) (longitude r)
    (urgency_score r) (urgency_label r) (reporter_id r) (status r) (admin_notes r)
    (status_history r) (is_deleted r) (deletion_reason r) (deleted_at r) (resolved_by r)
    (resolved_at r) (resolution_image_url r) (resolution_coordinates r) (reported_at r)
    (acknowledged_at r) v.

Definition set_urgency_score (v : Z) (r : Report) : Report :=
  mkReport (id r) (title r) (category r) (image_url r) (latitude r) (longitude r) v
    (urgency_label r) (reporter_id r) (status r) (admin_notes r) (status_history r)
    (is_deleted r) (deletion_reason r) (deleted_at r) (resolved_by r) (resolved_at r)
    (resolution_image_url r) (resolution_coordinates r) (reported_at r) (acknowledged_at
    r) (in_progress_at r).

Definition set_urgency_label (v : string) (r : Report) : Report :=
  mkReport (id r) (title r) (category r) (image_url r) (latitude r) (longitude r)
    (urgency_score r) v (reporter_id r) (status r) (admin_notes r) (status_history r)
    (is_deleted r) (deletion_reason r) (deleted_at r) (resolved_by r) (resolved_at r)
    (resolution_image_url r) (resolution_coordinates r) (reported_at r) (acknowledged_at
    r) (in_progress_at r).

Record ReportStatusHistory : Type := mkReportStatusHistory {
  h_report_id : Z;
  h_status : string;
  h_changed_by : string;
  h_changed_at : timestamp;      (* server_default=func.now() *)
  h_notes : option Note
}.

Record AdminVerification : Type := mkAdminVerification {
  v_report_id : Z;
  v_admin_id : string;
  v_verification_image_url : string
}.

Record FaceVerification : Type := mkFaceVerification {
  f_report_id : Z;
  f_admin_id : option string;
  f_face_verified : bool;
  f_verified_at : timestamp
}.

Record User : Type := mkUser {
  u_id : string;
  u_full_name : string;
  u_email : string
}.

(** A FastAPI [UploadFile]: its name, declared type and bytes, and the GPS
    position embedded in its EXIF block, if any. *)
Record UploadFile : Type := mkUploadFile {
  filename : option string;
  content_type : option string;
  content : string;
  exif_gps : option (R * R)
}.

End Models.

Import Models.

(* ------------------------------------------------------------------ *)
(** ** The database session *)

Record Store : Type := mkStore {
  reports : list Report;
  report_status_history : list ReportStatusHistory;
  admin_verifications : list AdminVerification;
  face_verifications : list FaceVerification;
  report_upvotes : list Z;        (* report_id of each upvote row *)
  report_comments : list Z        (* report_id of each comment row *)
}.

Record Session : Type := mkSession {
  committed : Store;      (* what the database holds *)
  working : Store;        (* this session's view: loaded objects and unflushed rows *)
  clock : timestamp;      (* read by func.now() and datetime.utcnow() *)
  faults : list bool      (* next round trips, [true] = the round trip raises *)
}.

Definition M (A : Type) : Type := Session -> Result A * Session.

Definition ret {A} (a : A) : M A := fun s => (Ok a, s).
Definition raise {A} (e : exn) : M A := fun s => (Raise e, s).

Definition bind {A B} (m : M A) (k : A -> M B) : M B :=
  fun s => match m s with
           | (Ok a, s') => k a s'
           | (Raise e, s') => (Raise e, s')
           end.

(** [try: body except Exception as e: handler(e)] *)
Definition try_except {A} (body : M A) (handler : exn -> M A) : M A :=
  fun s => match body s with
           | (Ok a, s') => (Ok a, s')
           | (Raise e, s') => handler e s'
           end.

Declare Scope session_scope.
Delimit Scope session_scope with session.
Notation "x <- m ;; k" := (bind m (fun x => k))
  (at level 61, m at next level, right associativity) : session_scope.
Notation "m ;; k" := (bind m (fun _ => k))
  (at level 61, right associativity) : session_scope.
Local Open Scope session_scope.

Definition get_working : M Store := fun s => (Ok (working s), s).

Definition put_working (w : Store) : M unit :=
  fun s => (Ok tt, mkSession (committed s) w (clock s) (faults s)).

Definition now : M timestamp := fun s => (Ok (clock s), s).

(** A round trip to the database server. *)
Definition round_trip : M unit :=
  fun s => match faults s with
           | [] => (Ok tt, s)
           | false :: fs => (Ok tt, mkSession (committed s) (working s) (clock s) fs)
           | true :: fs => (Raise DatabaseError, mkSession (committed s) (working s) (clock s) fs)
           end.

(** [db.commit()] *)
Definition commit : M unit :=
  round_trip ;;
  fun s => (Ok tt, mkSession (working s) (working s) (S (clock s)) (faults s)).

(** [db.rollback()] *)
Definition rollback : M unit :=
  fun s => (Ok tt, mkSession (committed s) (committed s) (clock s) (faults s)).

(** [db.refresh(obj)] *)
Definition refresh : M unit := round_trip.

Definition find_report (report_id : Z) (l : list Report) : option Report :=
  find (fun r => Z.eqb (id r) report_id) l.

(** [db.query(Report).filter(Report.id == report_id).first()] *)
Definition query_report (report_id : Z) : M (option Report) :=
  round_trip ;;
  w <- get_working ;;
  ret (find_report report_id (reports w)).

Definition with_reports (l : list Report) (w : Store) : Store :=
  mkStore l (report_status_history w) (admin_verifications w)
          (face_verifications w) (report_upvotes w) (report_comments w).

(** An attribute write on the loaded report object: every holder of the object
    sees it, so the write goes to the session's working copy. *)
Definition update_report (report_id : Z) (f : Report -> Report) : M unit :=
  w <- get_working ;;
  put_working
    (with_reports (map (fun r => if Z.eqb (id r) report_id then f r else r) (reports w)) w).

(** [db.add(row)] *)
Definition add_status_history (h : ReportStatusHistory) : M unit :=
  w <- get_working ;;
  put_working (mkStore (reports w) (report_status_history w ++ [h])
                 (admin_verifications w) (face_verifications w)
                 (report_upvotes w) (report_comments w)).

Definition add_admin_verification (v : AdminVerification) : M unit :=
  w <- get_working ;;
  put_working (mkStore (reports w) (report_status_history w)
                 (admin_verifications w ++ [v]) (face_verifications w)
                 (report_upvotes w) (report_comments w)).

Definition add_report (r : Report) : M unit :=
  w <- get_working ;;
  put_working (with_reports (reports w ++ [r]) w).

(** [if b: m] *)
Definition when (b : bool) (m : M unit) : M unit := if b then m else ret tt.

(* ------------------------------------------------------------------ *)
(** ** [services/status_service.py] *)

Module StatusService.

Definition valid_statuses : list string :=
  ["reported"; "acknowledged"; "in_progress"; "resolved"].

(** f"{self.valid_statuses}" *)
Definition valid_statuses_str : string :=
  "['reported', 'acknowledged', 'in_progress', 'resolved']".

(** The dictionaries returned by the two update methods. *)
Inductive StatusDict : Type :=
| Unchanged (message : string) (report_id : Z) (status : string)
| Changed (message : string) (report_id : Z) (old_status new_status changed_by : string)
          (changed_at : timestamp) (notes : option Note).

Fixpoint index_from (n : nat) (l : list string) (x : string) : option nat :=
  match l with
  | [] => None
  | y :: rest => if String.eqb y x then Some n else index_from (S n) rest x
  end.

(** [l.index(x)], with the message CPython gives to its [ValueError]
    ("'x' is not in list"; later versions say "list.index(x): x not in
    list", which has the same "not in list" in it). *)
Definition index (l : list string) (x : string) : M nat :=
  match index_from 0 l x with
  | Some i => ret i
  | None => raise (ValueError (PyStr.repr x ++ " is not in list"))
  end.

(** The "prevent skipping stages" block of [update_report_status]. *)
Definition validate_lifecycle (current new_status : string) : M unit :=
  try_except
    (current_status_index <- index valid_statuses current ;;
     new_status_index <- index valid_statuses new_status ;;
     when (Nat.ltb (current_status_index + 1) new_status_index)
       (raise (ValueError ("Cannot skip status stages. Current: " ++ current
                           ++ ", Attempted: " ++ new_status))))
    (fun e =>
       match e with
       | ValueError msg =>
           if PyStr.contains "not in list" msg
           then ret tt          (* logged, the transition is allowed *)
           else raise e
       | _ => raise e
       end).

Definition history_list (r : Report) : list StatusHistoryJson :=
  match status_history r with
  | Some l => l
  | None => []
  end.

Definition _update_status_history_json (report_id : Z) (new_status changed_by : string)
    (notes : option Note) : M unit :=
  t <- now ;;
  update_report report_id
    (fun r => set_status_history
                (Some (history_list r ++ [mkStatusHistoryJson new_status changed_by t notes])%list)
                r).

Definition update_report_status (report_id : Z) (new_status changed_by : string)
    (notes : option Note) : M StatusDict :=
  try_except
    (when (negb (PyStr.mem new_status valid_statuses))
       (raise (ValueError ("Invalid status: " ++ new_status ++ ". Valid statuses: "
                           ++ valid_statuses_str))) ;;
     found <- query_report report_id ;;
     match found with
     | None => raise (ValueError ("Report " ++ PyStr.of_Z report_id ++ " not found"))
     | Some report =>
         if String.eqb (status report) new_status then
           ret (Unchanged ("Status is already " ++ new_status) report_id new_status)
         else
           when (String.eqb (status report) "resolved"
                 && negb (String.eqb new_status "resolved"))
             (raise (ValueError
                "Report is resolved and cannot be changed. Use a dedicated reopen flow if needed.")) ;;
           validate_lifecycle (status report) new_status ;;
           when (String.eqb new_status "resolved"
                 && negb (String.eqb (status report) "resolved"))
             (raise (ValueError
                "Resolution requires evidence upload. Use the resolve endpoint instead.")) ;;
           let old_status := status report in
           update_report report_id (set_status new_status) ;;
           t <- now ;;
           (if String.eqb new_status "acknowledged" then
              update_report report_id (set_acknowledged_at (Some t))
            else if String.eqb new_status "in_progress" then
              update_report report_id (set_in_progress_at (Some t))
            else if String.eqb new_status "resolved" then
              update_report report_id (set_resolved_at (Some t))
            else ret tt) ;;
           add_status_history
             (mkReportStatusHistory report_id new_status changed_by t notes) ;;
           try_except
             (_update_status_history_json report_id new_status changed_by notes)
             (fun _ => ret tt) ;;
           commit ;;
           refresh ;;
           refresh ;;
           ret (Changed ("Status updated from " ++ old_status ++ " to " ++ new_status)
                  report_id old_status new_status changed_by t notes)
     end)
    (fun e => rollback ;; raise e).

Definition resolve_report_with_evidence (report_id : Z) (changed_by : string)
    (notes : option Note) : M StatusDict :=
  try_except
    (found <- query_report report_id ;;
     match found with
     | None => raise (ValueError ("Report " ++ PyStr.of_Z report_id ++ " not found"))
     | Some report =>
         if String.eqb (status report) "resolved" then
           ret (Unchanged "Report is already resolved" report_id "resolved")
         else
           let old_status := status report in
           update_report report_id (set_status "resolved") ;;
           t <- now ;;
           update_report report_id (set_resolved_at (Some t)) ;;
           add_status_history
             (mkReportStatusHistory report_id "resolved" changed_by t
                (match notes with
                 | Some n => Some n
                 | None => Some (NoteText "Report resolved with geo-verified evidence")
                 end)) ;;
           _update_status_history_json report_id "resolved" changed_by notes ;;
           commit ;;
           refresh ;;
           refresh ;;
           ret (Changed "Report resolved successfully"
                  report_id old_status "resolved" changed_by t notes)
     end)
    (fun e => rollback ;; raise e).

(** [order_by(ReportStatusHistory.changed_at.asc())], as a stable sort. *)
Fixpoint insert_by_changed_at (h : ReportStatusHistory) (l : list ReportStatusHistory)
  : list ReportStatusHistory :=
  match l with
  | [] => [h]
  | x :: rest =>
      if Nat.leb (h_changed_at h) (h_changed_at x) then h :: l
      else x :: insert_by_changed_at h rest
  end.

Definition order_by_changed_at (l : list ReportStatusHistory) : list ReportStatusHistory :=
  fold_right insert_by_changed_at [] l.

(** The rows of [get_status_history]; the dictionaries it builds carry the
    columns of the row. *)
Definition get_status_history (report_id : Z) : M (list ReportStatusHistory) :=
  try_except
    (round_trip ;;
     w <- get_working ;;
     ret (order_by_changed_at
            (filter (fun h => Z.eqb (h_report_id h) report_id) (report_status_history w))))
    (fun _ => ret []).

Record Stage : Type := mkStage {
  stage_status : string;
  stage_timestamp : option timestamp;
  stage_notes : string
}.

Record Timeline : Type := mkTimeline {
  t_report_id : Z;
  t_current_status : string;
  t_reported : Stage;
  t_acknowledged : Stage;
  t_in_progress : Stage;
  t_resolved : Stage;
  t_history : list ReportStatusHistory
}.

(** "completed" if the timestamp is set, else "pending". *)
Definition completed (at_ : option timestamp) : string :=
  match at_ with
  | Some _ => "completed"
  | None => "pending"
  end.

(** [get_report_status_timeline]; [None] is the empty dictionary. *)
Definition get_report_status_timeline (report_id : Z) : M (option Timeline) :=
  try_except
    (found <- query_report report_id ;;
     match found with
     | None => ret None
     | Some report =>
         history <- get_status_history report_id ;;
         ret (Some (mkTimeline report_id (status report)
                      (mkStage "completed" (Some (reported_at report))
                         "Issue reported by citizen")
                      (mkStage (completed (acknowledged_at report)) (acknowledged_at report)
                         "Issue acknowledged by admin")
                      (mkStage (completed (in_progress_at report)) (in_progress_at report)
                         "Work started on issue")
                      (mkStage (completed (resolved_at report)) (resolved_at report)
                         "Issue resolved with evidence")
                      history))
     end)
    (fun _ => ret None).

End StatusService.

(* ------------------------------------------------------------------ *)
(** ** Collaborators

    What the resolution and creation paths obtain from outside the core: the
    process environment, the storage service and the AI service.  The storage
    helpers catch their own errors and always return a URL (a placeholder or
    the empty string on failure); the AI calls may raise, which is [None]
    here. *)

(** What [json.loads] returns, as far as the handlers look at it. *)
Inductive Json : Type :=
| JsonNull                          (* None *)
| JsonObject (nonempty : bool)      (* a dict, whose keys are strings *)
| JsonOther (truthy : bool).        (* a list, a string, a number or a boolean *)

(** [if value:] *)
Definition json_truthy (value : Json) : bool :=
  match value with
  | JsonNull => false
  | JsonObject nonempty => nonempty
  | JsonOther truthy => truthy
  end.

(** Accepted by a pydantic field of type [Dict[str, Any]]. *)
Definition json_is_dict (value : Json) : bool :=
  match value with
  | JsonObject _ => true
  | _ => false
  end.

Record Env : Type := mkEnv {
  FACE_VERIFICATION_REQUIRED : option string;       (* os.getenv value, if set *)
  upload_image_to_storage : UploadFile -> string -> string;
  upload_admin_verification_image : UploadFile -> string -> Z -> string -> string;
  generate_summary : option (string * option string);   (* title, description *)
  classify_urgency : option (Z * string);               (* score, label *)
  uuid4 : string;
  json_loads : string -> option Json                (* [None]: JSONDecodeError *)
}.

(* ------------------------------------------------------------------ *)
(** ** [services/exif_service.py] *)

Module ExifService.

Local Open Scope R_scope.

(** [extract_gps_from_image]: the decoding of the EXIF block is done by PIL
    and piexif and is the [exif_gps] field of the file; the validation of the
    decoded position is the service's own.  It never raises. *)
Definition extract_gps_from_image (image : UploadFile) : option (R * R) :=
  if String.eqb (content image) "" then None
  else match exif_gps image with
       | None => None
       | Some (latitude, longitude) =>
           if negb (PyFloat.Rleb (-90) latitude && PyFloat.Rleb latitude 90) then None
           else if negb (PyFloat.Rleb (-180) longitude && PyFloat.Rleb longitude 180) then None
           else if PyFloat.Reqb latitude 0 && PyFloat.Reqb longitude 0 then None
           else Some (latitude, longitude)
       end.





Definition validate_gps_coordinates (latitude longitude : R) : bool :=
  (PyFloat.Rleb (-90) latitude && PyFloat.Rleb latitude 90)
  && (PyFloat.Rleb (-180) longitude && PyFloat.Rleb longitude 180).

End ExifService.

(* ------------------------------------------------------------------ *)
(** ** [services/resolution_service.py] *)

Module ResolutionService.

Import PyFloat.

Definition max_distance_meters : R := 30%R.

(** [math.radians] *)
Definition radians (x : R) : R := (x * (PI / 180))%R.

(** Haversine distance in meters; [Inf] for coordinates out of range.  The
    enclosing [try] of the source only guards against non-numeric
    arguments, which the types exclude. *)
Definition calculate_distance (lat1 lon1 lat2 lon2 : R) : pyfloat :=
  if negb (Rleb (-90) lat1 && Rleb lat1 90) || negb (Rleb (-90) lat2 && Rleb lat2 90)
  then Inf
  else if negb (Rleb (-180) lon1 && Rleb lon1 180)
          || negb (Rleb (-180) lon2 && Rleb lon2 180)
  then Inf
  else
    let lat1_rad := radians lat1 in
    let lon1_rad := radians lon1 in
    let lat2_rad := radians lat2 in
    let lon2_rad := radians lon2 in
    let dlat := (lat2_rad - lat1_rad)%R in
    let dlon := (lon2_rad - lon1_rad)%R in
    let a := (sin (dlat / 2) ^ 2
              + cos lat1_rad * cos lat2_rad * sin (dlon / 2) ^ 2)%R in
    let a := if Rltb 1 a then 1%R else if Rltb a 0 then 0%R else a in
    let c := (2 * asin (sqrt a))%R in
    let earth_radius := 6371000%R in
    let distance := (earth_radius * c)%R in
    Finite distance.

Definition verify_resolution_location
    (original_lat original_lon resolution_lat resolution_lon : R) : bool * pyfloat :=
  let distance :=
    calculate_distance original_lat original_lon resolution_lat resolution_lon in
  let is_valid := leb distance (Finite max_distance_meters) in
  (is_valid, distance).

Record ResolutionDict : Type := mkResolutionDict {
  d_success : bool;
  d_message : string;
  d_report_id : Z;
  d_resolution_coordinates : ResolutionCoordinates;
  d_distance_verified : bool;
  d_distance_meters : pyfloat;
  d_coordinate_source : string;
  d_resolution_image_url : string;
  d_status_update : StatusService.StatusDict;
  d_admin_id : string;
  d_admin_verification_image_url : option string
}.

Definition face_verification_required (env : Env) : bool :=
  String.eqb
    (PyStr.lower (match FACE_VERIFICATION_REQUIRED env with
                  | Some v => v
                  | None => "false"
                  end))
    "true".

Definition later (a b : FaceVerification) : FaceVerification :=
  if Nat.ltb (f_verified_at a) (f_verified_at b) then b else a.

(** The verified face checks of this admin for this report, latest first;
    [.first()] of that query. *)
Definition latest_face_verification (report_id : Z) (admin_id : string)
    (rows : list FaceVerification) : option FaceVerification :=
  fold_left
    (fun acc fv =>
       if Z.eqb (f_report_id fv) report_id
          && match f_admin_id fv with
             | Some a => String.eqb a admin_id
             | None => false
             end
          && f_face_verified fv
       then match acc with
            | Some best => Some (later best fv)
            | None => Some fv
            end
       else acc)
    rows None.

Definition query_latest_face_verification (report_id : Z) (admin_id : string)
  : M (option FaceVerification) :=
  round_trip ;;
  w <- get_working ;;
  ret (latest_face_verification report_id admin_id (face_verifications w)).

Definition resolve_report (env : Env) (report_id : Z) (admin_user : User)
    (resolution_image : UploadFile) (admin_notes : option string)
    (provided_lat provided_lon : option R)
    (admin_verification_image : option UploadFile) : M ResolutionDict :=
  try_except
    (found <- query_report report_id ;;
     match found with
     | None => raise (HTTPException 404 (Text "Report not found"))
     | Some report =>
         when (String.eqb (status report) "resolved")
           (raise (HTTPException 400 (Text "Report is already resolved"))) ;;
         (if face_verification_required env then
            latest_fv <- try_except
                           (query_latest_face_verification report_id (u_id admin_user))
                           (fun _ => ret None) ;;
            match latest_fv with
            | None =>
                raise (HTTPException 403 (Text
                  "Face verification required before resolving this report. Set FACE_VERIFICATION_REQUIRED=false to disable this requirement."))
            | Some _ => ret tt
            end
          else ret tt) ;;
         let image_content := content resolution_image in
         let gps_data := ExifService.extract_gps_from_image resolution_image in
         match gps_data with
         | None =>
             raise (HTTPException 400 (Text
               "Evidence image must include EXIF GPS data. Please ensure your camera's location services are enabled and take a new photo with GPS coordinates embedded in the image metadata."))
         | Some (resolution_lat, resolution_lon) =>
             let coordinate_source := "EXIF from image" in
             let '(is_location_valid, distance) :=
               verify_resolution_location (latitude report) (longitude report)
                 resolution_lat resolution_lon in
             when (negb is_location_valid)
               (raise (HTTPException 400 (EvidenceTooFar distance max_distance_meters))) ;;
             let resolution_image_url :=
               upload_image_to_storage env resolution_image image_content in
             let resolution_coords :=
               mkResolutionCoordinates resolution_lat resolution_lon
                 (round2_t distance) coordinate_source in
             status_update <- StatusService.resolve_report_with_evidence report_id
                                (u_id admin_user) (Some (NoteGeoVerified distance)) ;;
             t <- now ;;
             update_report report_id (set_resolved_by (Some (u_id admin_user))) ;;
             update_report report_id (set_resolved_at (Some t)) ;;
             update_report report_id (set_resolution_image_url (Some resolution_image_url)) ;;
             update_report report_id (set_resolution_coordinates (Some resolution_coords)) ;;
             update_report report_id (set_admin_notes admin_notes) ;;
             admin_verification_url <-
               match admin_verification_image with
               | Some selfie =>
                   let selfie_bytes := content selfie in
                   let url := upload_admin_verification_image env selfie selfie_bytes
                                report_id (u_id admin_user) in
                   when (negb (String.eqb url ""))
                     (add_admin_verification
                        (mkAdminVerification report_id (u_id admin_user) url)) ;;
                   ret (Some url)
               | None => ret None
               end ;;
             commit ;;
             refresh ;;
             ret (mkResolutionDict true "Report resolved successfully" report_id
                    resolution_coords true (round2_t distance) coordinate_source
                    resolution_image_url status_update (u_id admin_user)
                    admin_verification_url)
         end
     end)
    (fun e =>
       match e with
       | HTTPException _ _ => raise e
       | _ =>
           rollback ;;
           raise (HTTPException 500 (Text "Internal server error while resolving report"))
       end).

Record ResolutionDetails : Type := mkResolutionDetails {
  rd_report_id : Z;
  rd_resolved_by : option string;
  rd_resolved_at : option timestamp;
  rd_resolution_image_url : option string;
  rd_resolution_coordinates : option ResolutionCoordinates;
  rd_admin_notes : option string;
  rd_admin_verification_image_url : option string;
  rd_admin_id : option string;
  rd_admin_name : option string;
  rd_original_coordinates : R * R
}.

(** The latest verification row of a report.  Rows are kept in insertion
    order and [captured_at] is the time of the insertion, so the latest row
    is the last one. *)
Definition query_latest_admin_verification (report_id : Z) : M (option AdminVerification) :=
  round_trip ;;
  w <- get_working ;;
  ret (find (fun v => Z.eqb (v_report_id v) report_id) (rev (admin_verifications w))).

(** [db.query(User).filter(User.id == user_id).first()]; the users table,
    which no other operation here reads or writes, is the argument [users]. *)
Definition query_user (users : list User) (user_id : string) : M (option User) :=
  round_trip ;;
  ret (find (fun u => String.eqb (u_id u) user_id) users).

(** [get_resolution_details]; the JSON text of the coordinates is kept
    decoded. *)
Definition get_resolution_details (users : list User) (report_id : Z)
  : M (option ResolutionDetails) :=
  try_except
    (found <- query_report report_id ;;
     match found with
     | None => ret None
     | Some report =>
         if negb (String.eqb (status report) "resolved") then ret None
         else
           let resolution_coords := resolution_coordinates report in
           verification <- try_except (query_latest_admin_verification report_id)
                             (fun _ => ret None) ;;
           admin_name <- try_except
                           (match resolved_by report with
                            | Some admin_id =>
                                if String.eqb admin_id "" then ret None
                                else
                                  admin_user <- query_user users admin_id ;;
                                  ret (option_map u_full_name admin_user)
                            | None => ret None
                            end)
                           (fun _ => ret None) ;;
           ret (Some (mkResolutionDetails report_id (resolved_by report)
                        (resolved_at report) (resolution_image_url report)
                        resolution_coords (admin_notes report)
                        (option_map v_verification_image_url verification)
                        (resolved_by report) admin_name
                        (latitude report, longitude report)))
     end)
    (fun _ => ret None).

End ResolutionService.

(* ------------------------------------------------------------------ *)
(** ** [services/report_service.py] *)

Module ReportService.

(** [ReportCreate] of [schemas.py], restricted to the columns kept here. *)
Record ReportCreate : Type := mkReportCreate {
  rc_title : string;
  rc_category : string;
  rc_image_url : option string;
  rc_latitude : R;
  rc_longitude : R
}.

(** The constraints of the fields of [ReportCreate]: [title] of 1 to 255
    characters, [category] of 1 to 100, [latitude] in [-90, 90],
    [longitude] in [-180, 180], [mcq_responses] a dictionary or [None]. *)
Definition valid (title category : string) (latitude longitude : R)
    (mcq_responses : Json) : bool :=
  Nat.leb 1 (String.length title) && Nat.leb (String.length title) 255
  && Nat.leb 1 (String.length category) && Nat.leb (String.length category) 100
  && PyFloat.Rleb (-90) latitude && PyFloat.Rleb latitude 90
  && PyFloat.Rleb (-180) longitude && PyFloat.Rleb longitude 180
  && match mcq_responses with
     | JsonNull | JsonObject _ => true
     | JsonOther _ => false
     end.

(** [ReportCreate(title=..., ...)]: pydantic validates the fields and raises
    its [ValidationError], a [ValueError], when one is refused. *)
Definition new_ReportCreate (title category : string) (image_url : option string)
    (latitude longitude : R) (mcq_responses : Json) : M ReportCreate :=
  if valid title category latitude longitude mcq_responses
  then ret (mkReportCreate title category image_url latitude longitude)
  else raise (ValueError "validation error for ReportCreate").

(** The primary key the database gives to the next inserted report. *)
Definition next_id (l : list Report) : Z :=
  1 + fold_left (fun m r => Z.max m (id r)) l 0.

Definition create_report (env : Env) (report_data : ReportCreate) (reporter_id : string)
  : M Report :=
  try_except
    (w <- get_working ;;
     t <- now ;;
     let db_report :=
       mkReport (next_id (reports w))
         (rc_title report_data)
         (rc_category report_data)
         (rc_image_url report_data)
         (rc_latitude report_data)
         (rc_longitude report_data)
         50                        (* urgency_score *)
         "Medium"                  (* urgency_label *)
         (if String.eqb reporter_id "" then uuid4 env else reporter_id)
         "pending"                 (* status *)
         None None false None None None None None None
         t None None in
     add_report db_report ;;
     commit ;;
     refresh ;;
     ret db_report)
    (fun e => rollback ;; raise e).

(** [get_report_by_id]: a database error is logged and raised again. *)
Definition get_report_by_id (report_id : Z) : M (option Report) :=
  query_report report_id.

(** [get_reports_by_location]: the reports in a box of [radius_km / 111]
    degrees around the point. *)
Definition get_reports_by_location (latitude longitude radius_km : R) : M (list Report) :=
  round_trip ;;
  w <- get_working ;;
  ret (filter
         (fun report =>
            let lat_diff := Rabs (Models.latitude report - latitude) in
            let lon_diff := Rabs (Models.longitude report - longitude) in
            PyFloat.Rleb lat_diff (radius_km / 111)
            && PyFloat.Rleb lon_diff (radius_km / 111))
         (reports w)).

(** [db.delete(report)]: the loaded row leaves the table. *)
Fixpoint remove_report (report_id : Z) (l : list Report) : list Report :=
  match l with
  | [] => []
  | r :: rest => if Z.eqb (id r) report_id then rest else r :: remove_report report_id rest
  end.

Definition delete_report (report_id : Z) : M bool :=
  try_except
    (found <- query_report report_id ;;
     match found with
     | None => ret false
     | Some report =>
         w <- get_working ;;
         put_working (with_reports (remove_report report_id (reports w)) w) ;;
         commit ;;
         ret true
     end)
    (fun e => rollback ;; raise e).

End ReportService.

(* ------------------------------------------------------------------ *)
(** ** [main.py]: report creation and citizen deletion *)

Module Main.

Import PyFloat.

Record ExistingReport : Type := mkExistingReport {
  e_id : Z;
  e_title : string;
  e_category : string;
  e_status : string;
  e_latitude : R;
  e_longitude : R;
  e_upvotes : nat;
  e_comments : nat
}.

Record CreatedData : Type := mkCreatedData {
  n_id : Z;
  n_title : string;
  n_status : string;
  n_latitude : R;
  n_longitude : R
}.

Inductive CreateResponse : Type :=
| Duplicate (message : string) (existing_report : ExistingReport)
| Created (message : string) (data : CreatedData).

Definition active_statuses : list string := ["reported"; "acknowledged"; "in_progress"].

(** [(category or "").strip().lower()] *)
Definition normalize (category : string) : string := PyStr.lower (PyStr.strip category).

(** [db.query(Report).filter(Report.is_deleted == False,
                            Report.status.in_(active_statuses)).all()] *)
Definition query_candidates : M (list Report) :=
  round_trip ;;
  w <- get_working ;;
  ret (filter (fun r => negb (is_deleted r) && PyStr.mem (status r) active_statuses)
         (reports w)).

(** The loop over the candidates, from a given [nearest] and
    [nearest_distance]. *)
Fixpoint scan (candidates : list Report) (normalized_new_cat : string)
    (final_latitude final_longitude : R)
    (nearest : option Report) (nearest_distance : pyfloat) : option Report * pyfloat :=
  match candidates with
  | [] => (nearest, nearest_distance)
  | r :: rest =>
      let normalized_existing_cat := normalize (category r) in
      if negb (String.eqb normalized_existing_cat normalized_new_cat) then
        scan rest normalized_new_cat final_latitude final_longitude nearest nearest_distance
      else
        let d := ResolutionService.calculate_distance
                   (latitude r) (longitude r) final_latitude final_longitude in
        if leb d (Finite 30) && ltb d nearest_distance then
          scan rest normalized_new_cat final_latitude final_longitude (Some r) d
        else
          scan rest normalized_new_cat final_latitude final_longitude nearest nearest_distance
  end.

(** [db.query(func.count(...)).filter(... == report_id).scalar() or 0] *)
Definition count_rows (rows : Store -> list Z) (report_id : Z) : M nat :=
  round_trip ;;
  w <- get_working ;;
  ret (length (filter (Z.eqb report_id) (rows w))).

(** The duplicate check: [Some] summary when the handler returns early. *)
Definition duplicate_check (category : string) (final_latitude final_longitude : R)
  : M (option ExistingReport) :=
  try_except
    (candidates <- query_candidates ;;
     let normalized_new_cat := normalize category in
     match fst (scan candidates normalized_new_cat final_latitude final_longitude
                  None Inf) with
     | Some nearest =>
         upvotes_count <- count_rows report_upvotes (id nearest) ;;
         comments_count <- count_rows report_comments (id nearest) ;;
         ret (Some (mkExistingReport (id nearest) (Models.title nearest) (Models.category nearest)
                      (status nearest) (Models.latitude nearest) (Models.longitude nearest)
                      upvotes_count comments_count))
     | None => ret None
     end)
    (fun _ => ret None).          (* logged: proceeding with creation *)

(** The block "Parse MCQ responses": [mcq_data]. *)
Definition parse_mcq_responses (env : Env) (mcq_responses : option string) : Json :=
  match mcq_responses with
  | Some text =>
      if String.eqb text "" then JsonObject false
      else match json_loads env text with
           | Some mcq_data => mcq_data
           | None => JsonObject false          (* logged: invalid JSON *)
           end
  | None => JsonObject false
  end.

(** The block "Generate AI summary": [ai_title] and [ai_description].  The
    answer of the AI service to the request is [generate_summary env]; a
    truthy [mcq_data] that is no dictionary is refused by
    [AISummaryRequest], inside the [try]. *)
Definition ai_summary (env : Env) (title : string) (description : option string)
    (mcq_data : Json) : string * option string :=
  if json_truthy mcq_data && negb (json_is_dict mcq_data) then (title, description)
  else match generate_summary env with
       | Some summary => summary
       | None => (title, description)
       end.

(** The handler of [POST /reports/create].  The gamification broadcasts
    that follow the creation run inside [try ... except Exception: pass]
    and change neither the reports nor the response; they are left out. *)
Definition create_issue_report (env : Env) (title : string) (description : option string)
    (category : string) (image : UploadFile) (latitude longitude : option R)
    (mcq_responses : option string) (current_user : User) : M CreateResponse :=
  try_except
    (when (match content_type image with
           | Some ct => negb (PyStr.startswith ct "image/")
           | None => true
           end)
       (raise (HTTPException 400 (Text "File must be an image (JPEG/PNG)"))) ;;
     let content := Models.content image in
     when (Z.ltb (10 * 1024 * 1024) (Z.of_nat (String.length content)))
       (raise (HTTPException 400 (Text "File size must be less than 10MB"))) ;;
     let gps_data := ExifService.extract_gps_from_image image in
     let final_latitude :=
       match gps_data with Some (la, _) => Some la | None => latitude end in
     let final_longitude :=
       match gps_data with Some (_, lo) => Some lo | None => longitude end in
     match final_latitude, final_longitude with
     | Some final_latitude, Some final_longitude =>
         dup <- duplicate_check category final_latitude final_longitude ;;
         match dup with
         | Some existing =>
             ret (Duplicate "This issue has already been reported nearby." existing)
         | None =>
             let image_url := upload_image_to_storage env image content in
             let mcq_data := parse_mcq_responses env mcq_responses in
             let '(ai_title, ai_description) :=
               ai_summary env title description mcq_data in
             report_data <- ReportService.new_ReportCreate ai_title category
                              (Some image_url) final_latitude final_longitude mcq_data ;;
             report <- ReportService.create_report env report_data (u_id current_user) ;;
             try_except
               (match (if json_is_dict mcq_data then classify_urgency env
                       else None)      (* [AIClassificationRequest] refuses it *)
                with
                | Some (urgency_score, urgency_label) =>
                    update_report (id report) (set_urgency_score urgency_score) ;;
                    update_report (id report) (set_urgency_label urgency_label) ;;
                    commit
                | None => raise (ValueError "classification failed")
                end)
               (fun _ => ret tt) ;;
             ret (Created "Report created successfully."
                    (mkCreatedData (id report) (Models.title report) (status report)
                       (Models.latitude report) (Models.longitude report)))
         end
     | _, _ =>
         raise (HTTPException 400 (Text
           "GPS coordinates are required. Either provide them in the image EXIF data or as form parameters."))
     end)
    (fun e =>
       match e with
       | HTTPException _ _ => raise e
       | _ => raise (HTTPException 500 (Text "Internal server error while creating report"))
       end).

(** [db.query(Report).filter(Report.id == report_id,
                            Report.reporter_id == current_user.id).first()] *)
Definition query_own_report (report_id : Z) (user_id : string) : M (option Report) :=
  round_trip ;;
  w <- get_working ;;
  ret (find (fun r => Z.eqb (id r) report_id && String.eqb (reporter_id r) user_id)
         (reports w)).

Definition delete_citizen_report (report_id : Z) (reason : string) (current_user : User)
  : M string :=
  try_except
    (found <- query_own_report report_id (u_id current_user) ;;
     match found with
     | None => raise (HTTPException 404 (Text "Report not found or access denied"))
     | Some report =>
         when (is_deleted report)
           (raise (HTTPException 400 (Text "Report has already been deleted"))) ;;
         t <- now ;;
         update_report report_id (set_is_deleted true) ;;
         update_report report_id (set_deletion_reason (Some reason)) ;;
         update_report report_id (set_deleted_at (Some t)) ;;
         update_report report_id (set_status "deleted") ;;
         commit ;;
         ret "Report deleted successfully"
     end)
    (fun e =>
       match e with
       | HTTPException _ _ => raise e
       | _ => raise (HTTPException 500 (Text "Internal server error while deleting report"))
       end).

(** The message of [broadcast_status_update]; a field the result dictionary
    does not have is sent as the empty string. *)
Record StatusUpdateMessage : Type := mkStatusUpdateMessage {
  m_report_id : Z;
  m_old_status : string;
  m_new_status : string;
  m_changed_by : string;
  m_timestamp : option timestamp;
  m_notes : option Note
}.

(** The handler of [PATCH /admin/reports/{id}/status], with what it
    broadcasts to the watchers of the report. *)
Definition update_report_status (report_id : Z) (new_status : string)
    (notes : option Note) (current_admin : User)
  : M (StatusService.StatusDict * option StatusUpdateMessage) :=
  try_except
    (result <- StatusService.update_report_status report_id new_status
                 (u_id current_admin) notes ;;
     let changed_by :=
       if String.eqb (u_full_name current_admin) "" then u_email current_admin
       else u_full_name current_admin in
     ret (result,
          Some (match result with
                | StatusService.Unchanged _ _ _ =>
                    mkStatusUpdateMessage report_id "" "" changed_by None
                      (Some (NoteText ""))
                | StatusService.Changed _ _ old_status new_status' _ changed_at notes' =>
                    mkStatusUpdateMessage report_id old_status new_status' changed_by
                      (Some changed_at) notes'
                end)))
    (fun _ =>
       raise (HTTPException 500 (Text "Internal server error while updating status"))).

End Main.

(* ------------------------------------------------------------------ *)
(** ** [services/gamification_service.py] *)

Module GamificationService.

(** [compute_level]: the name of the tier, the points gained inside it and
    the points the tier spans. *)
Definition compute_level (points : Z) : string * Z * Z :=
  if Z.leb 2000 points then ("Platinum", points - 2000, 1000)
  else if Z.leb 1000 points then ("Gold", points - 1000, 1000)
  else if Z.leb 500 points then ("Silver", points - 500, 500)
  else ("Bronze", points - 0, 500).

End GamificationService.

(* ------------------------------------------------------------------ *)
(** ** Vocabulary of the specification *)

(** The named errors of the specification, and how the exceptions of the
    code are read as them. *)
Inductive SpecError : Type :=
| NotFoundError
| AlreadyResolvedError
| VerificationRequiredError
| MissingLocationEvidenceError
| LocationTooFarError
| SkippedStageError
| LockedAfterResolutionError
| ResolutionRequiresEvidenceError.

Definition locked_message : string :=
  "Report is resolved and cannot be changed. Use a dedicated reopen flow if needed.".

Definition requires_evidence_message : string :=
  "Resolution requires evidence upload. Use the resolve endpoint instead.".

Definition missing_exif_message : string :=
  "Evidence image must include EXIF GPS data. Please ensure your camera's location services are enabled and take a new photo with GPS coordinates embedded in the image metadata.".

Definition skip_message (current new_status : string) : string :=
  "Cannot skip status stages. Current: " ++ current ++ ", Attempted: " ++ new_status.

Definition error_kind (e : exn) : option SpecError :=
  match e with
  | ValueError msg =>
      if String.prefix "Cannot skip status stages." msg then Some SkippedStageError
      else if String.eqb msg locked_message then Some LockedAfterResolutionError
      else if String.eqb msg requires_evidence_message
           then Some ResolutionRequiresEvidenceError
      else None
  | HTTPException code (Text msg) =>
      if Z.eqb code 404 && String.eqb msg "Report not found" then Some NotFoundError
      else if Z.eqb code 400 && String.eqb msg "Report is already resolved"
           then Some AlreadyResolvedError
      else if Z.eqb code 403 then Some VerificationRequiredError
      else if Z.eqb code 400 && String.eqb msg missing_exif_message
           then Some MissingLocationEvidenceError
      else None
  | HTTPException code (EvidenceTooFar _ _) =>
      if Z.eqb code 400 then Some LocationTooFarError else None
  | DatabaseError => None
  end.










(** The status values of the data model. *)
Definition report_statuses : list string :=
  ["reported"; "acknowledged"; "in_progress"; "resolved"; "deleted"].

(* ------------------------------------------------------------------ *)
(** ** Effects of the operations, in closed form *)

(** A session whose database answers every round trip. *)
Definition healthy (s : Session) : Prop := faults s = [].

(** A session as a request receives it: nothing loaded or pending yet. *)
Definition fresh (s : Session) : Prop := working s = committed s.

Definition rolled_back (s : Session) : Session :=
  mkSession (committed s) (committed s) (clock s) (faults s).

Definition on_report (report_id : Z) (f : Report -> Report) (r : Report) : Report :=
  if Z.eqb (id r) report_id then f r else r.

Definition stamp (new_status : string) (t : timestamp) (r : Report) : Report :=
  if String.eqb new_status "acknowledged" then set_acknowledged_at (Some t) r
  else if String.eqb new_status "in_progress" then set_in_progress_at (Some t) r
  else if String.eqb new_status "resolved" then set_resolved_at (Some t) r
  else r.

Definition log_json (new_status changed_by : string) (t : timestamp) (notes : option Note)
    (r : Report) : Report :=
  set_status_history
    (Some (StatusService.history_list r
           ++ [mkStatusHistoryJson new_status changed_by t notes])%list) r.

(** What an accepted status update does to the report. *)
Definition transition (new_status changed_by : string) (t : timestamp)
    (notes : option Note) (r : Report) : Report :=
  log_json new_status changed_by t notes (stamp new_status t (set_status new_status r)).

Definition accepted_store (w : Store) (report_id : Z) (new_status changed_by : string)
    (t : timestamp) (notes : option Note) : Store :=
  mkStore (map (on_report report_id (transition new_status changed_by t notes)) (reports w))
    (report_status_history w
     ++ [mkReportStatusHistory report_id new_status changed_by t notes])
    (admin_verifications w) (face_verifications w) (report_upvotes w) (report_comments w).

Definition accepted (s : Session) (report_id : Z) (new_status changed_by : string)
    (notes : option Note) : Session :=
  let w := accepted_store (working s) report_id new_status changed_by (clock s) notes in
  mkSession w w (S (clock s)) [].

Definition lifecycle_ok (current new_status : string) : bool :=
  match StatusService.index_from 0 StatusService.valid_statuses current,
        StatusService.index_from 0 StatusService.valid_statuses new_status with
  | Some i, Some j => negb (Nat.ltb (i + 1) j)
  | _, _ => true
  end.

Definition preserves_id (f : Report -> Report) : Prop := forall r, id (f r) = id r.

(** The report with a given key in the committed store. *)
Definition stored (s : Session) (report_id : Z) : option Report :=
  find_report report_id (reports (committed s)).

(** ** Report creation, in closed form *)

(** The coordinates a creation request ends up with: those of the EXIF block,
    else those of the form. *)
Definition final_coordinates (image : UploadFile) (latitude longitude : option R)
  : option (R * R) :=
  match ExifService.extract_gps_from_image image with
  | Some p => Some p
  | None => match latitude, longitude with
            | Some la, Some lo => Some (la, lo)
            | _, _ => None
            end
  end.

(** The request passes the validation of [ReportCreate], with the title the
    handler gives to the report and the coordinates it ends up with. *)
Definition well_formed (env : Env) (title : string) (description : option string)
    (category : string) (la lo : R) (mcq_responses : option string) : Prop :=
  let mcq_data := Main.parse_mcq_responses env mcq_responses in
  ReportService.valid (fst (Main.ai_summary env title description mcq_data)) category
    la lo mcq_data = true.

(** An upload that passes the type and size checks of the handlers. *)
Definition acceptable_upload (image : UploadFile) : Prop :=
  (exists ct, content_type image = Some ct /\ PyStr.startswith ct "image/" = true)
  /\ Z.ltb (10 * 1024 * 1024) (Z.of_nat (String.length (content image))) = false.

(** The reports the duplicate scan looks at. *)
Definition candidates_of (w : Store) : list Report :=
  filter (fun r => negb (is_deleted r) && PyStr.mem (status r) Main.active_statuses)
    (reports w).



(** The summary of an existing report returned for a duplicate. *)
Definition summary (w : Store) (r : Report) : Main.ExistingReport :=
  Main.mkExistingReport (id r) (title r) (category r) (status r)
    (latitude r) (longitude r)
    (length (filter (Z.eqb (id r)) (report_upvotes w)))
    (length (filter (Z.eqb (id r)) (report_comments w))).

(** The row [create_report] inserts. *)
Definition new_report (env : Env) (data : ReportService.ReportCreate) (reporter : string)
    (w : Store) (t : timestamp) : Report :=
  mkReport (ReportService.next_id (reports w))
    (ReportService.rc_title data) (ReportService.rc_category data)
    (ReportService.rc_image_url data)
    (ReportService.rc_latitude data) (ReportService.rc_longitude data)
    50 "Medium" (if String.eqb reporter "" then uuid4 env else reporter)
    "pending" None None false None None None None None None t None None.

(** ** Resolution *)

(** The identity gate lets this admin through. *)
Definition gate_open (env : Env) (w : Store) (report_id : Z) (admin_user : User) : bool :=
  negb (ResolutionService.face_verification_required env)
  || match ResolutionService.latest_face_verification report_id (u_id admin_user)
             (face_verifications w) with
     | Some _ => true
     | None => false
     end.

(** What the citizen deletion does to the report. *)
Definition deletion (reason : string) (t : timestamp) (r : Report) : Report :=
  set_status "deleted"
    (set_deleted_at (Some t) (set_deletion_reason (Some reason) (set_is_deleted true r))).

(** The term [a] of the Haversine formula, before it is clamped. *)
Definition haversine_a (lat1 lon1 lat2 lon2 : R) : R :=
  (sin ((ResolutionService.radians lat2 - ResolutionService.radians lat1) / 2) ^ 2
   + cos (ResolutionService.radians lat1) * cos (ResolutionService.radians lat2)
     * sin ((ResolutionService.radians lon2 - ResolutionService.radians lon1) / 2) ^ 2)%R.


(* ------------------------------------------------------------------ *)
(** ** Sample data *)

Module Sample.

Definition pothole : Report :=
  mkReport 1 "Pothole on main road" "Pothole" None 12%R 77%R 50 "Medium" "citizen-1"
    "reported" None None false None None None None None None 0%nat None None.

Definition store : Store := mkStore [pothole] [] [] [] [] [].

(** A request session on a database that answers. *)
Definition session : Session := mkSession store store 5%nat [].

(** The same, on a database whose sixth round trip fails. *)
Definition session_failing_last_commit : Session :=
  mkSession store store 5%nat [false; false; false; false; false; true].

(** The same, on a database whose first round trip fails. *)
Definition session_failing_scan : Session := mkSession store store 5%nat [true].

Definition empty_store : Store := mkStore [] [] [] [] [] [].
Definition empty_session : Session := mkSession empty_store empty_store 5%nat [].

Definition citizen : User := mkUser "citizen-1" "Asha" "asha@example.org".
Definition admin : User := mkUser "admin-1" "Ravi" "ravi@city.example".

Definition env : Env :=
  mkEnv None (fun _ _ => "/uploads/2025/01/01/photo.jpg")
    (fun _ _ _ _ => "/uploads/admin_verifications/1_admin-1.jpg") None None
    "00000000-0000-4000-8000-000000000000" (fun _ => None).

(** A photo taken at the place of the report, and one without GPS. *)
Definition evidence_on_site : UploadFile :=
  mkUploadFile (Some "fixed.jpg") (Some "image/jpeg") "JPEG" (Some (12%R, 77%R)).

Definition photo_without_gps : UploadFile :=
  mkUploadFile (Some "photo.jpg") (Some "image/jpeg") "JPEG" None.

(** The pothole after a geo-verified resolution. *)
Definition resolved_pothole : Report :=
  mkReport 1 "Pothole on main road" "Pothole" None 12%R 77%R 50 "Medium" "citizen-1"
    "resolved" None None false None None (Some "admin-1") (Some 4%nat)
    (Some "/uploads/2025/01/01/photo.jpg")
    (Some (mkResolutionCoordinates 12%R 77%R (PyFloat.Finite 0%R) "EXIF from image"))
    0%nat (Some 2%nat) (Some 3%nat).

Definition resolved_store : Store := mkStore [resolved_pothole] [] [] [] [] [].
Definition resolved_session : Session := mkSession resolved_store resolved_store 5%nat [].

(** A report that create_report has just inserted. *)
Definition pending_pothole : Report := set_status "pending" pothole.
Definition pending_store : Store := mkStore [pending_pothole] [] [] [] [] [].
Definition pending_session : Session := mkSession pending_store pending_store 5%nat [].



End Sample.

(* ------------------------------------------------------------------ *)
(** ** Statements about every run *)

(** [inv P m]: a run of [m] from a session in [P] ends in [P], whatever the
    database answers on the way. *)
Definition inv {A} (P : Session -> Prop) (m : M A) : Prop :=
  forall s, P s -> P (snd (m s)).

(** [raises E m]: an exception that leaves [m] is in [E]. *)
Definition raises {A} (E : exn -> Prop) (m : M A) : Prop :=
  forall s e, fst (m s) = Raise e -> E e.

(** A property of the data, of the database and of the working copy alike. *)
Definition both (I : Store -> Prop) (s : Session) : Prop :=
  I (committed s) /\ I (working s).

Definition apply_update (report_id : Z) (f : Report -> Report) (w : Store) : Store :=
  with_reports (map (on_report report_id f) (reports w)) w.

Definition with_history (h : list ReportStatusHistory) (w : Store) : Store :=
  mkStore (reports w) h (admin_verifications w) (face_verifications w)
    (report_upvotes w) (report_comments w).

Definition with_verifications (v : list AdminVerification) (w : Store) : Store :=
  mkStore (reports w) (report_status_history w) v (face_verifications w)
    (report_upvotes w) (report_comments w).

(** The status values the operations write. *)
Definition vocabulary : list string :=
  ["pending"; "reported"; "acknowledged"; "in_progress"; "resolved"; "deleted"].

Definition in_vocabulary (w : Store) : Prop :=
  forall r, In r (reports w) -> In (status r) vocabulary.

(** The columns of a report that say which report it is, whose, where and of
    what kind. *)
Definition identity (r : Report) : Z * string * string * string * R * R * timestamp :=
  (id r, reporter_id r, title r, category r, latitude r, longitude r, reported_at r).

(** [grows w0 w]: every report of [w0] is still in [w], at its place and with
    its identity, and the history and verification rows of [w0] are still the
    first rows of [w]. *)
Definition grows (w0 w : Store) : Prop :=
  (exists more, map identity (reports w) = (map identity (reports w0) ++ more)%list)
  /\ (exists more, report_status_history w = (report_status_history w0 ++ more)%list)
  /\ (exists more, admin_verifications w = (admin_verifications w0 ++ more)%list).

(** An exception of the status service: a [ValueError] or a database error. *)
Definition service_error (e : exn) : Prop :=
  (exists msg, e = ValueError msg) \/ e = DatabaseError.

(** The history rows of a table are in the order of their times. *)
Fixpoint chronological (l : list ReportStatusHistory) : Prop :=
  match l with
  | [] => True
  | h :: rest =>
      (forall h', In h' rest -> (h_changed_at h <= h_changed_at h')%nat)
      /\ chronological rest
  end.

(** The history table a session sees is in the order of its times, none of
    which lies ahead of the clock. *)
Definition timely (s : Session) : Prop :=
  chronological (report_status_history (working s))
  /\ forall h, In h (report_status_history (working s)) -> (h_changed_at h <= clock s)%nat.

(** The history rows of one report, as the table holds them. *)
Definition rows_of (report_id : Z) (w : Store) : list ReportStatusHistory :=
  filter (fun h => Z.eqb (h_report_id h) report_id) (report_status_history w).

(** The same session on a database that answers every round trip. *)
Definition answering (s : Session) : Session :=
  mkSession (committed s) (working s) (clock s) [].

(** ** Resolution, in closed form *)

(** The note of the history row written by [resolve_report_with_evidence]. *)
Definition evidence_note (notes : option Note) : option Note :=
  match notes with
  | Some n => Some n
  | None => Some (NoteText "Report resolved with geo-verified evidence")
  end.

(** The session after [resolve_report_with_evidence] has resolved a report. *)
Definition evidence_store (w : Store) (report_id : Z) (changed_by : string)
    (t : timestamp) (notes : option Note) : Store :=
  mkStore (map (on_report report_id (transition "resolved" changed_by t notes)) (reports w))
    (report_status_history w
     ++ [mkReportStatusHistory report_id "resolved" changed_by t (evidence_note notes)])
    (admin_verifications w) (face_verifications w) (report_upvotes w) (report_comments w).

Definition evidenced (s : Session) (report_id : Z) (changed_by : string)
    (notes : option Note) : Session :=
  let w := evidence_store (working s) report_id changed_by (clock s) notes in
  mkSession w w (S (clock s)) [].

(** What [resolve_report] writes on the report after the status service has
    resolved it. *)
Definition resolution (admin_id : string) (t : timestamp) (url : string)
    (coords : ResolutionCoordinates) (admin_notes : option string) (r : Report) : Report :=
  set_admin_notes admin_notes
    (set_resolution_coordinates (Some coords)
       (set_resolution_image_url (Some url)
          (set_resolved_at (Some t) (set_resolved_by (Some admin_id) r)))).

(** The verification rows [resolve_report] adds for a selfie. *)
Definition selfie_rows (env : Env) (report_id : Z) (admin_id : string)
    (selfie : option UploadFile) : list AdminVerification :=
  match selfie with
  | Some f =>
      let url := upload_admin_verification_image env f (content f) report_id admin_id in
      if String.eqb url "" then [] else [mkAdminVerification report_id admin_id url]
  | None => []
  end.

(** The database after [resolve_report] has succeeded: the report resolved
    by the status service at time [t], then the resolution columns written
    and the selfie row added. *)
Definition resolved_store (env : Env) (w : Store) (report_id : Z) (admin_id : string)
    (t : timestamp) (url : string) (coords : ResolutionCoordinates) (distance : pyfloat)
    (admin_notes : option string) (selfie : option UploadFile) : Store :=
  let w1 := evidence_store w report_id admin_id t (Some (NoteGeoVerified distance)) in
  mkStore
    (map (on_report report_id (resolution admin_id (S t) url coords admin_notes))
       (reports w1))
    (report_status_history w1)
    (admin_verifications w1 ++ selfie_rows env report_id admin_id selfie)
    (face_verifications w1) (report_upvotes w1) (report_comments w1).

(* ------------------------------------------------------------------ *)
(** ** More sample data *)

Module Cases.


(** A pothole that has been acknowledged, then worked on. *)
Definition worked_on : Report :=
  mkReport 1 "Pothole on main road" "Pothole" None 12%R 77%R 50 "Medium" "citizen-1"
    "in_progress" None None false None None None None None None
    0%nat (Some 2%nat) (Some 3%nat).

Definition history : list ReportStatusHistory :=
  [mkReportStatusHistory 1 "acknowledged" "admin-1" 2%nat None;
   mkReportStatusHistory 2 "acknowledged" "admin-1" 2%nat None;
   mkReportStatusHistory 1 "in_progress" "admin-1" 3%nat None].

Definition store : Store := mkStore [worked_on] history [] [] [] [].
Definition session : Session := mkSession store store 5%nat [].

(** A report that is stored with a latitude that does not exist. *)
Definition misplaced : Report :=
  mkReport 1 "Pothole on main road" "Pothole" None 120%R 77%R 50 "Medium" "citizen-1"
    "reported" None None false None None None None None None 0%nat None None.

Definition misplaced_store : Store := mkStore [misplaced] [] [] [] [] [].
Definition misplaced_session : Session :=
  mkSession misplaced_store misplaced_store 5%nat [].

Definition users : list User := [Sample.citizen; Sample.admin].

End Cases.

(* ------------------------------------------------------------------ *)
(** * Properties *)

(** ** Strings *)

Lemma contains_app_r (needle pre hay : string) :
  PyStr.contains needle hay = true -> PyStr.contains needle (pre ++ hay) = true.
Proof.
  intros H. induction pre as [|c pre IH]; [exact H|].
  change (String c pre ++ hay) with (String c (pre ++ hay)).
  cbn [PyStr.contains].
  destruct (String.prefix needle (String c (pre ++ hay))); [reflexivity | exact IH].
Qed.

Lemma append_assoc (a b c : string) : (a ++ b) ++ c = a ++ (b ++ c).
Proof. induction a as [|x a IH]; simpl; [reflexivity | now rewrite IH]. Qed.

Lemma not_in_list_message (x : string) :
  PyStr.contains "not in list" (PyStr.repr x ++ " is not in list") = true.
Proof.
  unfold PyStr.repr. rewrite !append_assoc.
  apply (contains_app_r _ "'"), contains_app_r. reflexivity.
Qed.

Lemma mem_In (x : string) (l : list string) : PyStr.mem x l = true <-> In x l.
Proof.
  unfold PyStr.mem. rewrite existsb_exists. split.
  - intros [y [Hy E]]. apply String.eqb_eq in E. subst. exact Hy.
  - intros H. exists x. split; [exact H | apply String.eqb_refl].
Qed.

(** ** The ordered list of statuses *)

Section ValidStatuses.

Import StatusService.

Lemma index_from_In (l : list string) (x : string) (n i : nat) :
  index_from n l x = Some i -> In x l.
Proof.
  revert n. induction l as [|y l IH]; intros n; simpl; [discriminate|].
  destruct (String.eqb y x) eqn:E.
  - apply String.eqb_eq in E. intros _. left. exact E.
  - intros H. right. exact (IH _ H).
Qed.

Lemma index_from_None (l : list string) (x : string) (n : nat) :
  ~ In x l -> index_from n l x = None.
Proof.
  revert n. induction l as [|y l IH]; intros n H; simpl; [reflexivity|].
  destruct (String.eqb y x) eqn:E.
  - apply String.eqb_eq in E. exfalso. apply H. left. exact E.
  - apply IH. intros Hin. apply H. right. exact Hin.
Qed.

Lemma In_valid_statuses (x : string) :
  In x valid_statuses ->
  x = "reported" \/ x = "acknowledged" \/ x = "in_progress" \/ x = "resolved".
Proof. unfold valid_statuses. simpl. intuition congruence. Qed.







Lemma validate_lifecycle_run (current new_status : string) (s : Session) :
  validate_lifecycle current new_status s =
  (if lifecycle_ok current new_status then Ok tt
   else Raise (ValueError (skip_message current new_status)), s).
Proof.
  unfold validate_lifecycle, lifecycle_ok, index, try_except, bind, when.
  destruct (index_from 0 valid_statuses current) as [i|] eqn:Hi.
  - destruct (index_from 0 valid_statuses new_status) as [j|] eqn:Hj.
    + apply index_from_In, In_valid_statuses in Hi.
      apply index_from_In, In_valid_statuses in Hj.
      cbv [ret].
      destruct (Nat.ltb (i + 1) j); [|reflexivity].
      destruct Hi as [-> | [-> | [-> | ->]]]; destruct Hj as [-> | [-> | [-> | ->]]];
        reflexivity.
    + cbv [ret raise]. rewrite not_in_list_message. reflexivity.
  - cbv [raise]. rewrite not_in_list_message. reflexivity.
Qed.

End ValidStatuses.

(** ** Attribute writes *)

Lemma map_on_report (report_id : Z) (f g : Report -> Report) (l : list Report) :
  preserves_id g ->
  map (on_report report_id f) (map (on_report report_id g) l)
  = map (on_report report_id (fun r => f (g r))) l.
Proof.
  intros Hg. rewrite map_map. apply map_ext. intros r. unfold on_report.
  destruct (Z.eqb (id r) report_id) eqn:E.
  - rewrite Hg, E. reflexivity.
  - rewrite E. reflexivity.
Qed.

Lemma map_on_report_id (report_id : Z) (l : list Report) :
  map (on_report report_id (fun r => r)) l = l.
Proof.
  rewrite <- (map_id l) at 2. apply map_ext. intros r. unfold on_report.
  destruct (Z.eqb (id r) report_id); reflexivity.
Qed.

Lemma stamp_preserves_id (new_status : string) (t : timestamp) :
  preserves_id (stamp new_status t).
Proof.
  intros r. unfold stamp.
  destruct (String.eqb new_status "acknowledged"); [reflexivity|].
  destruct (String.eqb new_status "in_progress"); [reflexivity|].
  destruct (String.eqb new_status "resolved"); reflexivity.
Qed.

Lemma transition_preserves_id (new_status changed_by : string) (t : timestamp)
    (notes : option Note) :
  preserves_id (transition new_status changed_by t notes).
Proof.
  intros r. unfold transition, log_json. cbn [id set_status_history].
  rewrite stamp_preserves_id. reflexivity.
Qed.

Lemma on_report_hit (report_id : Z) (f : Report -> Report) (r : Report) :
  Z.eqb (id r) report_id = true -> on_report report_id f r = f r.
Proof. intros E. unfold on_report. rewrite E. reflexivity. Qed.

Lemma on_report_miss (report_id : Z) (f : Report -> Report) (r : Report) :
  Z.eqb (id r) report_id = false -> on_report report_id f r = r.
Proof. intros E. unfold on_report. rewrite E. reflexivity. Qed.

Lemma find_report_on_report (report_id : Z) (f : Report -> Report) (l : list Report) :
  preserves_id f ->
  find_report report_id (map (on_report report_id f) l)
  = option_map f (find_report report_id l).
Proof.
  intros Hf. unfold find_report. induction l as [|r l IH]; [reflexivity|].
  cbn [map find].
  destruct (Z.eqb (id r) report_id) eqn:E.
  - rewrite (on_report_hit _ _ _ E), Hf, E. reflexivity.
  - rewrite (on_report_miss _ _ _ E), E. exact IH.
Qed.


Lemma update_report_run (report_id : Z) (f : Report -> Report) (c w : Store)
    (k : timestamp) (fl : list bool) :
  update_report report_id f (mkSession c w k fl)
  = (Ok tt, mkSession c (with_reports (map (on_report report_id f) (reports w)) w) k fl).
Proof. reflexivity. Qed.

(** ** [StatusService.update_report_status] on a healthy session *)

Section UpdateReportStatus.

Import StatusService.

Lemma stamp_run (report_id : Z) (new_status : string) (t : timestamp) (c w : Store)
    (k : timestamp) (fl : list bool) :
  (if String.eqb new_status "acknowledged" then
     update_report report_id (set_acknowledged_at (Some t))
   else if String.eqb new_status "in_progress" then
     update_report report_id (set_in_progress_at (Some t))
   else if String.eqb new_status "resolved" then
     update_report report_id (set_resolved_at (Some t))
   else ret tt) (mkSession c w k fl)
  = (Ok tt, mkSession c (with_reports (map (on_report report_id (stamp new_status t))
                                         (reports w)) w) k fl).
Proof.
  unfold stamp.
  destruct (String.eqb new_status "acknowledged"); [reflexivity|].
  destruct (String.eqb new_status "in_progress"); [reflexivity|].
  destruct (String.eqb new_status "resolved"); [reflexivity|].
  rewrite map_on_report_id. destruct w; reflexivity.
Qed.

Lemma update_report_status_healthy (s : Session) (report_id : Z) (report : Report)
    (new_status changed_by : string) (notes : option Note) :
  healthy s ->
  find_report report_id (reports (working s)) = Some report ->
  update_report_status report_id new_status changed_by notes s =
  if negb (PyStr.mem new_status valid_statuses) then
    (Raise (ValueError ("Invalid status: " ++ new_status ++ ". Valid statuses: "
                        ++ valid_statuses_str)), rolled_back s)
  else if String.eqb (status report) new_status then
    (Ok (Unchanged ("Status is already " ++ new_status) report_id new_status), s)
  else if String.eqb (status report) "resolved"
          && negb (String.eqb new_status "resolved") then
    (Raise (ValueError locked_message), rolled_back s)
  else if negb (lifecycle_ok (status report) new_status) then
    (Raise (ValueError (skip_message (status report) new_status)), rolled_back s)
  else if String.eqb new_status "resolved"
          && negb (String.eqb (status report) "resolved") then
    (Raise (ValueError requires_evidence_message), rolled_back s)
  else
    (Ok (Changed ("Status updated from " ++ status report ++ " to " ++ new_status)
           report_id (status report) new_status changed_by (clock s) notes),
     accepted s report_id new_status changed_by notes).
Proof.
  unfold healthy. destruct s as [c w k f]. cbn [faults working]. intros -> Hfind.
  unfold update_report_status, try_except, bind, when.
  destruct (PyStr.mem new_status valid_statuses); cbn [negb]; [|reflexivity].
  cbv [ret query_report bind round_trip get_working faults working].
  rewrite Hfind.
  destruct (String.eqb (status report) new_status); [reflexivity|].
  destruct (String.eqb (status report) "resolved"
            && negb (String.eqb new_status "resolved")).
  { reflexivity. }
  cbv [ret]. rewrite validate_lifecycle_run.
  destruct (lifecycle_ok (status report) new_status); cbn [negb]; [|reflexivity].
  destruct (String.eqb new_status "resolved"
            && negb (String.eqb (status report) "resolved")).
  { reflexivity. }
  rewrite update_report_run. cbv [now clock]. rewrite stamp_run.
  cbv [add_status_history _update_status_history_json bind get_working put_working now
       ret working committed clock faults].
  rewrite update_report_run.
  cbv [commit refresh round_trip bind faults working committed clock].
  unfold accepted, accepted_store. cbn [working clock].
  f_equal.
  cbn [with_reports reports report_status_history admin_verifications
       face_verifications report_upvotes report_comments].
  rewrite !map_on_report by (try apply stamp_preserves_id; intros r; reflexivity).
  reflexivity.
Qed.

Lemma stored_accepted (s : Session) (report_id : Z) (report : Report)
    (new_status changed_by : string) (notes : option Note) :
  find_report report_id (reports (working s)) = Some report ->
  stored (accepted s report_id new_status changed_by notes) report_id
  = Some (transition new_status changed_by (clock s) notes report).
Proof.
  intros Hfind. unfold stored, accepted, accepted_store. cbn [committed reports].
  rewrite find_report_on_report by apply transition_preserves_id.
  rewrite Hfind. reflexivity.
Qed.

Lemma status_transition (new_status changed_by : string) (t : timestamp)
    (notes : option Note) (r : Report) :
  status (transition new_status changed_by t notes r) = new_status.
Proof.
  unfold transition, log_json, stamp. cbn [status set_status_history].
  destruct (String.eqb new_status "acknowledged"); [reflexivity|].
  destruct (String.eqb new_status "in_progress"); [reflexivity|].
  destruct (String.eqb new_status "resolved"); reflexivity.
Qed.

End UpdateReportStatus.

(** ** Case and white space *)

Section Categories.

Import PyStr.





















End Categories.

(** ** Comparisons of floats *)

Section FloatOrder.

Import PyFloat.
Local Open Scope R_scope.

Lemma Rleb_true (x y : R) : x <= y -> Rleb x y = true.
Proof. intros H. unfold Rleb. destruct (Rle_dec x y); [reflexivity | contradiction]. Qed.

Lemma Rleb_false (x y : R) : y < x -> Rleb x y = false.
Proof. intros H. unfold Rleb. destruct (Rle_dec x y); [lra | reflexivity]. Qed.

Lemma Rltb_false (x y : R) : y <= x -> Rltb x y = false.
Proof. intros H. unfold Rltb. destruct (Rlt_dec x y); [lra | reflexivity]. Qed.

Lemma in_range (lo x hi : R) : lo <= x <= hi -> negb (Rleb lo x && Rleb x hi) = false.
Proof. intros [H1 H2]. rewrite (Rleb_true _ _ H1), (Rleb_true _ _ H2). reflexivity. Qed.

Lemma leb_Finite (x y : R) : leb (Finite x) (Finite y) = true <-> x <= y.
Proof.
  cbn [leb]. unfold Rleb. destruct (Rle_dec x y); split; intros H;
    try assumption; try reflexivity; try discriminate; contradiction.
Qed.







End FloatOrder.

(** ** The Haversine distance *)

Section Geometry.

Import PyFloat ResolutionService.
Local Open Scope R_scope.

Lemma sin_half_diff_sq (x y : R) : sin ((x - y) / 2) ^ 2 = sin ((y - x) / 2) ^ 2.
Proof.
  replace ((x - y) / 2) with (- ((y - x) / 2)) by lra.
  rewrite sin_neg. ring.
Qed.

Lemma haversine_a_sym (lat1 lon1 lat2 lon2 : R) :
  haversine_a lat1 lon1 lat2 lon2 = haversine_a lat2 lon2 lat1 lon1.
Proof.
  unfold haversine_a.
  rewrite (sin_half_diff_sq (radians lat2)), (sin_half_diff_sq (radians lon2)).
  ring.
Qed.

(** Zero-distance identity. *)
Lemma calculate_distance_same_point (lat lon : R) :
  -90 <= lat <= 90 -> -180 <= lon <= 180 ->
  calculate_distance lat lon lat lon = Finite 0.
Proof.
  intros Hlat Hlon. unfold calculate_distance.
  rewrite (in_range _ _ _ Hlat), (in_range _ _ _ Hlon). cbn [orb]. cbv zeta.
  replace ((radians lat - radians lat) / 2) with 0 by lra.
  replace ((radians lon - radians lon) / 2) with 0 by lra.
  rewrite sin_0.
  replace (0 ^ 2 + cos (radians lat) * cos (radians lat) * 0 ^ 2) with 0 by ring.
  rewrite (Rltb_false 1 0) by lra. rewrite (Rltb_false 0 0) by lra.
  rewrite sqrt_0, asin_0. f_equal. ring.
Qed.




Lemma verify_same_point (lat lon : R) :
  -90 <= lat <= 90 -> -180 <= lon <= 180 ->
  verify_resolution_location lat lon lat lon = (true, Finite 0).
Proof.
  intros Hlat Hlon. unfold verify_resolution_location.
  rewrite calculate_distance_same_point by assumption.
  cbn [leb]. unfold max_distance_meters. rewrite Rleb_true by lra. reflexivity.
Qed.

Lemma extract_gps_valid (image : UploadFile) (lat lon : R) :
  content image <> ""%string ->
  exif_gps image = Some (lat, lon) ->
  -90 <= lat <= 90 -> -180 <= lon <= 180 -> lat <> 0 \/ lon <> 0 ->
  ExifService.extract_gps_from_image image = Some (lat, lon).
Proof.
  intros Hc Hg Hlat Hlon Hnz. unfold ExifService.extract_gps_from_image.
  rewrite (proj2 (String.eqb_neq _ _) Hc), Hg.
  rewrite (in_range _ _ _ Hlat), (in_range _ _ _ Hlon).
  unfold Reqb.
  destruct (Req_dec_T lat 0); destruct (Req_dec_T lon 0); cbn [andb]; try reflexivity.
  exfalso. destruct Hnz; contradiction.
Qed.

End Geometry.

(** ** The duplicate scan *)

Section Scan.

Import PyFloat Main.
Variables (ncat : string) (la lo : R).



End Scan.

(** ** Round trips *)

Lemma round_trip_cases (s : Session) :
  (exists s', round_trip s = (Ok tt, s') /\ committed s' = committed s
              /\ working s' = working s /\ clock s' = clock s)
  \/ (exists s', round_trip s = (Raise DatabaseError, s') /\ committed s' = committed s
                 /\ working s' = working s /\ clock s' = clock s).
Proof.
  unfold round_trip. destruct (faults s) as [|[|] fs].
  - left. eexists. repeat split.
  - right. eexists. repeat split.
  - left. eexists. repeat split.
Qed.

(** ** [ResolutionService.resolve_report] *)

Section ResolveReport.

Import ResolutionService.

Variables (env : Env) (report_id : Z) (admin_user : User) (resolution_image : UploadFile)
          (admin_notes : option string) (provided_lat provided_lon : option R)
          (admin_verification_image : option UploadFile).

Lemma resolve_report_already_resolved (s : Session) (report : Report) :
  healthy s ->
  find_report report_id (reports (working s)) = Some report ->
  status report = "resolved" ->
  resolve_report env report_id admin_user resolution_image admin_notes
    provided_lat provided_lon admin_verification_image s
  = (Raise (HTTPException 400 (Text "Report is already resolved")), s).
Proof.
  unfold healthy. destruct s as [c w k f]. cbn [faults working]. intros -> Hfind Hst.
  unfold resolve_report, try_except, bind, when.
  cbv [query_report bind round_trip get_working ret faults working].
  rewrite Hfind, Hst. reflexivity.
Qed.

Lemma resolve_report_without_gps (s : Session) :
  ExifService.extract_gps_from_image resolution_image = None ->
  exists e,
    fst (resolve_report env report_id admin_user resolution_image admin_notes
           provided_lat provided_lon admin_verification_image s) = Raise e
    /\ committed (snd (resolve_report env report_id admin_user resolution_image
                         admin_notes provided_lat provided_lon
                         admin_verification_image s)) = committed s.
Proof.
  intros Hgps.
  unfold resolve_report, try_except, bind, when. rewrite Hgps.
  unfold query_report, bind.
  destruct (round_trip_cases s) as [[s1 [E1 [Hc1 _]]] | [s1 [E1 [Hc1 _]]]]; rewrite E1.
  2:{ eexists. cbn. split; [reflexivity | exact Hc1]. }
  cbv [get_working ret].
  destruct (find_report report_id (reports (working s1))) as [report|].
  2:{ eexists. cbn. split; [reflexivity | exact Hc1]. }
  destruct (String.eqb (status report) "resolved").
  { eexists. cbn. split; [reflexivity | exact Hc1]. }
  cbv [ret].
  destruct (face_verification_required env).
  2:{ eexists. cbn. split; [reflexivity | exact Hc1]. }
  unfold query_latest_face_verification, bind.
  destruct (round_trip_cases s1) as [[s2 [E2 [Hc2 _]]] | [s2 [E2 [Hc2 _]]]]; rewrite E2.
  - cbv [get_working ret].
    destruct (latest_face_verification report_id (u_id admin_user)
                (face_verifications (working s2))).
    + eexists. cbn. split; [reflexivity | congruence].
    + eexists. cbn. split; [reflexivity | congruence].
  - eexists. cbn. split; [reflexivity | congruence].
Qed.

Lemma resolve_report_missing_evidence (s : Session) (report : Report) :
  ExifService.extract_gps_from_image resolution_image = None ->
  healthy s ->
  find_report report_id (reports (working s)) = Some report ->
  status report <> "resolved" ->
  gate_open env (working s) report_id admin_user = true ->
  resolve_report env report_id admin_user resolution_image admin_notes
    provided_lat provided_lon admin_verification_image s
  = (Raise (HTTPException 400 (Text missing_exif_message)), s).
Proof.
  intros Hgps Hh Hfind Hst Hgate.
  unfold healthy in Hh. destruct s as [c w k f]. cbn [faults working] in *. subst f.
  unfold resolve_report, try_except, bind, when. rewrite Hgps.
  cbv [query_report bind round_trip get_working ret faults working].
  rewrite Hfind, (proj2 (String.eqb_neq _ _) Hst).
  unfold gate_open in Hgate.
  destruct (face_verification_required env); cbn [negb orb] in Hgate.
  - cbv [query_latest_face_verification try_except bind round_trip get_working ret
         faults working].
    destruct (latest_face_verification report_id (u_id admin_user)
                (face_verifications w)); [reflexivity | discriminate].
  - reflexivity.
Qed.

End ResolveReport.

(** ** [Main.create_issue_report] and [Main.delete_citizen_report] *)

Section CreateIssueReport.

Import Main.

Lemma duplicate_check_healthy (category : string) (la lo : R) (s : Session) :
  healthy s ->
  duplicate_check category la lo s
  = (Ok (option_map (summary (working s))
           (fst (scan (candidates_of (working s)) (normalize category) la lo None
                   PyFloat.Inf))), s).
Proof.
  unfold healthy. destruct s as [c w k f]. cbn [faults working]. intros ->.
  unfold duplicate_check, try_except, bind, query_candidates.
  cbv [round_trip bind get_working ret faults working].
  fold (candidates_of w).
  destruct (fst (scan (candidates_of w) (normalize category) la lo None PyFloat.Inf));
    reflexivity.
Qed.

Lemma duplicate_check_total (category : string) (la lo : R) (s : Session) :
  exists r s',
    duplicate_check category la lo s = (Ok r, s')
    /\ committed s' = committed s /\ working s' = working s /\ clock s' = clock s.
Proof.
  unfold duplicate_check, try_except, bind, query_candidates, count_rows, bind.
  destruct (round_trip_cases s) as [[s1 [E1 [Hc1 [Hw1 Hk1]]]] | [s1 [E1 [Hc1 [Hw1 Hk1]]]]];
    rewrite E1.
  2:{ do 2 eexists. split; [reflexivity|]. auto. }
  cbv [get_working ret].
  destruct (fst (scan _ (normalize category) la lo None PyFloat.Inf)) as [nearest|].
  2:{ do 2 eexists. split; [reflexivity|]. auto. }
  destruct (round_trip_cases s1) as [[s2 [E2 [Hc2 [Hw2 Hk2]]]] | [s2 [E2 [Hc2 [Hw2 Hk2]]]]];
    rewrite E2.
  2:{ do 2 eexists. split; [reflexivity|]. repeat split; congruence. }
  destruct (round_trip_cases s2) as [[s3 [E3 [Hc3 [Hw3 Hk3]]]] | [s3 [E3 [Hc3 [Hw3 Hk3]]]]];
    rewrite E3.
  2:{ do 2 eexists. split; [reflexivity|]. repeat split; congruence. }
  do 2 eexists. split; [reflexivity|]. repeat split; congruence.
Qed.

Lemma duplicate_check_scan_fault (category : string) (la lo : R) (s : Session)
    (fs : list bool) :
  faults s = true :: fs ->
  duplicate_check category la lo s
  = (Ok None, mkSession (committed s) (working s) (clock s) fs).
Proof.
  intros Hf. unfold duplicate_check, try_except, bind, query_candidates, bind, round_trip.
  rewrite Hf. reflexivity.
Qed.

Lemma final_coordinates_cases (image : UploadFile) (latitude longitude : option R)
    (la lo : R) :
  final_coordinates image latitude longitude = Some (la, lo) ->
  match ExifService.extract_gps_from_image image with
  | Some (la0, _) => Some la0
  | None => latitude
  end = Some la
  /\ match ExifService.extract_gps_from_image image with
     | Some (_, lo0) => Some lo0
     | None => longitude
     end = Some lo.
Proof.
  unfold final_coordinates.
  destruct (ExifService.extract_gps_from_image image) as [[a b]|].
  - intros H. injection H as -> ->. split; reflexivity.
  - destruct latitude as [a|]; [|discriminate].
    destruct longitude as [b|]; [|discriminate].
    intros H. injection H as -> ->. split; reflexivity.
Qed.

Lemma create_report_healthy (env : Env) (data : ReportService.ReportCreate)
    (reporter : string) (c w : Store) (k : timestamp) :
  ReportService.create_report env data reporter (mkSession c w k [])
  = (Ok (new_report env data reporter w k),
     let w' := with_reports (reports w ++ [new_report env data reporter w k]) w in
     mkSession w' w' (S k) []).
Proof. reflexivity. Qed.

Lemma fold_max_le (l : list Report) (m : Z) :
  (m <= fold_left (fun m r => Z.max m (id r)) l m)%Z.
Proof.
  revert m. induction l as [|r l IH]; intros m; cbn [fold_left]; [lia|].
  specialize (IH (Z.max m (id r))). lia.
Qed.

Lemma fold_max_bound (l : list Report) (m : Z) (r : Report) :
  In r l -> (id r <= fold_left (fun m r => Z.max m (id r)) l m)%Z.
Proof.
  revert m. induction l as [|x l IH]; intros m; [intros []|].
  cbn [fold_left]. intros [->|Hin].
  - pose proof (fold_max_le l (Z.max m (id r))). lia.
  - apply IH. exact Hin.
Qed.

Lemma next_id_fresh (l : list Report) (r : Report) :
  In r l -> (id r < ReportService.next_id l)%Z.
Proof.
  intros Hin. unfold ReportService.next_id.
  pose proof (fold_max_bound l 0 r Hin). lia.
Qed.

Lemma map_on_fresh (f : Report -> Report) (l : list Report) :
  map (on_report (ReportService.next_id l) f) l = l.
Proof.
  rewrite <- (map_id l) at 3. apply map_ext_in. intros r Hin. unfold on_report.
  pose proof (next_id_fresh l r Hin).
  destruct (Z.eqb (id r) (ReportService.next_id l)) eqn:E; [|reflexivity].
  apply Z.eqb_eq in E. lia.
Qed.

Variables (env : Env) (title : string) (description : option string) (category : string)
          (image : UploadFile) (latitude longitude : option R)
          (mcq_responses : option string) (current_user : User).

(** Go past the checks of the upload and of the coordinates. *)
Ltac enter_creation Hok Hfinal :=
  let ct := fresh "ct" in
  let Hct := fresh "Hct" in
  let Hpre := fresh "Hpre" in
  let Hsize := fresh "Hsize" in
  let Hla := fresh "Hla" in
  let Hlo := fresh "Hlo" in
  destruct Hok as [[ct [Hct Hpre]] Hsize];
  destruct (final_coordinates_cases _ _ _ _ _ Hfinal) as [Hla Hlo];
  unfold create_issue_report, try_except, bind, when;
  rewrite Hct, Hpre; cbn [negb]; cbv [ret]; rewrite Hsize, Hla, Hlo.

Lemma create_issue_report_duplicate (s s' : Session) (la lo : R)
    (existing : ExistingReport) :
  acceptable_upload image ->
  final_coordinates image latitude longitude = Some (la, lo) ->
  duplicate_check category la lo s = (Ok (Some existing), s') ->
  create_issue_report env title description category image latitude longitude
    mcq_responses current_user s
  = (Ok (Duplicate "This issue has already been reported nearby." existing), s').
Proof.
  intros Hok Hfinal Hdup. enter_creation Hok Hfinal. rewrite Hdup. reflexivity.
Qed.

(** Once the check has found nothing, the answer depends on the session
    the check leaves, not on the one it started from. *)
Lemma create_issue_report_after_check (s1 s2 s' : Session) (la lo : R) :
  acceptable_upload image ->
  final_coordinates image latitude longitude = Some (la, lo) ->
  duplicate_check category la lo s1 = (Ok None, s') ->
  duplicate_check category la lo s2 = (Ok None, s') ->
  create_issue_report env title description category image latitude longitude
    mcq_responses current_user s1
  = create_issue_report env title description category image latitude longitude
      mcq_responses current_user s2.
Proof.
  intros Hok Hfinal Hdup1 Hdup2. enter_creation Hok Hfinal.
  rewrite Hdup1, Hdup2. reflexivity.
Qed.

(** A request that the validation of [ReportCreate] refuses. *)
Lemma create_issue_report_refused (s s' : Session) (la lo : R) :
  acceptable_upload image ->
  final_coordinates image latitude longitude = Some (la, lo) ->
  duplicate_check category la lo s = (Ok None, s') ->
  ~ well_formed env title description category la lo mcq_responses ->
  create_issue_report env title description category image latitude longitude
    mcq_responses current_user s
  = (Raise (HTTPException 500 (Text "Internal server error while creating report")), s').
Proof.
  intros Hok Hfinal Hdup Hbad. enter_creation Hok Hfinal. rewrite Hdup.
  unfold well_formed in Hbad. cbv zeta in Hbad |- *.
  destruct (ai_summary env title description
              (parse_mcq_responses env mcq_responses)) as [ai_title ai_description].
  cbn [fst] in Hbad. unfold ReportService.new_ReportCreate.
  destruct (ReportService.valid ai_title category la lo
              (parse_mcq_responses env mcq_responses)); [contradiction|].
  reflexivity.
Qed.

(** A request that is created. *)
Lemma create_issue_report_run (s s' : Session) (la lo : R) :
  acceptable_upload image ->
  final_coordinates image latitude longitude = Some (la, lo) ->
  duplicate_check category la lo s = (Ok None, s') ->
  healthy s' ->
  well_formed env title description category la lo mcq_responses ->
  exists r,
    create_issue_report env title description category image latitude longitude
      mcq_responses current_user s
    = (Ok (Created "Report created successfully."
             (mkCreatedData (id r) (Models.title r) (status r) (Models.latitude r)
                (Models.longitude r))),
       let w' := with_reports (reports (working s') ++ [r]) (working s') in
       mkSession w' w'
         (match (if json_is_dict (parse_mcq_responses env mcq_responses)
                 then classify_urgency env else None) with
          | Some _ => S (S (clock s'))
          | None => S (clock s')
          end) [])
    /\ id r = ReportService.next_id (reports (working s'))
    /\ status r = "pending"
    /\ Models.title r
       = fst (ai_summary env title description (parse_mcq_responses env mcq_responses))
    /\ Models.category r = category
    /\ Models.latitude r = la /\ Models.longitude r = lo
    /\ reporter_id r = (if String.eqb (u_id current_user) "" then uuid4 env
                        else u_id current_user)
    /\ reported_at r = clock s'.
Proof.
  intros Hok Hfinal Hdup Hh Hvalid. enter_creation Hok Hfinal. rewrite Hdup.
  unfold well_formed in Hvalid. cbv zeta in Hvalid |- *.
  destruct (ai_summary env title description
              (parse_mcq_responses env mcq_responses)) as [ai_title ai_description].
  cbn [fst] in Hvalid |- *. unfold ReportService.new_ReportCreate. rewrite Hvalid.
  cbv [ret]. unfold healthy in Hh. destruct s' as [c w k f]. cbn [faults] in Hh. subst f.
  cbn [working clock].
  rewrite create_report_healthy. cbv zeta.
  set (r := new_report env _ (u_id current_user) w k).
  destruct (if json_is_dict (parse_mcq_responses env mcq_responses)
            then classify_urgency env else None) as [[score label]|].
  - rewrite !update_report_run.
    cbv [commit bind round_trip faults working committed clock].
    exists (set_urgency_label label (set_urgency_score score r)).
    split; [|repeat split; reflexivity].
    f_equal. cbn [with_reports reports].
    rewrite map_on_report by (intros x; reflexivity).
    rewrite map_app. cbn [map].
    change (id r) with (ReportService.next_id (reports w)).
    rewrite map_on_fresh.
    rewrite (on_report_hit (ReportService.next_id (reports w))
               (fun x => set_urgency_label label (set_urgency_score score x)) r)
      by apply Z.eqb_refl.
    reflexivity.
  - cbv [raise commit bind round_trip faults working committed clock].
    exists r. split; [reflexivity | repeat split; reflexivity].
Qed.

End CreateIssueReport.

Section DeleteCitizenReport.

Import Main.

Lemma find_own_report (report_id : Z) (user_id : string) (report : Report)
    (l : list Report) :
  find_report report_id l = Some report ->
  reporter_id report = user_id ->
  find (fun r => Z.eqb (id r) report_id && String.eqb (reporter_id r) user_id) l
  = Some report.
Proof.
  intros Hfind Hown. unfold find_report in Hfind.
  induction l as [|r l IH]; [discriminate|].
  cbn [find] in *. destruct (Z.eqb (id r) report_id); cbn [andb].
  - injection Hfind as ->. rewrite Hown, String.eqb_refl. reflexivity.
  - apply IH. exact Hfind.
Qed.

Lemma delete_citizen_report_healthy (s : Session) (report_id : Z) (report : Report)
    (reason : string) (current_user : User) :
  healthy s ->
  find_report report_id (reports (working s)) = Some report ->
  reporter_id report = u_id current_user ->
  is_deleted report = false ->
  let out := delete_citizen_report report_id reason current_user s in
  fst out = Ok "Report deleted successfully"
  /\ stored (snd out) report_id = Some (deletion reason (clock s) report).
Proof.
  unfold healthy. destruct s as [c w k f]. cbn [faults working]. intros -> Hfind Hown Hdel.
  cbv zeta. unfold delete_citizen_report, try_except, bind, when, query_own_report.
  cbv [round_trip bind get_working ret faults working].
  rewrite (find_own_report _ _ _ _ Hfind Hown), Hdel.
  cbv [now clock]. rewrite !update_report_run.
  cbv [commit bind round_trip faults working committed clock ret fst snd].
  split; [reflexivity|].
  unfold stored. cbn [committed with_reports reports].
  rewrite !map_on_report by (intros x; reflexivity).
  rewrite find_report_on_report by (intros x; reflexivity).
  rewrite Hfind. reflexivity.
Qed.

End DeleteCitizenReport.

(* ------------------------------------------------------------------ *)
(** * The claims of the specification *)

Import StatusService.

(** C10.  The distance function is symmetric: for all inputs, also those out
    of range, where both orders give the infinite sentinel,
    [calculate_distance lat1 lon1 lat2 lon2] equals
    [calculate_distance lat2 lon2 lat1 lon1]. *)
Theorem calculate_distance_symmetric :
  forall lat1 lon1 lat2 lon2 : R,
    ResolutionService.calculate_distance lat1 lon1 lat2 lon2
    = ResolutionService.calculate_distance lat2 lon2 lat1 lon1.
Proof.
  intros lat1 lon1 lat2 lon2. unfold ResolutionService.calculate_distance.
  rewrite (orb_comm (negb (PyFloat.Rleb (-90) lat1 && PyFloat.Rleb lat1 90))).
  rewrite (orb_comm (negb (PyFloat.Rleb (-180) lon1 && PyFloat.Rleb lon1 180))).
  destruct (negb (PyFloat.Rleb (-90) lat2 && PyFloat.Rleb lat2 90)
            || negb (PyFloat.Rleb (-90) lat1 && PyFloat.Rleb lat1 90)); [reflexivity|].
  destruct (negb (PyFloat.Rleb (-180) lon2 && PyFloat.Rleb lon2 180)
            || negb (PyFloat.Rleb (-180) lon1 && PyFloat.Rleb lon1 180)); [reflexivity|].
  cbv zeta.
  fold (haversine_a lat1 lon1 lat2 lon2). fold (haversine_a lat2 lon2 lat1 lon1).
  rewrite (haversine_a_sym lat1 lon1 lat2 lon2). reflexivity.
Qed.



(** C9.  When the current status of a report is none of the four ordered
    statuses, as the "pending" that [create_report] gives to every new report,
    [update_report_status] validates no stage order: the lifecycle check lets
    the request through, and a transition to any valid target other than
    resolved is accepted, however many stages it skips. *)
Theorem unlisted_status_skips_lifecycle_validation :
  forall (s : Session) (report_id : Z) (report : Report)
         (new_status changed_by : string) (notes : option Note),
    healthy s ->
    find_report report_id (reports (working s)) = Some report ->
    ~ In (status report) valid_statuses ->
    In new_status valid_statuses ->
    new_status <> "resolved" ->
    validate_lifecycle (status report) new_status s = (Ok tt, s)
    /\ fst (update_report_status report_id new_status changed_by notes s)
       = Ok (Changed ("Status updated from " ++ status report ++ " to " ++ new_status)
               report_id (status report) new_status changed_by (clock s) notes)
    /\ exists r',
         stored (snd (update_report_status report_id new_status changed_by notes s)) report_id
         = Some r'
         /\ status r' = new_status.
Proof.
  intros s report_id report new_status changed_by notes Hh Hfind Hcur Hnew Hres.
  assert (Hok : lifecycle_ok (status report) new_status = true).
  { unfold lifecycle_ok. rewrite (index_from_None _ _ _ Hcur). reflexivity. }
  split.
  { rewrite validate_lifecycle_run, Hok. reflexivity. }
  rewrite (update_report_status_healthy s report_id report) by assumption.
  rewrite (proj2 (mem_In _ _) Hnew), Hok.
  assert (Hne : forall y, In y valid_statuses -> String.eqb (status report) y = false).
  { intros y Hy. apply String.eqb_neq. intros E. rewrite E in Hcur. contradiction. }
  rewrite (Hne _ Hnew).
  rewrite (Hne "resolved") by (unfold valid_statuses; simpl; tauto).
  rewrite (proj2 (String.eqb_neq _ _) Hres).
  cbn [negb andb fst snd]. split; [reflexivity|].
  exists (transition new_status changed_by (clock s) notes report).
  split; [apply stored_accepted; assumption | apply status_transition].
Qed.

(** A new report goes from pending straight to in_progress. *)
Lemma unlisted_status_skips_lifecycle_validation_witness :
  healthy Sample.pending_session
  /\ fst (update_report_status 1 "in_progress" "admin-1" None Sample.pending_session)
     = Ok (Changed "Status updated from pending to in_progress" 1 "pending" "in_progress"
             "admin-1" 5%nat None).
Proof.
  split; [reflexivity|].
  refine (proj1 (proj2 (unlisted_status_skips_lifecycle_validation
                          Sample.pending_session 1 Sample.pending_pothole "in_progress"
                          "admin-1" None eq_refl eq_refl _ _ _))).
  - cbn. intros [H|[H|[H|[H|H]]]]; try discriminate H. exact H.
  - cbn. tauto.
  - discriminate.
Defined.

(** C5, as the code has it.  Every accepted transition stores the requested
    status and sets the timestamp of the stage it enters to the current time,
    whether or not that timestamp was set before; the timestamps of the other
    stages, and [reported_at], are left as they were.  (A transition to
    reported enters no stamped stage, and no transition to resolved is
    accepted on this path.) *)
Theorem accepted_transition_stamps_entered_stage :
  forall (s : Session) (report_id : Z) (report : Report)
         (new_status changed_by : string) (notes : option Note)
         (message old_status new_status' changed_by' : string) (changed_at : timestamp)
         (notes' : option Note),
    healthy s ->
    find_report report_id (reports (working s)) = Some report ->
    fst (update_report_status report_id new_status changed_by notes s)
    = Ok (Changed message report_id old_status new_status' changed_by' changed_at notes') ->
    exists r',
      stored (snd (update_report_status report_id new_status changed_by notes s)) report_id
      = Some r'
      /\ status r' = new_status
      /\ acknowledged_at r'
         = (if String.eqb new_status "acknowledged" then Some (clock s)
            else acknowledged_at report)
      /\ in_progress_at r'
         = (if String.eqb new_status "in_progress" then Some (clock s)
            else in_progress_at report)
      /\ resolved_at r' = resolved_at report
      /\ reported_at r' = reported_at report.
Proof.
  intros s report_id report new_status changed_by notes message old_status new_status'
    changed_by' changed_at notes' Hh Hfind.
  rewrite (update_report_status_healthy s report_id report) by assumption.
  destruct (negb (PyStr.mem new_status valid_statuses)); [discriminate|].
  destruct (String.eqb (status report) new_status) eqn:Esame; [discriminate|].
  destruct (String.eqb (status report) "resolved"
            && negb (String.eqb new_status "resolved")); [discriminate|].
  destruct (negb (lifecycle_ok (status report) new_status)); [discriminate|].
  destruct (String.eqb new_status "resolved") eqn:Eres.
  { destruct (negb (String.eqb (status report) "resolved")) eqn:E; cbn [andb].
    - discriminate.
    - (* the current status would be resolved as well: excluded by the second test *)
      apply negb_false_iff in E. apply String.eqb_eq in E, Eres.
      rewrite E, Eres in Esame. discriminate Esame. }
  cbn [andb fst snd]. intros _.
  exists (transition new_status changed_by (clock s) notes report).
  split; [apply stored_accepted; assumption|].
  split; [apply status_transition|].
  unfold transition, log_json, stamp. rewrite Eres.
  destruct (String.eqb new_status "acknowledged") eqn:Ea.
  - apply String.eqb_eq in Ea. subst. repeat split; reflexivity.
  - destruct (String.eqb new_status "in_progress"); repeat split; reflexivity.
Qed.

(** Acknowledging the sample pothole at time 5 stamps [acknowledged_at] with 5
    and nothing else. *)
Lemma accepted_transition_stamps_entered_stage_witness :
  healthy Sample.session
  /\ exists r',
       stored (snd (update_report_status 1 "acknowledged" "admin-1" None Sample.session)) 1
       = Some r'
       /\ status r' = "acknowledged"
       /\ acknowledged_at r' = Some 5%nat
       /\ in_progress_at r' = None
       /\ resolved_at r' = None
       /\ reported_at r' = 0%nat.
Proof.
  split; [reflexivity|].
  exact (accepted_transition_stamps_entered_stage Sample.session 1 Sample.pothole
           "acknowledged" "admin-1" None _ _ _ _ _ _ eq_refl eq_refl eq_refl).
Defined.

(** C5, as stated, fails.  The sample pothole is acknowledged at time 5, moved
    back to reported, and acknowledged again at time 7: the third update is an
    accepted transition into a stage whose timestamp is already set, and it
    overwrites [acknowledged_at]. *)
Lemma reentering_a_stage_restamps :
  let s1 := snd (update_report_status 1 "acknowledged" "admin-1" None Sample.session) in
  let s2 := snd (update_report_status 1 "reported" "admin-1" None s1) in
  let out := update_report_status 1 "acknowledged" "admin-2" None s2 in
  option_map acknowledged_at (stored s2 1) = Some (Some 5%nat)
  /\ fst out = Ok (Changed "Status updated from reported to acknowledged" 1 "reported"
                     "acknowledged" "admin-2" 7%nat None)
  /\ option_map acknowledged_at (stored (snd out) 1) = Some (Some 7%nat)
  /\ Some 7%nat <> Some 5%nat.
Proof.
  vm_compute. repeat split. discriminate.
Qed.

(** C3, as the code has it.  Once the status of a report is resolved, no
    status update and no resolve attempt changes it: an update to another
    valid status is rejected as locked, an update to resolved itself is
    answered as a successful no-op, an update to an unknown status is rejected
    as invalid, and a second resolve attempt is rejected as already resolved,
    each leaving the database as it was.  The citizen deletion has no guard on
    the status: the owner of a resolved report that is not yet deleted moves it
    to deleted. *)
Theorem resolved_is_final_except_for_deletion :
  forall (s : Session) (report_id : Z) (report : Report),
    healthy s ->
    find_report report_id (reports (working s)) = Some report ->
    status report = "resolved" ->
    (forall (new_status changed_by : string) (notes : option Note),
        update_report_status report_id new_status changed_by notes s
        = (if String.eqb new_status "resolved" then
             (Ok (Unchanged "Status is already resolved" report_id "resolved"), s)
           else if PyStr.mem new_status valid_statuses then
             (Raise (ValueError locked_message), rolled_back s)
           else
             (Raise (ValueError ("Invalid status: " ++ new_status ++ ". Valid statuses: "
                                 ++ valid_statuses_str)), rolled_back s))
        /\ committed (snd (update_report_status report_id new_status changed_by notes s))
           = committed s)
    /\ error_kind (ValueError locked_message) = Some LockedAfterResolutionError
    /\ (forall (env : Env) (admin_user : User) (resolution_image : UploadFile)
               (admin_notes : option string) (provided_lat provided_lon : option R)
               (admin_verification_image : option UploadFile),
           ResolutionService.resolve_report env report_id admin_user resolution_image
             admin_notes provided_lat provided_lon admin_verification_image s
           = (Raise (HTTPException 400 (Text "Report is already resolved")), s))
    /\ error_kind (HTTPException 400 (Text "Report is already resolved"))
       = Some AlreadyResolvedError
    /\ (forall (reason : string) (current_user : User),
           reporter_id report = u_id current_user ->
           is_deleted report = false ->
           fst (Main.delete_citizen_report report_id reason current_user s)
           = Ok "Report deleted successfully"
           /\ option_map status
                (stored (snd (Main.delete_citizen_report report_id reason current_user s))
                   report_id)
              = Some "deleted").
Proof.
  intros s report_id report Hh Hfind Hst. repeat split.
  - rewrite (update_report_status_healthy s report_id report) by assumption.
    rewrite Hst. destruct (String.eqb new_status "resolved") eqn:E.
    + apply String.eqb_eq in E. subst new_status. reflexivity.
    + rewrite String.eqb_sym, E. cbn [negb andb].
      destruct (PyStr.mem new_status valid_statuses); reflexivity.
  - rewrite (update_report_status_healthy s report_id report) by assumption.
    rewrite Hst. destruct (PyStr.mem new_status valid_statuses); cbn [negb];
      [|reflexivity].
    destruct (String.eqb "resolved" new_status) eqn:E; [reflexivity|].
    rewrite String.eqb_sym in E. rewrite E. reflexivity.
  - intros. apply (resolve_report_already_resolved _ _ _ _ _ _ _ _ s report); assumption.
  - apply (delete_citizen_report_healthy s report_id report); assumption.
  - destruct (delete_citizen_report_healthy s report_id report reason current_user)
      as [_ Hstored]; try assumption.
    rewrite Hstored. reflexivity.
Qed.

(** On the resolved sample pothole an update to acknowledged is rejected as
    locked, and the owner's deletion goes through. *)
Lemma resolved_is_final_except_for_deletion_witness :
  healthy Sample.resolved_session
  /\ fst (update_report_status 1 "acknowledged" "admin-1" None Sample.resolved_session)
     = Raise (ValueError locked_message)
  /\ option_map status
       (stored (snd (Main.delete_citizen_report 1 "duplicate" Sample.citizen
                       Sample.resolved_session)) 1)
     = Some "deleted".
Proof.
  pose proof (resolved_is_final_except_for_deletion Sample.resolved_session 1
                Sample.resolved_pothole eq_refl eq_refl eq_refl) as [Hup [_ [_ [_ Hdel]]]].
  split; [reflexivity|]. split.
  - destruct (Hup "acknowledged" "admin-1" None) as [H _]. rewrite H. reflexivity.
  - exact (proj2 (Hdel "duplicate" Sample.citizen eq_refl eq_refl)).
Defined.

(** C3, as stated, fails.  The sample pothole is resolved; its owner deletes
    it, and the stored status goes from resolved to deleted.  Also, an update
    of the resolved report to resolved is not rejected but answered as a
    success. *)
Lemma resolved_report_can_be_deleted :
  let out := Main.delete_citizen_report 1 "no longer relevant" Sample.citizen
               Sample.resolved_session in
  option_map status (stored Sample.resolved_session 1) = Some "resolved"
  /\ fst out = Ok "Report deleted successfully"
  /\ option_map status (stored (snd out) 1) = Some "deleted"
  /\ fst (update_report_status 1 "resolved" "admin-1" None Sample.resolved_session)
     = Ok (Unchanged "Status is already resolved" 1 "resolved").
Proof.
  vm_compute. repeat split.
Qed.

(** C4 at a failing input.  A citizen reports a broken streetlight on an empty
    database: the row that [create_report] commits, and the status returned to
    the citizen, is "pending", which is none of the five status values of the
    data model. *)
Theorem created_report_is_pending :
  let out := Main.create_issue_report Sample.env "Broken streetlight" None "Streetlight"
               Sample.photo_without_gps (Some 12%R) (Some 77%R) None Sample.citizen
               Sample.empty_session in
  fst out = Ok (Main.Created "Report created successfully."
                  (Main.mkCreatedData 1 "Broken streetlight" "pending" 12%R 77%R))
  /\ map status (reports (committed (snd out))) = ["pending"]
  /\ ~ In "pending" report_statuses.
Proof.
  cbv zeta.
  assert (Hok : acceptable_upload Sample.photo_without_gps).
  { split; [exists "image/jpeg"; split; reflexivity | reflexivity]. }
  assert (Hvalid : well_formed Sample.env "Broken streetlight" None "Streetlight"
                     12 77 None).
  { unfold well_formed, ReportService.valid. cbn -[PyFloat.Rleb].
    rewrite !Rleb_true by lra. reflexivity. }
  destruct (create_issue_report_run Sample.env "Broken streetlight" None "Streetlight"
              Sample.photo_without_gps (Some 12%R) (Some 77%R) None Sample.citizen
              Sample.empty_session Sample.empty_session 12 77 Hok eq_refl eq_refl
              eq_refl Hvalid)
    as [r [E [Hid [Hst [Htitle [_ [Hla [Hlo _]]]]]]]].
  rewrite E. cbv zeta. cbn [fst snd committed with_reports reports].
  rewrite Hid, Hst, Htitle, Hla, Hlo.
  split; [reflexivity|]. split.
  - change (reports (working Sample.empty_session)) with (@nil Report).
    cbn [app map]. rewrite Hst. reflexivity.
  - cbn. intros [H|[H|[H|[H|[H|H]]]]]; try discriminate H. exact H.
Qed.

(** C1 at a failing input.  An admin resolves the sample pothole with a photo
    taken on site and a selfie, and the last commit of the request fails.  The
    call is answered with an internal error, yet the database already holds
    the report as resolved, with [resolved_at] set, while [resolved_by],
    [resolution_image_url] and [resolution_coordinates] are still empty:
    [resolve_report_with_evidence] had committed on its own before. *)
Theorem resolve_report_commits_status_alone :
  let out := ResolutionService.resolve_report Sample.env 1 Sample.admin
               Sample.evidence_on_site None None None (Some Sample.photo_without_gps)
               Sample.session_failing_last_commit in
  option_map status (stored Sample.session_failing_last_commit 1) = Some "reported"
  /\ fst out = Raise (HTTPException 500 (Text "Internal server error while resolving report"))
  /\ option_map status (stored (snd out) 1) = Some "resolved"
  /\ option_map resolved_at (stored (snd out) 1) = Some (Some 5%nat)
  /\ option_map resolved_by (stored (snd out) 1) = Some None
  /\ option_map resolution_image_url (stored (snd out) 1) = Some None
  /\ option_map resolution_coordinates (stored (snd out) 1) = Some None.
Proof.
  cbv zeta. split; [reflexivity|].
  eassert (E : ResolutionService.resolve_report Sample.env 1 Sample.admin
                 Sample.evidence_on_site None None None (Some Sample.photo_without_gps)
                 Sample.session_failing_last_commit
               = (Raise (HTTPException 500
                           (Text "Internal server error while resolving report")), _)).
  { unfold ResolutionService.resolve_report.
    rewrite (extract_gps_valid Sample.evidence_on_site 12 77) by
      (try reflexivity; try discriminate; try lra; left; lra).
    unfold try_except at 1. unfold bind at 1.
    change (query_report 1 Sample.session_failing_last_commit)
      with (Ok (Some Sample.pothole),
            mkSession Sample.store Sample.store 5%nat [false; false; false; false; true]).
    cbv beta iota.
    change (Models.latitude Sample.pothole) with 12%R.
    change (Models.longitude Sample.pothole) with 77%R.
    rewrite verify_same_point by lra.
    cbv -[IZR PyFloat.round2_t]. reflexivity. }
  rewrite E. cbn [fst snd]. repeat split; reflexivity.
Qed.

(** C7.  The outcome of [resolve_report] does not depend on the coordinates
    given as form fields: two calls that differ only in [provided_lat] and
    [provided_lon] give the same result and the same database.  When the
    evidence image carries no usable EXIF position the call never succeeds and
    changes nothing, whatever coordinates the form carries; once the report is
    found, is not resolved yet and the identity gate lets the admin through,
    the error is the missing-location-evidence one. *)
Theorem resolve_report_ignores_provided_coordinates :
  forall (env : Env) (s : Session) (report_id : Z) (admin_user : User)
         (resolution_image : UploadFile) (admin_notes : option string)
         (admin_verification_image : option UploadFile)
         (provided_lat provided_lon other_lat other_lon : option R),
    ResolutionService.resolve_report env report_id admin_user resolution_image admin_notes
      provided_lat provided_lon admin_verification_image s
    = ResolutionService.resolve_report env report_id admin_user resolution_image admin_notes
        other_lat other_lon admin_verification_image s
    /\ (ExifService.extract_gps_from_image resolution_image = None ->
        (exists e,
            fst (ResolutionService.resolve_report env report_id admin_user
                   resolution_image admin_notes provided_lat provided_lon
                   admin_verification_image s) = Raise e
            /\ committed (snd (ResolutionService.resolve_report env report_id admin_user
                                 resolution_image admin_notes provided_lat provided_lon
                                 admin_verification_image s)) = committed s)
        /\ forall report,
            healthy s ->
            find_report report_id (reports (working s)) = Some report ->
            status report <> "resolved" ->
            gate_open env (working s) report_id admin_user = true ->
            ResolutionService.resolve_report env report_id admin_user resolution_image
              admin_notes provided_lat provided_lon admin_verification_image s
            = (Raise (HTTPException 400 (Text missing_exif_message)), s))
    /\ error_kind (HTTPException 400 (Text missing_exif_message))
       = Some MissingLocationEvidenceError.
Proof.
  intros. split; [reflexivity|]. split; [|reflexivity].
  intros Hgps. split.
  - apply resolve_report_without_gps. exact Hgps.
  - intros report Hh Hfind Hst Hgate.
    apply (resolve_report_missing_evidence _ _ _ _ _ _ _ _ s report); assumption.
Qed.

(** Resolving the sample pothole with a photo without GPS fails for want of
    location evidence, although the form carries the coordinates of the
    report. *)
Lemma resolve_report_ignores_provided_coordinates_witness :
  ExifService.extract_gps_from_image Sample.photo_without_gps = None
  /\ healthy Sample.session
  /\ gate_open Sample.env (working Sample.session) 1 Sample.admin = true
  /\ ResolutionService.resolve_report Sample.env 1 Sample.admin Sample.photo_without_gps
       None (Some 12%R) (Some 77%R) None Sample.session
     = (Raise (HTTPException 400 (Text missing_exif_message)), Sample.session).
Proof.
  split; [reflexivity|]. split; [reflexivity|]. split; [reflexivity|].
  destruct (resolve_report_ignores_provided_coordinates Sample.env Sample.session 1
              Sample.admin Sample.photo_without_gps None None
              (Some 12%R) (Some 77%R) None None) as [_ [H _]].
  destruct (H eq_refl) as [_ Hmissing].
  apply (Hmissing Sample.pothole); try reflexivity. discriminate.
Defined.

(** C8.  The duplicate detector fails open.  The duplicate check never raises
    and never changes the data, whatever the database does; when the query for
    the candidates raises, the check reports no duplicate, and the handler
    goes on exactly as after a check that found nothing: it gives the same
    answer and leaves the same session.  So a request whose fields pass the
    validation of the report data is answered with a created report, and a
    request that is refused after a failing scan is refused by that
    validation, not by the scan.  (Logging is not part of the model.) *)
Theorem duplicate_scan_fails_open :
  forall (env : Env) (title : string) (description : option string) (category : string)
         (image : UploadFile) (latitude longitude : option R)
         (mcq_responses : option string) (current_user : User)
         (s : Session) (la lo : R),
    acceptable_upload image ->
    final_coordinates image latitude longitude = Some (la, lo) ->
    (exists r s',
        Main.duplicate_check category la lo s = (Ok r, s')
        /\ committed s' = committed s /\ working s' = working s
        /\ (healthy s' ->
            well_formed env title description category la lo mcq_responses ->
            exists response s'',
              Main.create_issue_report env title description category image latitude
                longitude mcq_responses current_user s = (Ok response, s'')))
    /\ (forall fs,
           faults s = true :: fs ->
           Main.duplicate_check category la lo s
           = (Ok None, mkSession (committed s) (working s) (clock s) fs))
    /\ (faults s = [true] ->
        fst (Main.duplicate_check category la lo (answering s)) = Ok None ->
        Main.create_issue_report env title description category image latitude
          longitude mcq_responses current_user s
        = Main.create_issue_report env title description category image latitude
            longitude mcq_responses current_user (answering s))
    /\ (faults s = [true] ->
        well_formed env title description category la lo mcq_responses ->
        exists data s'' r,
          Main.create_issue_report env title description category image latitude
            longitude mcq_responses current_user s
          = (Ok (Main.Created "Report created successfully." data), s'')
          /\ Main.n_id data = id r
          /\ In r (reports (committed s''))
          /\ category = Models.category r
          /\ length (reports (committed s'')) = S (length (reports (working s))))
    /\ (faults s = [true] ->
        ~ well_formed env title description category la lo mcq_responses ->
        Main.create_issue_report env title description category image latitude
          longitude mcq_responses current_user s
        = (Raise (HTTPException 500 (Text "Internal server error while creating report")),
           answering s)).
Proof.
  intros env title description category image latitude longitude mcq_responses
    current_user s la lo Hok Hfinal.
  split; [|split; [|split; [|split]]].
  - destruct (duplicate_check_total category la lo s) as [r [s' [E [Hc [Hw _]]]]].
    exists r, s'. repeat split; try assumption.
    intros Hh Hvalid. destruct r as [existing|].
    + do 2 eexists.
      apply (create_issue_report_duplicate env title description category image latitude
               longitude mcq_responses current_user s s' la lo existing); assumption.
    + destruct (create_issue_report_run env title description category image
                  latitude longitude mcq_responses current_user s s' la lo Hok Hfinal
                  E Hh Hvalid) as [r [H _]].
      do 2 eexists. exact H.
  - intros fs Hf. apply duplicate_check_scan_fault. exact Hf.
  - intros Hf Hnone.
    apply (create_issue_report_after_check env title description category image
             latitude longitude mcq_responses current_user s (answering s) (answering s)
             la lo Hok Hfinal).
    + apply duplicate_check_scan_fault. exact Hf.
    + pose proof (duplicate_check_healthy category la lo (answering s) eq_refl) as E.
      rewrite E in Hnone. rewrite E. f_equal. exact Hnone.
  - intros Hf Hvalid.
    destruct (create_issue_report_run env title description category image
                latitude longitude mcq_responses current_user s (answering s) la lo
                Hok Hfinal (duplicate_check_scan_fault category la lo s [] Hf) eq_refl
                Hvalid)
      as [r [H [_ [_ [_ [Hcat _]]]]]].
    eexists. eexists. exists r. split; [exact H|]. cbv zeta.
    cbn [Main.n_id committed with_reports reports answering working].
    split; [reflexivity|]. split; [apply in_or_app; right; left; reflexivity|].
    split; [symmetry; exact Hcat|]. rewrite length_app. cbn [length]. lia.
  - intros Hf Hbad.
    apply (create_issue_report_refused env title description category image latitude
             longitude mcq_responses current_user s (answering s) la lo Hok Hfinal);
      [apply duplicate_check_scan_fault; exact Hf | exact Hbad].
Qed.

(** A second pothole is reported at the place of the sample pothole while the
    candidates query fails: the report is created all the same. *)
Lemma duplicate_scan_fails_open_witness :
  acceptable_upload Sample.photo_without_gps
  /\ final_coordinates Sample.photo_without_gps (Some 12%R) (Some 77%R)
     = Some (12%R, 77%R)
  /\ well_formed Sample.env "Pothole again" None "Pothole" 12 77 None
  /\ exists data s'',
       Main.create_issue_report Sample.env "Pothole again" None "Pothole"
         Sample.photo_without_gps (Some 12%R) (Some 77%R) None Sample.citizen
         Sample.session_failing_scan
       = (Ok (Main.Created "Report created successfully." data), s'')
       /\ length (reports (committed s'')) = 2%nat.
Proof.
  assert (Hok : acceptable_upload Sample.photo_without_gps).
  { split; [exists "image/jpeg"; split; reflexivity | reflexivity]. }
  assert (Hvalid : well_formed Sample.env "Pothole again" None "Pothole" 12 77 None).
  { unfold well_formed, ReportService.valid. cbn -[PyFloat.Rleb].
    rewrite !Rleb_true by lra. reflexivity. }
  split; [exact Hok|]. split; [reflexivity|]. split; [exact Hvalid|].
  destruct (duplicate_scan_fails_open Sample.env "Pothole again" None "Pothole"
              Sample.photo_without_gps (Some 12%R) (Some 77%R) None Sample.citizen
              Sample.session_failing_scan 12%R 77%R Hok eq_refl) as [_ [_ [_ [H _]]]].
  destruct (H eq_refl Hvalid) as [data [s'' [r [H1 [_ [_ [_ H5]]]]]]].
  exists data, s''. split; [exact H1 | exact H5].
Defined.



(* ------------------------------------------------------------------ *)
(** * Further properties of the code *)

(** ** Distances *)

Section Distances.

Import PyFloat ResolutionService.
Local Open Scope R_scope.

Lemma asin_nonneg (y : R) : 0 <= y <= 1 -> 0 <= asin y <= PI / 2.
Proof.
  intros [H0 H1]. split; [|apply asin_bound].
  destruct (Rle_lt_dec 0 (asin y)) as [H|H]; [exact H|]. exfalso.
  assert (Hs : sin (asin y) < 0).
  { apply sin_lt_0_var; [|exact H].
    generalize (asin_bound y) PI_RGT_0. lra. }
  rewrite sin_asin in Hs by lra. lra.
Qed.

Lemma clamp_range (a : R) :
  0 <= (if Rltb 1 a then 1 else if Rltb a 0 then 0 else a) <= 1.
Proof.
  unfold Rltb. destruct (Rlt_dec 1 a); [lra|]. destruct (Rlt_dec a 0); lra.
Qed.

Lemma sqrt_unit (a : R) : 0 <= a <= 1 -> 0 <= sqrt a <= 1.
Proof.
  intros [H0 H1]. split; [apply sqrt_pos|].
  rewrite <- sqrt_1. apply sqrt_le_1; lra.
Qed.

Lemma distance_cases (lat1 lon1 lat2 lon2 : R) :
  match calculate_distance lat1 lon1 lat2 lon2 with
  | Inf =>
      ExifService.validate_gps_coordinates lat1 lon1
      && ExifService.validate_gps_coordinates lat2 lon2 = false
  | Finite d =>
      ExifService.validate_gps_coordinates lat1 lon1
      && ExifService.validate_gps_coordinates lat2 lon2 = true
      /\ 0 <= d <= PI * 6371000
  end.
Proof.
  unfold calculate_distance, ExifService.validate_gps_coordinates.
  destruct (Rleb (-90) lat1 && Rleb lat1 90); cbn [negb orb andb]; [|reflexivity].
  destruct (Rleb (-90) lat2 && Rleb lat2 90); cbn [negb orb andb].
  2:{ destruct (Rleb (-180) lon1 && Rleb lon1 180); reflexivity. }
  destruct (Rleb (-180) lon1 && Rleb lon1 180); cbn [negb orb andb]; [|reflexivity].
  destruct (Rleb (-180) lon2 && Rleb lon2 180); cbn [negb orb andb]; [|reflexivity].
  cbv zeta. split; [reflexivity|].
  match goal with |- context [sqrt ?a] =>
    pose proof (asin_nonneg (sqrt a) (sqrt_unit a (clamp_range _))) as H
  end.
  lra.
Qed.

Lemma asin_sqrt_sin_sq (x : R) :
  - (PI / 2) <= x <= PI / 2 ->
  asin (sqrt (if Rltb 1 (sin x ^ 2) then 1 else if Rltb (sin x ^ 2) 0 then 0
              else sin x ^ 2)) = Rabs x.
Proof.
  intros Hx.
  assert (Hpi : 0 < PI) by apply PI_RGT_0.
  assert (Hs : -1 <= sin x <= 1) by apply SIN_bound.
  assert (Hsq : 0 <= sin x ^ 2 <= 1) by nra.
  rewrite (Rltb_false 1) by lra. rewrite (Rltb_false _ 0) by lra.
  replace (sin x ^ 2) with (Rsqr (sin x)) by (unfold Rsqr; ring).
  rewrite sqrt_Rsqr_abs.
  unfold Rabs. destruct (Rcase_abs x) as [Hneg|Hpos].
  - assert (Hsn : sin x < 0) by (apply sin_lt_0_var; lra).
    destruct (Rcase_abs (sin x)); [|lra].
    rewrite <- sin_neg. apply asin_sin. lra.
  - assert (Hsn : 0 <= sin x) by (apply sin_ge_0; lra).
    destruct (Rcase_abs (sin x)); [lra|]. apply asin_sin. lra.
Qed.

Lemma radians_range (x b : R) :
  0 <= b -> - b <= x <= b -> - (b * (PI / 180)) <= radians x <= b * (PI / 180).
Proof.
  intros Hb Hx. unfold radians.
  assert (Hq : 0 < PI / 180) by (apply Rdiv_lt_0_compat; [apply PI_RGT_0 | lra]).
  split; nra.
Qed.

(** X1.  The distance of a point with valid coordinates to itself is zero,
    and a resolution photo taken at the very position of the report passes
    the location check. *)
Theorem distance_of_a_point_to_itself :
  forall lat lon : R,
    -90 <= lat <= 90 -> -180 <= lon <= 180 ->
    calculate_distance lat lon lat lon = Finite 0
    /\ verify_resolution_location lat lon lat lon = (true, Finite 0).
Proof.
  intros lat lon Hlat Hlon. split.
  - apply calculate_distance_same_point; assumption.
  - apply verify_same_point; assumption.
Qed.

Lemma distance_of_a_point_to_itself_witness :
  (-90 <= 12 <= 90) /\ (-180 <= 77 <= 180)
  /\ calculate_distance 12 77 12 77 = Finite 0.
Proof.
  assert (H1 : -90 <= 12 <= 90) by lra.
  assert (H2 : -180 <= 77 <= 180) by lra.
  split; [exact H1|]. split; [exact H2|].
  exact (proj1 (distance_of_a_point_to_itself 12 77 H1 H2)).
Defined.

(** X2.  [calculate_distance] gives the infinite sentinel exactly when a
    latitude is outside [-90, 90] or a longitude outside [-180, 180];
    otherwise it gives a length between zero and half the circumference of
    the Earth of the formula, pi times 6371000 meters. *)
Theorem distance_is_a_length_or_the_sentinel :
  forall lat1 lon1 lat2 lon2 : R,
    match calculate_distance lat1 lon1 lat2 lon2 with
    | Inf =>
        ExifService.validate_gps_coordinates lat1 lon1
        && ExifService.validate_gps_coordinates lat2 lon2 = false
    | Finite d =>
        ExifService.validate_gps_coordinates lat1 lon1
        && ExifService.validate_gps_coordinates lat2 lon2 = true
        /\ 0 <= d <= PI * 6371000
    end.
Proof. exact distance_cases. Qed.

(** X3.  Between two points of the same meridian the distance is the arc
    of the meridian: the radius of the Earth times the difference of the
    latitudes in radians. *)
Theorem distance_along_a_meridian :
  forall lat1 lat2 lon : R,
    -90 <= lat1 <= 90 -> -90 <= lat2 <= 90 -> -180 <= lon <= 180 ->
    calculate_distance lat1 lon lat2 lon
    = Finite (6371000 * Rabs (radians lat2 - radians lat1)).
Proof.
  intros lat1 lat2 lon H1 H2 Hl. unfold calculate_distance.
  rewrite (in_range _ _ _ H1), (in_range _ _ _ H2), (in_range _ _ _ Hl).
  cbn [orb]. cbv zeta.
  replace ((radians lon - radians lon) / 2) with 0 by lra. rewrite sin_0.
  set (x := (radians lat2 - radians lat1) / 2).
  replace (sin x ^ 2 + cos (radians lat1) * cos (radians lat2) * 0 ^ 2)
    with (sin x ^ 2) by ring.
  assert (Hx : - (PI / 2) <= x <= PI / 2).
  { pose proof (radians_range lat1 90 ltac:(lra) ltac:(lra)).
    pose proof (radians_range lat2 90 ltac:(lra) ltac:(lra)).
    unfold x. lra. }
  rewrite (asin_sqrt_sin_sq x Hx). f_equal.
  replace (radians lat2 - radians lat1) with (2 * x) by (unfold x; lra).
  rewrite Rabs_mult, (Rabs_pos_eq 2) by lra. ring.
Qed.

(** From the south pole to the north pole it is half the circumference. *)
Lemma distance_along_a_meridian_witness :
  calculate_distance (-90) 0 90 0 = Finite (6371000 * PI).
Proof.
  rewrite (distance_along_a_meridian (-90) 90 0) by lra.
  f_equal. unfold radians.
  replace (90 * (PI / 180) - -90 * (PI / 180)) with PI by field.
  rewrite Rabs_pos_eq; [reflexivity | generalize PI_RGT_0; lra].
Defined.

(** X4.  Between two points of the equator whose longitudes differ by at
    most 180 degrees the distance is the arc of the equator: the radius of
    the Earth times the difference of the longitudes in radians. *)
Theorem distance_along_the_equator :
  forall lon1 lon2 : R,
    -180 <= lon1 <= 180 -> -180 <= lon2 <= 180 -> -180 <= lon2 - lon1 <= 180 ->
    calculate_distance 0 lon1 0 lon2
    = Finite (6371000 * Rabs (radians lon2 - radians lon1)).
Proof.
  intros lon1 lon2 H1 H2 Hd. unfold calculate_distance.
  rewrite (in_range (-90) 0 90) by lra.
  rewrite (in_range _ _ _ H1), (in_range _ _ _ H2).
  cbn [orb]. cbv zeta.
  replace (radians 0) with 0 by (unfold radians; ring).
  replace ((0 - 0) / 2) with 0 by lra. rewrite sin_0, cos_0.
  set (x := (radians lon2 - radians lon1) / 2).
  replace (0 ^ 2 + 1 * 1 * sin x ^ 2) with (sin x ^ 2) by ring.
  assert (Hx : - (PI / 2) <= x <= PI / 2).
  { pose proof (radians_range (lon2 - lon1) 180 ltac:(lra) ltac:(lra)) as H.
    unfold radians in H. unfold x, radians. lra. }
  rewrite (asin_sqrt_sin_sq x Hx). f_equal.
  replace (radians lon2 - radians lon1) with (2 * x) by (unfold x; lra).
  rewrite Rabs_mult, (Rabs_pos_eq 2) by lra. ring.
Qed.

(** The antipodal points (0, 0) and (0, 180) of the accuracy test. *)
Lemma distance_along_the_equator_witness :
  calculate_distance 0 0 0 180 = Finite (6371000 * PI).
Proof.
  rewrite (distance_along_the_equator 0 180) by lra.
  f_equal. unfold radians.
  replace (180 * (PI / 180) - 0 * (PI / 180)) with PI by field.
  rewrite Rabs_pos_eq; [reflexivity | generalize PI_RGT_0; lra].
Defined.

(** X5.  The location check accepts a pair of points exactly when all four
    coordinates are in range and the distance is at most 30 meters; with a
    coordinate out of range it answers [(False, inf)]. *)
Theorem location_check_needs_valid_coordinates :
  forall lat1 lon1 lat2 lon2 : R,
    (fst (verify_resolution_location lat1 lon1 lat2 lon2) = true
     <-> ExifService.validate_gps_coordinates lat1 lon1
         && ExifService.validate_gps_coordinates lat2 lon2 = true
         /\ exists d, calculate_distance lat1 lon1 lat2 lon2 = Finite d
                      /\ 0 <= d <= 30)
    /\ (ExifService.validate_gps_coordinates lat1 lon1
        && ExifService.validate_gps_coordinates lat2 lon2 = false
        -> verify_resolution_location lat1 lon1 lat2 lon2 = (false, Inf)).
Proof.
  intros lat1 lon1 lat2 lon2. unfold verify_resolution_location. cbn [fst].
  pose proof (distance_cases lat1 lon1 lat2 lon2) as H.
  destruct (calculate_distance lat1 lon1 lat2 lon2) as [d|].
  - destruct H as [Hv [H0 _]]. rewrite Hv. split.
    + rewrite leb_Finite. unfold max_distance_meters. split.
      * intros Hle. split; [reflexivity|]. exists d. split; [reflexivity | lra].
      * intros [_ [d' [E [_ Hle]]]]. injection E as <-. exact Hle.
    + discriminate.
  - rewrite H. split.
    + cbn [leb]. split; [discriminate | intros [E _]; discriminate E].
    + reflexivity.
Qed.

(** A photo with latitude 91 is never accepted. *)
Lemma location_check_needs_valid_coordinates_witness :
  verify_resolution_location 12 77 91 77 = (false, Inf).
Proof.
  apply (proj2 (location_check_needs_valid_coordinates 12 77 91 77)).
  unfold ExifService.validate_gps_coordinates.
  rewrite (Rleb_false 91 90) by lra.
  rewrite !andb_false_r. reflexivity.
Defined.

End Distances.

(** ** EXIF positions *)

Section ExifPositions.

Import ExifService.
Local Open Scope R_scope.

Lemma Rleb_spec (x y : R) : PyFloat.Rleb x y = true <-> x <= y.
Proof.
  unfold PyFloat.Rleb. destruct (Rle_dec x y); split; intros H;
    try assumption; try reflexivity; try discriminate; contradiction.
Qed.

(** X6.  A position that [extract_gps_from_image] returns is the one of the
    EXIF block of a non-empty image, lies in the valid ranges and is not the
    point (0, 0); in every other case the function returns nothing.  The
    point (0, 0) is refused although [validate_gps_coordinates] accepts it. *)
Theorem extracted_position_is_validated :
  forall image : UploadFile,
    match extract_gps_from_image image with
    | Some (latitude, longitude) =>
        content image <> ""%string
        /\ exif_gps image = Some (latitude, longitude)
        /\ validate_gps_coordinates latitude longitude = true
        /\ ~ (latitude = 0 /\ longitude = 0)
    | None =>
        content image = ""%string
        \/ exif_gps image = None
        \/ exists latitude longitude,
             exif_gps image = Some (latitude, longitude)
             /\ (validate_gps_coordinates latitude longitude = false
                 \/ (latitude = 0 /\ longitude = 0
                     /\ validate_gps_coordinates latitude longitude = true))
    end.
Proof.
  intros image. unfold extract_gps_from_image, validate_gps_coordinates.
  destruct (String.eqb (content image) "") eqn:Ec.
  { left. apply String.eqb_eq. exact Ec. }
  apply String.eqb_neq in Ec.
  destruct (exif_gps image) as [[la lo]|]; [|right; left; reflexivity].
  destruct (PyFloat.Rleb (-90) la && PyFloat.Rleb la 90) eqn:Ela; cbn [negb andb].
  2:{ right. right. exists la, lo. split; [reflexivity | left; rewrite Ela; reflexivity]. }
  destruct (PyFloat.Rleb (-180) lo && PyFloat.Rleb lo 180) eqn:Elo; cbn [negb andb].
  2:{ right. right. exists la, lo.
      split; [reflexivity | left; rewrite Ela, Elo; reflexivity]. }
  unfold PyFloat.Reqb.
  destruct (Req_dec_T la 0) as [Hla|Hla]; cbn [andb].
  - destruct (Req_dec_T lo 0) as [Hlo|Hlo].
    + right. right. exists la, lo. split; [reflexivity|]. right.
      rewrite Ela, Elo. auto.
    + rewrite Ela, Elo. repeat split; try assumption. intros [_ H]. contradiction.
  - rewrite Ela, Elo. repeat split; try assumption. intros [H _]. contradiction.
Qed.





End ExifPositions.

(** ** The status service *)

Section StatusServiceMore.

Lemma find_report_other (report_id other : Z) (f : Report -> Report) (l : list Report) :
  preserves_id f -> other <> report_id ->
  find_report other (map (on_report report_id f) l) = find_report other l.
Proof.
  intros Hf Hne. unfold find_report. induction l as [|r l IH]; [reflexivity|].
  cbn [map find].
  destruct (Z.eqb (id r) report_id) eqn:E.
  - rewrite (on_report_hit _ _ _ E), Hf. apply Z.eqb_eq in E.
    destruct (Z.eqb (id r) other) eqn:E'; [apply Z.eqb_eq in E'; congruence | exact IH].
  - rewrite (on_report_miss _ _ _ E).
    destruct (Z.eqb (id r) other); [reflexivity | exact IH].
Qed.

Lemma update_report_status_accepted (s : Session) (report_id : Z) (report : Report)
    (new_status changed_by : string) (notes : option Note) (d : StatusDict) :
  healthy s ->
  find_report report_id (reports (working s)) = Some report ->
  status report <> new_status ->
  fst (update_report_status report_id new_status changed_by notes s) = Ok d ->
  snd (update_report_status report_id new_status changed_by notes s)
  = accepted s report_id new_status changed_by notes.
Proof.
  intros Hh Hfind Hne.
  rewrite (update_report_status_healthy s report_id report) by assumption.
  destruct (negb (PyStr.mem new_status valid_statuses)); [discriminate|].
  rewrite (proj2 (String.eqb_neq _ _) Hne).
  destruct (String.eqb (status report) "resolved"
            && negb (String.eqb new_status "resolved")); [discriminate|].
  destruct (negb (lifecycle_ok (status report) new_status)); [discriminate|].
  destruct (String.eqb new_status "resolved"
            && negb (String.eqb (status report) "resolved")); [discriminate|].
  reflexivity.
Qed.

Lemma resolve_report_with_evidence_healthy (s : Session) (report_id : Z)
    (report : Report) (changed_by : string) (notes : option Note) :
  healthy s ->
  find_report report_id (reports (working s)) = Some report ->
  resolve_report_with_evidence report_id changed_by notes s =
  if String.eqb (status report) "resolved" then
    (Ok (Unchanged "Report is already resolved" report_id "resolved"), s)
  else
    (Ok (Changed "Report resolved successfully" report_id (status report) "resolved"
           changed_by (clock s) notes),
     evidenced s report_id changed_by notes).
Proof.
  unfold healthy. destruct s as [c w k f]. cbn [faults working]. intros -> Hfind.
  unfold resolve_report_with_evidence, try_except, bind.
  cbv [query_report bind round_trip get_working ret faults working].
  rewrite Hfind.
  destruct (String.eqb (status report) "resolved"); [reflexivity|].
  rewrite update_report_run. cbv [now clock]. rewrite update_report_run.
  cbv [add_status_history _update_status_history_json bind get_working put_working now
       ret working committed clock faults].
  rewrite update_report_run.
  cbv [commit refresh round_trip bind faults working committed clock ret].
  unfold evidenced, evidence_store. cbn [working clock].
  f_equal.
  cbn [with_reports reports report_status_history admin_verifications
       face_verifications report_upvotes report_comments].
  rewrite !map_on_report by (intros r; reflexivity).
  reflexivity.
Qed.



(** X9.  An accepted status update touches one report only, and on it only
    the status, the timestamp of the entered stage and the JSON history:
    every report with another key is stored as before, the identity, the
    soft-deletion and the resolution columns of the report are as before,
    and the JSON history of the report has gained one entry that agrees
    with the history row (status, actor, time, note). *)
Theorem accepted_update_changes_nothing_else :
  forall (s : Session) (report_id : Z) (report : Report)
         (new_status changed_by : string) (notes : option Note) (d : StatusDict),
    healthy s ->
    find_report report_id (reports (working s)) = Some report ->
    fst (update_report_status report_id new_status changed_by notes s) = Ok d ->
    status report <> new_status ->
    let s' := snd (update_report_status report_id new_status changed_by notes s) in
    (forall other, other <> report_id ->
                   stored s' other = find_report other (reports (working s)))
    /\ exists r',
         stored s' report_id = Some r'
         /\ identity r' = identity report
         /\ is_deleted r' = is_deleted report
         /\ deleted_at r' = deleted_at report
         /\ resolved_by r' = resolved_by report
         /\ resolution_image_url r' = resolution_image_url report
         /\ resolution_coordinates r' = resolution_coordinates report
         /\ admin_notes r' = admin_notes report
         /\ status_history r'
            = Some (history_list report
                    ++ [mkStatusHistoryJson new_status changed_by (clock s) notes])%list.
Proof.
  intros s report_id report new_status changed_by notes d Hh Hfind.
  rewrite (update_report_status_healthy s report_id report) by assumption.
  destruct (negb (PyStr.mem new_status valid_statuses)); [discriminate|].
  destruct (String.eqb (status report) new_status) eqn:Esame.
  { intros _ Hne. apply String.eqb_eq in Esame. contradiction. }
  destruct (String.eqb (status report) "resolved"
            && negb (String.eqb new_status "resolved")); [discriminate|].
  destruct (negb (lifecycle_ok (status report) new_status)); [discriminate|].
  destruct (String.eqb new_status "resolved"
            && negb (String.eqb (status report) "resolved")); [discriminate|].
  intros _ _. cbn [snd]. split.
  - intros other Hne. unfold stored, accepted, accepted_store. cbn [committed reports].
    apply find_report_other; [apply transition_preserves_id | exact Hne].
  - exists (transition new_status changed_by (clock s) notes report).
    split; [apply stored_accepted; assumption|].
    unfold transition, log_json, stamp, identity, history_list.
    destruct (String.eqb new_status "acknowledged");
      [|destruct (String.eqb new_status "in_progress");
        [|destruct (String.eqb new_status "resolved")]];
      repeat split; reflexivity.
Qed.

(** Acknowledging the sample pothole leaves its JSON history with one
    entry. *)
Lemma accepted_update_changes_nothing_else_witness :
  healthy Sample.session
  /\ exists r',
       stored (snd (update_report_status 1 "acknowledged" "admin-1" None Sample.session)) 1
       = Some r'
       /\ status_history r'
          = Some [mkStatusHistoryJson "acknowledged" "admin-1" 5%nat None].
Proof.
  split; [reflexivity|].
  destruct (accepted_update_changes_nothing_else Sample.session 1 Sample.pothole
              "acknowledged" "admin-1" None _ eq_refl eq_refl eq_refl)
    as [_ [r' [H1 H2]]]; [discriminate|].
  exists r'. split; [exact H1|].
  destruct H2 as [_ [_ [_ [_ [_ [_ [_ H]]]]]]]. exact H.
Defined.

(** X10.  The error paths of [update_report_status].  An unknown status is
    refused before the database is asked anything; a failing query raises
    the database error; a key that is not in the table raises "Report N not
    found".  Each time the pending work of the session is rolled back and
    the database is as before. *)
Theorem update_report_status_error_paths :
  forall (s : Session) (report_id : Z) (new_status changed_by : string)
         (notes : option Note),
    (PyStr.mem new_status valid_statuses = false ->
     update_report_status report_id new_status changed_by notes s
     = (Raise (ValueError ("Invalid status: " ++ new_status ++ ". Valid statuses: "
                           ++ valid_statuses_str)), rolled_back s))
    /\ (PyStr.mem new_status valid_statuses = true ->
        forall fs, faults s = true :: fs ->
        update_report_status report_id new_status changed_by notes s
        = (Raise DatabaseError, mkSession (committed s) (committed s) (clock s) fs))
    /\ (PyStr.mem new_status valid_statuses = true ->
        healthy s ->
        find_report report_id (reports (working s)) = None ->
        update_report_status report_id new_status changed_by notes s
        = (Raise (ValueError ("Report " ++ PyStr.of_Z report_id ++ " not found")),
           rolled_back s)).
Proof.
  intros s report_id new_status changed_by notes.
  unfold update_report_status, try_except, bind, when. repeat split.
  - intros ->. reflexivity.
  - intros -> fs Hf. cbv [negb ret query_report bind round_trip]. rewrite Hf.
    reflexivity.
  - intros -> Hh Hnone. unfold healthy in Hh.
    cbv [negb ret query_report bind round_trip get_working]. rewrite Hh, Hnone.
    reflexivity.
Qed.

Lemma update_report_status_error_paths_witness :
  fst (update_report_status 7 "acknowledged" "admin-1" None Sample.session)
  = Raise (ValueError "Report 7 not found")
  /\ fst (update_report_status 1 "closed" "admin-1" None Sample.session)
     = Raise (ValueError
                "Invalid status: closed. Valid statuses: ['reported', 'acknowledged', 'in_progress', 'resolved']").
Proof.
  destruct (update_report_status_error_paths Sample.session 7 "acknowledged" "admin-1"
              None) as [_ [_ H]].
  destruct (update_report_status_error_paths Sample.session 1 "closed" "admin-1"
              None) as [H' _].
  split.
  - rewrite (H eq_refl eq_refl eq_refl). reflexivity.
  - rewrite (H' eq_refl). reflexivity.
Defined.

End StatusServiceMore.

(** ** Reading the history *)

Section History.

Lemma insert_by_changed_at_perm (h : ReportStatusHistory) (l : list ReportStatusHistory) :
  Permutation (insert_by_changed_at h l) (h :: l).
Proof.
  induction l as [|x l IH]; cbn [insert_by_changed_at]; [apply Permutation_refl|].
  destruct (Nat.leb (h_changed_at h) (h_changed_at x)); [apply Permutation_refl|].
  eapply perm_trans; [apply perm_skip, IH | apply perm_swap].
Qed.

Lemma order_by_changed_at_perm (l : list ReportStatusHistory) :
  Permutation (order_by_changed_at l) l.
Proof.
  induction l as [|h l IH]; [apply Permutation_refl|].
  cbn [order_by_changed_at fold_right].
  eapply perm_trans; [apply insert_by_changed_at_perm | apply perm_skip, IH].
Qed.

Lemma insert_by_changed_at_chronological (h : ReportStatusHistory)
    (l : list ReportStatusHistory) :
  chronological l -> chronological (insert_by_changed_at h l).
Proof.
  induction l as [|x l IH]; cbn [insert_by_changed_at chronological].
  - intros _. split; [intros h' []|exact I].
  - intros [Hx Hl]. destruct (Nat.leb (h_changed_at h) (h_changed_at x)) eqn:E.
    + apply Nat.leb_le in E. cbn [chronological]. split; [|split; assumption].
      intros h' [<-|Hin]; [exact E|]. specialize (Hx h' Hin). lia.
    + apply Nat.leb_gt in E. cbn [chronological]. split; [|apply IH; exact Hl].
      intros h' Hin.
      apply (Permutation_in _ (insert_by_changed_at_perm h l)) in Hin.
      destruct Hin as [<-|Hin]; [lia | apply Hx; exact Hin].
Qed.

Lemma order_by_changed_at_chronological (l : list ReportStatusHistory) :
  chronological (order_by_changed_at l).
Proof.
  induction l as [|h l IH]; [exact I|].
  cbn [order_by_changed_at fold_right]. apply insert_by_changed_at_chronological, IH.
Qed.

Lemma order_by_changed_at_sorted (l : list ReportStatusHistory) :
  chronological l -> order_by_changed_at l = l.
Proof.
  induction l as [|h l IH]; [reflexivity|].
  intros [Hh Hl]. cbn [order_by_changed_at fold_right].
  fold (order_by_changed_at l). rewrite (IH Hl).
  destruct l as [|x l]; [reflexivity|]. cbn [insert_by_changed_at].
  rewrite (proj2 (Nat.leb_le _ _) (Hh x (or_introl eq_refl))). reflexivity.
Qed.

Lemma chronological_filter (p : ReportStatusHistory -> bool)
    (l : list ReportStatusHistory) :
  chronological l -> chronological (filter p l).
Proof.
  induction l as [|h l IH]; [intros _; exact I|].
  intros [Hh Hl]. cbn [filter]. destruct (p h); [|apply IH; exact Hl].
  cbn [chronological]. split; [|apply IH; exact Hl].
  intros h' Hin. apply filter_In in Hin. apply Hh, Hin.
Qed.

Lemma chronological_snoc (l : list ReportStatusHistory) (h : ReportStatusHistory) :
  chronological l ->
  (forall h', In h' l -> (h_changed_at h' <= h_changed_at h)%nat) ->
  chronological (l ++ [h]).
Proof.
  induction l as [|x l IH]; cbn [app chronological].
  - intros _ _. split; [intros h' []|exact I].
  - intros [Hx Hl] Hle. split.
    + intros h' Hin. apply in_app_or in Hin. destruct Hin as [Hin|[<-|[]]].
      * apply Hx; exact Hin.
      * apply Hle. left. reflexivity.
    + apply IH; [exact Hl|]. intros h' Hin. apply Hle. right. exact Hin.
Qed.

Lemma get_status_history_healthy (s : Session) (report_id : Z) :
  healthy s ->
  get_status_history report_id s
  = (Ok (order_by_changed_at (rows_of report_id (working s))), s).
Proof.
  unfold healthy. intros Hh.
  unfold get_status_history, try_except, bind, round_trip, get_working, ret.
  rewrite Hh. reflexivity.
Qed.

Lemma get_status_history_cases (s : Session) (report_id : Z) :
  (exists fs, faults s = true :: fs
              /\ get_status_history report_id s
                 = (Ok [], mkSession (committed s) (working s) (clock s) fs))
  \/ (exists s', get_status_history report_id s
                 = (Ok (order_by_changed_at (rows_of report_id (working s))), s')
                 /\ committed s' = committed s /\ working s' = working s
                 /\ clock s' = clock s).
Proof.
  unfold get_status_history, try_except, bind, round_trip, get_working, ret.
  destruct (faults s) as [|[|] fs] eqn:Hf.
  - right. eexists. split; [reflexivity|]. repeat split.
  - left. exists fs. split; reflexivity.
  - right. eexists. split; [reflexivity|]. repeat split.
Qed.

(** X11.  [get_status_history] never raises and changes no data.  Its rows
    are rows of the table that belong to the report, in the order of their
    times; when the database answers they are all of them, and when the
    query fails the answer is the empty list, as for a report without
    history. *)
Theorem status_history_is_sorted_or_empty :
  forall (s : Session) (report_id : Z),
    exists rows s',
      get_status_history report_id s = (Ok rows, s')
      /\ committed s' = committed s /\ working s' = working s
      /\ chronological rows
      /\ (forall h, In h rows ->
                    h_report_id h = report_id
                    /\ In h (report_status_history (working s)))
      /\ (rows = [] \/ Permutation rows (rows_of report_id (working s)))
      /\ (healthy s -> Permutation rows (rows_of report_id (working s)))
      /\ (forall fs, faults s = true :: fs -> rows = []).
Proof.
  intros s report_id.
  destruct (get_status_history_cases s report_id) as [[fs [Hf E]]|[s' [E [Hc [Hw Hk]]]]].
  - exists [], (mkSession (committed s) (working s) (clock s) fs).
    split; [exact E|]. split; [reflexivity|]. split; [reflexivity|].
    split; [exact I|]. split; [intros h []|]. split; [left; reflexivity|].
    split; [|intros _ _; reflexivity].
    unfold healthy. rewrite Hf. discriminate.
  - exists (order_by_changed_at (rows_of report_id (working s))), s'.
    split; [exact E|]. split; [exact Hc|]. split; [exact Hw|].
    split; [apply order_by_changed_at_chronological|].
    assert (Hp := order_by_changed_at_perm (rows_of report_id (working s))).
    split; [|split; [right; exact Hp|split; [intros _; exact Hp|]]].
    + intros h Hin. apply (Permutation_in _ Hp) in Hin. unfold rows_of in Hin.
      apply filter_In in Hin. destruct Hin as [Hin Hid].
      apply Z.eqb_eq in Hid. split; assumption.
    + intros fs Hf. revert E.
      unfold get_status_history, try_except, bind, round_trip, get_working, ret.
      rewrite Hf. intros E. inversion E. reflexivity.
Qed.

(** X12.  What a reader sees after an accepted status update: on a history
    table that is in the order of its times (none ahead of the clock),
    [get_status_history] returns the rows it returned before, followed by
    the row of the update; the histories of the other reports read as
    before. *)
Theorem status_history_after_update :
  forall (s : Session) (report_id : Z) (report : Report)
         (new_status changed_by : string) (notes : option Note) (d : StatusDict),
    healthy s -> timely s ->
    find_report report_id (reports (working s)) = Some report ->
    status report <> new_status ->
    fst (update_report_status report_id new_status changed_by notes s) = Ok d ->
    let s' := snd (update_report_status report_id new_status changed_by notes s) in
    timely s'
    /\ (exists before,
           fst (get_status_history report_id s) = Ok before
           /\ fst (get_status_history report_id s')
              = Ok (before
                    ++ [mkReportStatusHistory report_id new_status changed_by
                          (clock s) notes])%list)
    /\ (forall other, other <> report_id ->
                      fst (get_status_history other s')
                      = fst (get_status_history other s)).
Proof.
  intros s report_id report new_status changed_by notes d Hh [Hchron Hle] Hfind Hne.
  rewrite (update_report_status_healthy s report_id report) by assumption.
  destruct (negb (PyStr.mem new_status valid_statuses)); [discriminate|].
  rewrite (proj2 (String.eqb_neq _ _) Hne).
  destruct (String.eqb (status report) "resolved"
            && negb (String.eqb new_status "resolved")); [discriminate|].
  destruct (negb (lifecycle_ok (status report) new_status)); [discriminate|].
  destruct (String.eqb new_status "resolved"
            && negb (String.eqb (status report) "resolved")); [discriminate|].
  intros _. cbn [snd].
  set (row := mkReportStatusHistory report_id new_status changed_by (clock s) notes).
  assert (Hsnoc : chronological (report_status_history (working s) ++ [row])).
  { apply chronological_snoc; [exact Hchron|]. intros h' Hin. apply Hle. exact Hin. }
  split; [|split].
  - unfold timely, accepted, accepted_store. cbn [working report_status_history clock].
    split; [exact Hsnoc|]. intros h Hin. apply in_app_or in Hin.
    destruct Hin as [Hin|[<-|[]]]; [specialize (Hle h Hin); lia | cbn; lia].
  - exists (rows_of report_id (working s)).
    rewrite (get_status_history_healthy s) by exact Hh.
    rewrite (get_status_history_healthy (accepted s report_id new_status changed_by notes))
      by reflexivity.
    cbn [fst]. rewrite order_by_changed_at_sorted
      by (apply chronological_filter; exact Hchron).
    split; [reflexivity|]. f_equal.
    assert (E : rows_of report_id
                  (working (accepted s report_id new_status changed_by notes))
                = (rows_of report_id (working s) ++ [row])%list).
    { unfold rows_of, accepted, accepted_store. cbn [working report_status_history].
      rewrite filter_app. cbn [filter h_report_id]. rewrite Z.eqb_refl.
      reflexivity. }
    rewrite E. apply order_by_changed_at_sorted.
    rewrite <- E. apply chronological_filter. exact Hsnoc.
  - intros other Hother.
    rewrite (get_status_history_healthy s) by exact Hh.
    rewrite (get_status_history_healthy (accepted s report_id new_status changed_by notes))
      by reflexivity.
    cbn [fst]. f_equal. f_equal.
    unfold rows_of, accepted, accepted_store. cbn [working report_status_history].
    rewrite filter_app. cbn [filter h_report_id].
    replace (Z.eqb report_id other) with false; [apply app_nil_r|].
    symmetry. apply Z.eqb_neq. congruence.
Qed.

(** After the worked-on pothole goes back to "acknowledged" its history has
    three rows. *)
Lemma status_history_after_update_witness :
  healthy Cases.session /\ timely Cases.session
  /\ fst (get_status_history 1
            (snd (update_report_status 1 "acknowledged" "admin-2" None Cases.session)))
     = Ok [mkReportStatusHistory 1 "acknowledged" "admin-1" 2%nat None;
           mkReportStatusHistory 1 "in_progress" "admin-1" 3%nat None;
           mkReportStatusHistory 1 "acknowledged" "admin-2" 5%nat None].
Proof.
  assert (Ht : timely Cases.session).
  { split.
    - cbn. repeat split; intros h' H;
        repeat (destruct H as [<-|H]; [cbn; lia|]); destruct H.
    - intros h H. cbn in H.
      repeat (destruct H as [<-|H]; [cbn; lia|]). destruct H. }
  split; [reflexivity|]. split; [exact Ht|].
  destruct (status_history_after_update Cases.session 1 Cases.worked_on "acknowledged"
              "admin-2" None _ eq_refl Ht eq_refl ltac:(discriminate) eq_refl)
    as [_ [[before [Hb Ha]] _]].
  rewrite Ha. injection Hb as <-. reflexivity.
Defined.

End History.

(** ** The timeline *)

Section Timelines.

Lemma get_report_status_timeline_healthy (s : Session) (report_id : Z) (report : Report) :
  healthy s ->
  find_report report_id (reports (working s)) = Some report ->
  exists tl,
    get_report_status_timeline report_id s = (Ok (Some tl), s)
    /\ t_report_id tl = report_id
    /\ t_current_status tl = status report
    /\ t_reported tl
       = mkStage "completed" (Some (reported_at report)) "Issue reported by citizen"
    /\ t_acknowledged tl
       = mkStage (completed (acknowledged_at report)) (acknowledged_at report)
           "Issue acknowledged by admin"
    /\ t_in_progress tl
       = mkStage (completed (in_progress_at report)) (in_progress_at report)
           "Work started on issue"
    /\ t_resolved tl
       = mkStage (completed (resolved_at report)) (resolved_at report)
           "Issue resolved with evidence"
    /\ t_history tl = order_by_changed_at (rows_of report_id (working s)).
Proof.
  intros Hh Hfind. eexists. split.
  - unfold get_report_status_timeline, try_except, bind at 1.
    unfold query_report, bind, round_trip, get_working, ret.
    rewrite Hh, Hfind. rewrite (get_status_history_healthy s report_id Hh).
    reflexivity.
  - repeat split; reflexivity.
Qed.

Lemma timeline_run_missing (s : Session) (report_id : Z) :
  healthy s ->
  find_report report_id (reports (working s)) = None ->
  get_report_status_timeline report_id s = (Ok None, s).
Proof.
  intros Hh Hnone.
  unfold get_report_status_timeline, try_except, bind at 1.
  unfold query_report, bind, round_trip, get_working, ret.
  rewrite Hh, Hnone. reflexivity.
Qed.

(** X13.  The timeline after an accepted status update.  The current
    status is the new one, the entered stage is completed at the time of
    the update, and a stage that was completed stays completed: a report
    that was moved back shows stages completed that lie after its current
    status. *)
Theorem timeline_keeps_completed_stages :
  forall (s : Session) (report_id : Z) (report : Report)
         (new_status changed_by : string) (notes : option Note) (d : StatusDict),
    healthy s ->
    find_report report_id (reports (working s)) = Some report ->
    status report <> new_status ->
    fst (update_report_status report_id new_status changed_by notes s) = Ok d ->
    let s' := snd (update_report_status report_id new_status changed_by notes s) in
    exists before after,
      fst (get_report_status_timeline report_id s) = Ok (Some before)
      /\ fst (get_report_status_timeline report_id s') = Ok (Some after)
      /\ t_current_status after = new_status
      /\ t_reported after = t_reported before
      /\ (stage_status (t_acknowledged before) = "completed" ->
          stage_status (t_acknowledged after) = "completed")
      /\ (stage_status (t_in_progress before) = "completed" ->
          stage_status (t_in_progress after) = "completed")
      /\ (stage_status (t_resolved before) = "completed" ->
          stage_status (t_resolved after) = "completed")
      /\ (new_status = "acknowledged" ->
          t_acknowledged after
          = mkStage "completed" (Some (clock s)) "Issue acknowledged by admin")
      /\ (new_status = "in_progress" ->
          t_in_progress after
          = mkStage "completed" (Some (clock s)) "Work started on issue").
Proof.
  intros s report_id report new_status changed_by notes d Hh Hfind Hne Hok.
  cbv zeta.
  rewrite (update_report_status_accepted s report_id report new_status changed_by notes d
             Hh Hfind Hne Hok).
  destruct (get_report_status_timeline_healthy s report_id report Hh Hfind)
    as [before [Eb [_ [_ [Hb0 [Hb1 [Hb2 [Hb3 _]]]]]]]].
  assert (Hfind' : find_report report_id
                     (reports (working (accepted s report_id new_status changed_by notes)))
                   = Some (transition new_status changed_by (clock s) notes report)).
  { unfold accepted, accepted_store. cbn [working reports].
    rewrite find_report_on_report by apply transition_preserves_id.
    rewrite Hfind. reflexivity. }
  destruct (get_report_status_timeline_healthy
              (accepted s report_id new_status changed_by notes) report_id _
              eq_refl Hfind')
    as [after [Ea [_ [Ha [Ha0 [Ha1 [Ha2 [Ha3 _]]]]]]]].
  exists before, after. rewrite Eb, Ea. cbn [fst].
  split; [reflexivity|]. split; [reflexivity|].
  rewrite Ha, Ha0, Ha1, Ha2, Ha3, Hb0, Hb1, Hb2, Hb3. cbn [stage_status].
  unfold transition, log_json, stamp.
  destruct (String.eqb new_status "acknowledged") eqn:E1;
    [|destruct (String.eqb new_status "in_progress") eqn:E2;
      [|destruct (String.eqb new_status "resolved") eqn:E3]];
    cbn; repeat split;
    try (intros H; first [exact H | subst new_status; discriminate]);
    intros _; reflexivity.
Qed.

(** The worked-on pothole goes back to "reported": the timeline still shows
    it acknowledged and in progress. *)
Lemma timeline_keeps_completed_stages_witness :
  healthy Cases.session
  /\ exists after,
       fst (get_report_status_timeline 1
              (snd (update_report_status 1 "reported" "admin-1" None Cases.session)))
       = Ok (Some after)
       /\ t_current_status after = "reported"
       /\ stage_status (t_in_progress after) = "completed".
Proof.
  split; [reflexivity|].
  destruct (timeline_keeps_completed_stages Cases.session 1 Cases.worked_on "reported"
              "admin-1" None _ eq_refl eq_refl ltac:(discriminate) eq_refl)
    as [before [after [Hb [Ha [Hc [_ [_ [Hp _]]]]]]]].
  exists after. split; [exact Ha|]. split; [exact Hc|].
  apply Hp. injection Hb as <-. reflexivity.
Defined.

(** X14.  [get_report_status_timeline] never raises and changes no data.
    A key that is not in the table, and a database that does not answer the
    first query, both give the empty answer; otherwise the answer carries
    the stored status of the report, and its history is the one
    [get_status_history] gives, the empty one when that second query
    fails. *)
Theorem timeline_is_total :
  forall (s : Session) (report_id : Z),
    exists answer s',
      get_report_status_timeline report_id s = (Ok answer, s')
      /\ committed s' = committed s /\ working s' = working s
      /\ (find_report report_id (reports (working s)) = None -> answer = None)
      /\ (forall fs, faults s = true :: fs -> answer = None)
      /\ (forall tl, answer = Some tl ->
            exists report,
              find_report report_id (reports (working s)) = Some report
              /\ t_report_id tl = report_id
              /\ t_current_status tl = status report
              /\ stage_status (t_reported tl) = "completed"
              /\ (t_history tl = []
                  \/ t_history tl = order_by_changed_at (rows_of report_id (working s))))
      /\ (healthy s ->
          forall report, find_report report_id (reports (working s)) = Some report ->
          exists tl, answer = Some tl
                     /\ t_history tl = order_by_changed_at (rows_of report_id (working s))).
Proof.
  intros s report_id.
  unfold get_report_status_timeline, try_except, bind at 1.
  unfold query_report, bind at 1. unfold round_trip at 1.
  destruct (faults s) as [|[|] fs] eqn:Hf.
  - (* the database answers *)
    cbv [bind get_working ret]. cbn [working].
    destruct (find_report report_id (reports (working s))) as [report|] eqn:Hfind.
    + rewrite (get_status_history_healthy s report_id Hf).
      eexists. exists s. split; [reflexivity|]. split; [reflexivity|].
      split; [reflexivity|]. split; [discriminate|]. split; [intros fs H; discriminate H|].
      split.
      * intros tl [= <-]. exists report. split; [reflexivity|].
        repeat split. right. reflexivity.
      * intros _ r [= <-]. eexists. split; reflexivity.
    + exists None, s. split; [reflexivity|]. split; [reflexivity|].
      split; [reflexivity|]. split; [reflexivity|]. split; [intros fs H; reflexivity|].
      split; [intros tl H; discriminate H|]. intros _ r H. discriminate H.
  - (* the first query fails *)
    eexists None, _. split; [reflexivity|]. cbn [committed working].
    split; [reflexivity|]. split; [reflexivity|]. split; [reflexivity|].
    split; [intros ? _; reflexivity|]. split; [intros tl H; discriminate H|].
    unfold healthy. congruence.
  - (* the first query is answered *)
    cbv [bind get_working ret]. cbn [working].
    destruct (find_report report_id (reports (working s))) as [report|] eqn:Hfind.
    + set (s1 := mkSession (committed s) (working s) (clock s) fs).
      destruct (get_status_history_cases s1 report_id)
        as [[fs' [Hf' E]]|[s' [E [Hc [Hw Hk]]]]]; rewrite E.
      * eexists. eexists. split; [reflexivity|]. cbn [committed working].
        split; [reflexivity|]. split; [reflexivity|]. split; [discriminate|].
        split; [intros ? H; discriminate H|]. split.
        -- intros tl [= <-]. exists report. split; [reflexivity|].
           repeat split. left. reflexivity.
        -- unfold healthy. congruence.
      * eexists. exists s'. split; [reflexivity|].
        split; [exact Hc|]. split; [exact Hw|]. split; [discriminate|].
        split; [intros ? H; discriminate H|]. split.
        -- intros tl [= <-]. exists report. split; [reflexivity|].
           repeat split. right. reflexivity.
        -- unfold healthy. congruence.
    + eexists None, _. split; [reflexivity|]. cbn [committed working].
      split; [reflexivity|]. split; [reflexivity|]. split; [reflexivity|].
      split; [intros ? H; discriminate H|]. split; [intros tl H; discriminate H|].
      unfold healthy. congruence.
Qed.

End Timelines.

(** ** Resolving with evidence *)

Lemma bind_ok {A B} (m : M A) (k : A -> M B) (s s' : Session) (a : A) :
  m s = (Ok a, s') -> bind m k s = k a s'.
Proof. intros H. unfold bind. rewrite H. reflexivity. Qed.

Lemma bind_fails {A B} (m : M A) (k : A -> M B) (s s' : Session) (e : exn) :
  m s = (Raise e, s') -> bind m k s = (Raise e, s').
Proof. intros H. unfold bind. rewrite H. reflexivity. Qed.

Lemma query_report_healthy (s : Session) (report_id : Z) :
  healthy s ->
  query_report report_id s = (Ok (find_report report_id (reports (working s))), s).
Proof.
  unfold healthy. intros Hh. unfold query_report, bind, round_trip, get_working, ret.
  rewrite Hh. reflexivity.
Qed.

Section Resolution.

Import ResolutionService.

Variables (env : Env) (report_id : Z) (admin_user : User) (resolution_image : UploadFile)
          (admin_notes : option string) (provided_lat provided_lon : option R)
          (admin_verification_image : option UploadFile).

Lemma gate_run (s : Session) :
  healthy s ->
  gate_open env (working s) report_id admin_user = true ->
  (if face_verification_required env then
     latest_fv <- try_except
                    (query_latest_face_verification report_id (u_id admin_user))
                    (fun _ => ret None) ;;
     match latest_fv with
     | None =>
         raise (HTTPException 403 (Text
           "Face verification required before resolving this report. Set FACE_VERIFICATION_REQUIRED=false to disable this requirement."))
     | Some _ => ret tt
     end
   else ret tt) s = (Ok tt, s).
Proof.
  unfold healthy, gate_open. intros Hh Hgate.
  destruct (face_verification_required env); cbn [negb orb] in Hgate; [|reflexivity].
  unfold query_latest_face_verification, try_except, bind, round_trip, get_working, ret.
  rewrite Hh.
  destruct (latest_face_verification report_id (u_id admin_user)
              (face_verifications (working s))); [reflexivity | discriminate].
Qed.

Lemma resolve_report_healthy (s : Session) (report : Report) (lat lon : R) (d : pyfloat) :
  healthy s ->
  find_report report_id (reports (working s)) = Some report ->
  status report <> "resolved" ->
  gate_open env (working s) report_id admin_user = true ->
  ExifService.extract_gps_from_image resolution_image = Some (lat, lon) ->
  verify_resolution_location (latitude report) (longitude report) lat lon = (true, d) ->
  let url := upload_image_to_storage env resolution_image (content resolution_image) in
  let coords := mkResolutionCoordinates lat lon (PyFloat.round2_t d) "EXIF from image" in
  let w := resolved_store env (working s) report_id (u_id admin_user) (clock s) url
             coords d admin_notes admin_verification_image in
  exists dict,
    resolve_report env report_id admin_user resolution_image admin_notes
      provided_lat provided_lon admin_verification_image s
    = (Ok dict, mkSession w w (S (S (clock s))) [])
    /\ d_success dict = true
    /\ d_report_id dict = report_id
    /\ d_resolution_coordinates dict = coords
    /\ d_distance_meters dict = PyFloat.round2_t d
    /\ d_resolution_image_url dict = url
    /\ d_admin_id dict = u_id admin_user
    /\ d_status_update dict
       = Changed "Report resolved successfully" report_id (status report) "resolved"
           (u_id admin_user) (clock s) (Some (NoteGeoVerified d)).
Proof.
  intros Hh Hfind Hst Hgate Hgps Hver.
  destruct s as [c w k f]. unfold healthy in Hh. cbn [faults working clock] in *. subst f.
  set (s := mkSession c w k []).
  unfold resolve_report. rewrite Hgps. unfold try_except at 1.
  rewrite (bind_ok _ _ _ _ _ (query_report_healthy s report_id eq_refl)).
  cbn [working s]. rewrite Hfind. cbv beta iota.
  rewrite (proj2 (String.eqb_neq _ _) Hst). cbn [when].
  rewrite (bind_ok (ret tt) _ s s tt eq_refl).
  rewrite (bind_ok _ _ _ _ _ (gate_run s eq_refl Hgate)).
  rewrite Hver. cbv beta iota zeta. cbn [negb when].
  rewrite (bind_ok (ret tt) _ s s tt eq_refl).
  assert (Hinner := resolve_report_with_evidence_healthy s report_id report
                      (u_id admin_user) (Some (NoteGeoVerified d)) eq_refl Hfind).
  rewrite (proj2 (String.eqb_neq _ _) Hst) in Hinner.
  rewrite (bind_ok _ _ _ _ _ Hinner). clear Hinner.
  unfold evidenced, s. cbn [working clock].
  unfold bind at 1. cbv [now]. cbn [clock].
  do 5 (unfold bind at 1; rewrite update_report_run).
  unfold resolved_store, selfie_rows.
  destruct admin_verification_image as [selfie|].
  - destruct (String.eqb (upload_admin_verification_image env selfie (content selfie)
                            report_id (u_id admin_user)) "") eqn:Eurl;
      cbv [bind when negb add_admin_verification get_working put_working ret commit
           refresh round_trip faults working committed clock];
      (eexists; split;
       [apply f_equal2; [reflexivity|]; f_equal; unfold evidence_store;
        cbn [with_reports reports report_status_history admin_verifications
             face_verifications report_upvotes report_comments];
        rewrite !map_on_report
          by first [apply transition_preserves_id | intros r; reflexivity];
        rewrite ?app_nil_r; reflexivity
       |repeat split; reflexivity]).
  - cbv [bind ret commit refresh round_trip faults working committed clock].
    eexists. split;
      [apply f_equal2; [reflexivity|]; f_equal; unfold evidence_store;
       cbn [with_reports reports report_status_history admin_verifications
            face_verifications report_upvotes report_comments];
       rewrite !map_on_report
         by first [apply transition_preserves_id | intros r; reflexivity];
       rewrite ?app_nil_r; reflexivity
      |repeat split; reflexivity].
Qed.

Lemma verify_invalid_origin (lat0 lon0 lat lon : R) :
  ExifService.validate_gps_coordinates lat0 lon0 = false ->
  verify_resolution_location lat0 lon0 lat lon = (false, PyFloat.Inf).
Proof.
  intros Hv. unfold verify_resolution_location.
  pose proof (distance_cases lat0 lon0 lat lon) as H.
  destruct (calculate_distance lat0 lon0 lat lon) as [x|]; [|reflexivity].
  destruct H as [H _]. rewrite Hv in H. discriminate H.
Qed.

(** X15.  A successful [resolve_report], on a database that answers: the
    report is found, is not resolved yet, the identity gate lets the admin
    through, and the evidence photo carries a position within range.  Then
    the stored report is resolved by this admin, carries the URL of the
    uploaded photo and the position of the photo with the rounded distance,
    and its [admin_notes] are the ones of the request (also when the
    request has none); its identity and its soft-deletion flag are as
    before.  The history table gains one row, with the note of the
    geo-verified distance, and the verification table gains a row exactly
    when a selfie was uploaded to a non-empty URL.  Nothing is left
    pending. *)
Theorem resolve_report_records_the_resolution :
  forall (s : Session) (report : Report) (lat lon : R) (d : pyfloat),
    healthy s -> fresh s ->
    find_report report_id (reports (working s)) = Some report ->
    status report <> "resolved" ->
    gate_open env (working s) report_id admin_user = true ->
    ExifService.extract_gps_from_image resolution_image = Some (lat, lon) ->
    verify_resolution_location (latitude report) (longitude report) lat lon = (true, d) ->
    let out := resolve_report env report_id admin_user resolution_image admin_notes
                 provided_lat provided_lon admin_verification_image s in
    let url := upload_image_to_storage env resolution_image (content resolution_image) in
    let coords := mkResolutionCoordinates lat lon (PyFloat.round2_t d) "EXIF from image" in
    (exists dict,
        fst out = Ok dict
        /\ d_resolution_coordinates dict = coords
        /\ d_distance_meters dict = PyFloat.round2_t d
        /\ d_resolution_image_url dict = url)
    /\ (exists r' t,
           stored (snd out) report_id = Some r'
           /\ status r' = "resolved"
           /\ resolved_by r' = Some (u_id admin_user)
           /\ resolved_at r' = Some t /\ (clock s <= t)%nat
           /\ resolution_image_url r' = Some url
           /\ resolution_coordinates r' = Some coords
           /\ Models.admin_notes r' = admin_notes
           /\ identity r' = identity report
           /\ is_deleted r' = is_deleted report)
    /\ report_status_history (committed (snd out))
       = (report_status_history (committed s)
          ++ [mkReportStatusHistory report_id "resolved" (u_id admin_user) (clock s)
                (Some (NoteGeoVerified d))])%list
    /\ admin_verifications (committed (snd out))
       = (admin_verifications (committed s)
          ++ selfie_rows env report_id (u_id admin_user) admin_verification_image)%list
    /\ working (snd out) = committed (snd out).
Proof.
  intros s report lat lon d Hh Hf Hfind Hst Hgate Hgps Hver. cbv zeta.
  destruct (resolve_report_healthy s report lat lon d Hh Hfind Hst Hgate Hgps Hver)
    as [dict [E [_ [_ [Hc [Hd [Hu _]]]]]]].
  rewrite E. cbn [fst snd]. split; [|split; [|split; [|split]]].
  - exists dict. repeat split; assumption.
  - eexists. exists (S (clock s)).
    split.
    + unfold stored, resolved_store, evidence_store. cbn [committed reports].
      rewrite map_on_report by apply transition_preserves_id.
      rewrite find_report_on_report by (intros r; apply transition_preserves_id).
      rewrite Hfind. reflexivity.
    + cbn. repeat split; try reflexivity. lia.
  - unfold resolved_store, evidence_store. cbn [committed report_status_history].
    rewrite Hf. reflexivity.
  - unfold resolved_store, evidence_store. cbn [committed admin_verifications].
    rewrite Hf. reflexivity.
  - reflexivity.
Qed.

End Resolution.

(** ** Which exceptions leave an operation *)

Section Raises.

Context {A B : Type} (E : exn -> Prop).

Lemma raises_ret (a : A) : raises E (ret a).
Proof. intros s e H. discriminate H. Qed.

Lemma raises_raise (e : exn) : E e -> raises E (@raise A e).
Proof. intros He s e' H. injection H as <-. exact He. Qed.

Lemma raises_bind (m : M A) (k : A -> M B) :
  raises E m -> (forall a, raises E (k a)) -> raises E (bind m k).
Proof.
  intros Hm Hk s e. unfold bind. specialize (Hm s).
  destruct (m s) as [[a|e'] s'].
  - apply Hk.
  - cbn [fst] in *. intros H. injection H as <-. apply Hm. reflexivity.
Qed.

Lemma raises_try_except (E' : exn -> Prop) (body : M A) (handler : exn -> M A) :
  raises E' body -> (forall e, E' e -> raises E (handler e)) ->
  raises E (try_except body handler).
Proof.
  intros Hm Hk s e. unfold try_except. specialize (Hm s).
  destruct (body s) as [[a|e'] s'].
  - intros H. discriminate H.
  - apply Hk. apply Hm. reflexivity.
Qed.

End Raises.

Lemma raises_when (E : exn -> Prop) (b : bool) (m : M unit) :
  raises E m -> raises E (when b m).
Proof. intros H. destruct b; [exact H | apply raises_ret]. Qed.

Section RaisesPrimitives.

Variable E : exn -> Prop.
Hypothesis database : E DatabaseError.

Lemma raises_round_trip : raises E round_trip.
Proof.
  intros s e. unfold round_trip. destruct (faults s) as [|[|] fs]; intros H;
    try discriminate H. injection H as <-. exact database.
Qed.

Lemma raises_commit : raises E commit.
Proof.
  unfold commit. apply raises_bind; [apply raises_round_trip|].
  intros _ s e H. discriminate H.
Qed.

Lemma raises_query_report (report_id : Z) : raises E (query_report report_id).
Proof.
  unfold query_report. apply raises_bind; [apply raises_round_trip|].
  intros _ s e H. discriminate H.
Qed.

End RaisesPrimitives.

Lemma raises_quiet {A} (E : exn -> Prop) (m : M A) :
  (forall s, exists a s', m s = (Ok a, s')) -> raises E m.
Proof. intros H s e. destruct (H s) as [a [s' ->]]. intros H'. discriminate H'. Qed.

Ltac quiet := apply raises_quiet; intros ?; eexists; eexists; reflexivity.

Ltac raises_step :=
  lazymatch goal with
  | |- raises _ (bind _ _) => apply raises_bind; [|intros ?]
  | |- raises _ (when _ _) => apply raises_when
  | |- raises _ (ret _) => apply raises_ret
  | |- raises _ (raise _) => apply raises_raise
  | |- raises _ round_trip => apply raises_round_trip
  | |- raises _ refresh => apply raises_round_trip
  | |- raises _ commit => apply raises_commit
  | |- raises _ (query_report _) => apply raises_query_report
  | |- raises _ rollback => quiet
  | |- raises _ now => quiet
  | |- raises _ get_working => quiet
  | |- raises _ (put_working _) => quiet
  | |- raises _ (update_report _ _) => quiet
  | |- raises _ (add_status_history _) => quiet
  | |- raises _ (add_admin_verification _) => quiet
  | |- raises _ (add_report _) => quiet
  | |- raises _ (StatusService._update_status_history_json _ _ _ _) => quiet
  | |- raises _ (match ?x with _ => _ end) => destruct x
  end.

Section StatusServiceErrors.

Lemma service_error_value (msg : string) : service_error (ValueError msg).
Proof. left. exists msg. reflexivity. Qed.

Lemma service_error_database : service_error DatabaseError.
Proof. right. reflexivity. Qed.

Lemma validate_lifecycle_raises (current new_status : string) :
  raises service_error (validate_lifecycle current new_status).
Proof.
  intros s e. rewrite validate_lifecycle_run.
  destruct (lifecycle_ok current new_status); intros H; [discriminate H|].
  injection H as <-. apply service_error_value.
Qed.

Lemma update_report_status_body_raises (report_id : Z) (new_status changed_by : string)
    (notes : option Note) :
  raises service_error (update_report_status report_id new_status changed_by notes).
Proof.
  unfold update_report_status.
  apply (raises_try_except _ service_error).
  - repeat first [ apply validate_lifecycle_raises
                 | apply service_error_value
                 | apply service_error_database
                 | apply (raises_try_except _ (fun _ => True));
                   [quiet | intros ? _]
                 | raises_step ].
  - intros e He. repeat raises_step. exact He.
Qed.

Lemma resolve_report_with_evidence_raises (report_id : Z) (changed_by : string)
    (notes : option Note) :
  raises service_error (resolve_report_with_evidence report_id changed_by notes).
Proof.
  unfold resolve_report_with_evidence.
  apply (raises_try_except _ service_error).
  - repeat first [ apply service_error_value
                 | apply service_error_database
                 | raises_step ].
  - intros e He. repeat raises_step. exact He.
Qed.

End StatusServiceErrors.

(** ** When the database fails *)

Section Failures.

Variables (report_id : Z) (new_status changed_by : string) (notes : option Note).

Lemma accepted_conditions (s : Session) (report : Report) (d : StatusDict) :
  find_report report_id (reports (working s)) = Some report ->
  status report <> new_status ->
  fst (update_report_status report_id new_status changed_by notes (answering s)) = Ok d ->
  PyStr.mem new_status valid_statuses = true
  /\ String.eqb (status report) new_status = false
  /\ String.eqb (status report) "resolved" && negb (String.eqb new_status "resolved")
     = false
  /\ lifecycle_ok (status report) new_status = true
  /\ String.eqb new_status "resolved" && negb (String.eqb (status report) "resolved")
     = false.
Proof.
  intros Hfind Hne.
  rewrite (update_report_status_healthy (answering s) report_id report)
    by (try reflexivity; exact Hfind).
  destruct (PyStr.mem new_status valid_statuses); cbn [negb]; [|discriminate].
  rewrite (proj2 (String.eqb_neq _ _) Hne).
  destruct (String.eqb (status report) "resolved"
            && negb (String.eqb new_status "resolved")); [discriminate|].
  destruct (lifecycle_ok (status report) new_status); cbn [negb]; [|discriminate].
  destruct (String.eqb new_status "resolved"
            && negb (String.eqb (status report) "resolved")); [discriminate|].
  intros _. repeat split; reflexivity.
Qed.

Lemma update_report_status_run (c w : Store) (k : timestamp) (fl : list bool)
    (report : Report) :
  find_report report_id (reports w) = Some report ->
  update_report_status report_id new_status changed_by notes
    (mkSession c w k (false :: fl))
  = if negb (PyStr.mem new_status valid_statuses) then
      (Raise (ValueError ("Invalid status: " ++ new_status ++ ". Valid statuses: "
                          ++ valid_statuses_str)), mkSession c c k (false :: fl))
    else if String.eqb (status report) new_status then
      (Ok (Unchanged ("Status is already " ++ new_status) report_id new_status),
       mkSession c w k fl)
    else if String.eqb (status report) "resolved"
            && negb (String.eqb new_status "resolved") then
      (Raise (ValueError locked_message), mkSession c c k fl)
    else if negb (lifecycle_ok (status report) new_status) then
      (Raise (ValueError (skip_message (status report) new_status)), mkSession c c k fl)
    else if String.eqb new_status "resolved"
            && negb (String.eqb (status report) "resolved") then
      (Raise (ValueError requires_evidence_message), mkSession c c k fl)
    else
      let w' := accepted_store w report_id new_status changed_by k notes in
      let changed :=
        Changed ("Status updated from " ++ status report ++ " to " ++ new_status)
          report_id (status report) new_status changed_by k notes in
      match fl with
      | [] => (Ok changed, mkSession w' w' (S k) [])
      | true :: fs => (Raise DatabaseError, mkSession c c k fs)
      | [false] => (Ok changed, mkSession w' w' (S k) [])
      | false :: true :: fs => (Raise DatabaseError, mkSession w' w' (S k) fs)
      | [false; false] => (Ok changed, mkSession w' w' (S k) [])
      | false :: false :: true :: fs => (Raise DatabaseError, mkSession w' w' (S k) fs)
      | false :: false :: false :: fs => (Ok changed, mkSession w' w' (S k) fs)
      end.
Proof.
  intros Hfind.
  unfold update_report_status, try_except, bind, when.
  destruct (PyStr.mem new_status valid_statuses); cbn [negb]; [|reflexivity].
  cbv [ret query_report bind round_trip get_working faults working].
  rewrite Hfind.
  destruct (String.eqb (status report) new_status); [reflexivity|].
  destruct (String.eqb (status report) "resolved"
            && negb (String.eqb new_status "resolved")); [reflexivity|].
  cbv [ret]. rewrite validate_lifecycle_run.
  destruct (lifecycle_ok (status report) new_status); cbn [negb]; [|reflexivity].
  destruct (String.eqb new_status "resolved"
            && negb (String.eqb (status report) "resolved")); [reflexivity|].
  rewrite update_report_run. cbv [now clock]. rewrite stamp_run.
  cbv [add_status_history _update_status_history_json bind get_working put_working now
       ret working committed clock faults].
  rewrite update_report_run.
  assert (E : with_reports
                (map (on_report report_id
                        (fun r => set_status_history
                                    (Some (history_list r
                                           ++ [mkStatusHistoryJson new_status changed_by
                                                 k notes])%list) r))
                   (reports
                      (mkStore
                         (reports
                            (with_reports
                               (map (on_report report_id (stamp new_status k))
                                  (reports
                                     (with_reports
                                        (map (on_report report_id
                                                (set_status new_status))
                                           (reports w)) w)))
                               (with_reports
                                  (map (on_report report_id (set_status new_status))
                                     (reports w)) w)))
                         (report_status_history
                            (with_reports
                               (map (on_report report_id (stamp new_status k))
                                  (reports
                                     (with_reports
                                        (map (on_report report_id
                                                (set_status new_status))
                                           (reports w)) w)))
                               (with_reports
                                  (map (on_report report_id (set_status new_status))
                                     (reports w)) w))
                          ++ [mkReportStatusHistory report_id new_status changed_by k
                                notes])
                         (admin_verifications w) (face_verifications w)
                         (report_upvotes w) (report_comments w))))
                (mkStore
                   (reports
                      (with_reports
                         (map (on_report report_id (stamp new_status k))
                            (reports
                               (with_reports
                                  (map (on_report report_id (set_status new_status))
                                     (reports w)) w)))
                         (with_reports
                            (map (on_report report_id (set_status new_status))
                               (reports w)) w)))
                   (report_status_history w
                    ++ [mkReportStatusHistory report_id new_status changed_by k notes])
                   (admin_verifications w) (face_verifications w)
                   (report_upvotes w) (report_comments w))
              = accepted_store w report_id new_status changed_by k notes).
  { unfold accepted_store.
    cbn [with_reports reports report_status_history admin_verifications
         face_verifications report_upvotes report_comments].
    rewrite !map_on_report by (try apply stamp_preserves_id; intros r; reflexivity).
    reflexivity. }
  cbn [with_reports reports report_status_history admin_verifications
       face_verifications report_upvotes report_comments] in E |- *.
  cbv zeta.
  destruct fl as [|[|] [|[|] [|[|] fs]]];
    cbv [commit refresh round_trip bind rollback raise faults working committed clock];
    rewrite ?E; reflexivity.
Qed.

Lemma update_report_status_missing (c w : Store) (k : timestamp) (fl : list bool) :
  find_report report_id (reports w) = None ->
  PyStr.mem new_status valid_statuses = true ->
  update_report_status report_id new_status changed_by notes
    (mkSession c w k (false :: fl))
  = (Raise (ValueError ("Report " ++ PyStr.of_Z report_id ++ " not found")),
     mkSession c c k fl).
Proof.
  intros Hfind Hmem. unfold update_report_status, try_except, bind, when.
  rewrite Hmem. cbn [negb].
  cbv [ret query_report bind round_trip get_working faults working].
  rewrite Hfind. reflexivity.
Qed.

Lemma update_report_status_unanswered (c w : Store) (k : timestamp) (fl : list bool) :
  PyStr.mem new_status valid_statuses = true ->
  update_report_status report_id new_status changed_by notes
    (mkSession c w k (true :: fl))
  = (Raise DatabaseError, mkSession c c k fl).
Proof.
  intros Hmem. unfold update_report_status, try_except, bind, when.
  rewrite Hmem. reflexivity.
Qed.

Lemma update_report_status_invalid (s : Session) :
  PyStr.mem new_status valid_statuses = false ->
  update_report_status report_id new_status changed_by notes s
  = (Raise (ValueError ("Invalid status: " ++ new_status ++ ". Valid statuses: "
                        ++ valid_statuses_str)), rolled_back s).
Proof.
  intros Hmem. unfold update_report_status, try_except, bind, when.
  rewrite Hmem. reflexivity.
Qed.

(** X18.  [update_report_status] is all or nothing, whatever the database
    does.  After the call the database either is as before, or holds the
    whole accepted change of a report that was found with another status:
    the new status, the stamp of the stage, the JSON entry and the history
    row together.  An exception that leaves the call is a [ValueError] or
    the error of the database, and the session has nothing pending then. *)
Theorem update_report_status_is_all_or_nothing :
  forall s : Session,
    let out := update_report_status report_id new_status changed_by notes s in
    (forall e, fst out = Raise e ->
               service_error e /\ working (snd out) = committed (snd out))
    /\ (committed (snd out) = committed s
        \/ exists report,
             find_report report_id (reports (working s)) = Some report
             /\ status report <> new_status
             /\ committed (snd out)
                = accepted_store (working s) report_id new_status changed_by
                    (clock s) notes).
Proof.
  intros s. cbv zeta. split.
  - intros e H. split.
    + exact (update_report_status_body_raises report_id new_status changed_by notes s e H).
    + revert H. unfold update_report_status, try_except.
      match goal with
      | |- context [match ?b s with _ => _ end] => destruct (b s) as [[a|e'] s1]
      end; [intros H; discriminate H | intros _; reflexivity].
  - destruct (PyStr.mem new_status valid_statuses) eqn:Hmem.
    2:{ rewrite (update_report_status_invalid s Hmem). left. reflexivity. }
    destruct s as [c w k [|[|] fl]]; cbn [committed working clock].
    + destruct (find_report report_id (reports w)) as [report|] eqn:Hfind.
      * rewrite (update_report_status_healthy _ report_id report) by
          (try reflexivity; exact Hfind).
        rewrite Hmem. cbn [negb].
        destruct (String.eqb (status report) new_status) eqn:Hsame;
          [left; reflexivity|].
        destruct (String.eqb (status report) "resolved"
                  && negb (String.eqb new_status "resolved")); [left; reflexivity|].
        destruct (negb (lifecycle_ok (status report) new_status));
          [left; reflexivity|].
        destruct (String.eqb new_status "resolved"
                  && negb (String.eqb (status report) "resolved"));
          [left; reflexivity|].
        right. exists report. split; [reflexivity|].
        split; [apply String.eqb_neq; exact Hsame | reflexivity].
      * left. unfold update_report_status, try_except, bind, when.
        rewrite Hmem. cbn [negb].
        cbv [ret query_report bind round_trip get_working faults working].
        rewrite Hfind. reflexivity.
    + rewrite (update_report_status_unanswered c w k fl Hmem). left. reflexivity.
    + destruct (find_report report_id (reports w)) as [report|] eqn:Hfind.
      * rewrite (update_report_status_run c w k fl report Hfind).
        rewrite Hmem. cbn [negb].
        destruct (String.eqb (status report) new_status) eqn:Hsame;
          [left; reflexivity|].
        destruct (String.eqb (status report) "resolved"
                  && negb (String.eqb new_status "resolved")); [left; reflexivity|].
        destruct (negb (lifecycle_ok (status report) new_status));
          [left; reflexivity|].
        destruct (String.eqb new_status "resolved"
                  && negb (String.eqb (status report) "resolved"));
          [left; reflexivity|].
        cbv zeta. apply String.eqb_neq in Hsame.
        destruct fl as [|[|] [|[|] [|[|] fs]]]; cbn [snd committed];
          first [ left; reflexivity
                | right; exists report; split; [reflexivity|];
                  split; [exact Hsame | reflexivity] ].
      * rewrite (update_report_status_missing c w k fl Hfind Hmem). left. reflexivity.
Qed.

(** X19.  An exception of [update_report_status] does not tell whether the
    status changed.  Take a request that a database that answers would
    accept.  When the commit fails, the database is as before.  When the
    commit is answered and the refresh after it fails, the caller gets the
    same error of the database, but the report is stored with the new
    status and the history row is in the table. *)
Theorem update_report_status_can_fail_after_commit :
  forall (s : Session) (report : Report) (d : StatusDict) (fs : list bool),
    find_report report_id (reports (working s)) = Some report ->
    status report <> new_status ->
    fst (update_report_status report_id new_status changed_by notes (answering s))
    = Ok d ->
    let out := update_report_status report_id new_status changed_by notes s in
    (faults s = false :: true :: fs ->
     fst out = Raise DatabaseError /\ committed (snd out) = committed s)
    /\ (faults s = false :: false :: true :: fs ->
        fst out = Raise DatabaseError
        /\ stored (snd out) report_id
           = Some (transition new_status changed_by (clock s) notes report)
        /\ option_map status (stored (snd out) report_id) = Some new_status
        /\ report_status_history (committed (snd out))
           = (report_status_history (working s)
              ++ [mkReportStatusHistory report_id new_status changed_by (clock s)
                    notes])%list).
Proof.
  intros s report d fs Hfind Hne Hok.
  destruct (accepted_conditions s report d Hfind Hne Hok)
    as [Hmem [Hsame [Hlock [Hlife Hres]]]].
  destruct s as [c w k f]. cbn [faults working committed clock] in *. cbv zeta.
  split; intros ->; rewrite (update_report_status_run c w k _ report Hfind);
    rewrite Hmem, Hsame, Hlock, Hlife, Hres; cbn [negb fst snd committed].
  - split; reflexivity.
  - split; [reflexivity|].
    assert (E : stored (mkSession
                          (accepted_store w report_id new_status changed_by k notes)
                          (accepted_store w report_id new_status changed_by k notes)
                          (S k) fs) report_id
                = Some (transition new_status changed_by k notes report)).
    { unfold stored, accepted_store. cbn [committed reports].
      rewrite find_report_on_report by apply transition_preserves_id.
      rewrite Hfind. reflexivity. }
    rewrite E. cbn [option_map]. rewrite status_transition.
    repeat split; reflexivity.
Qed.

End Failures.

(** The sample pothole is acknowledged on a database that answers the query
    and the commit and then fails: the call raises, the pothole is stored as
    acknowledged. *)
Lemma update_report_status_can_fail_after_commit_witness :
  fst (update_report_status 1 "acknowledged" "admin-1" None
         (mkSession Sample.store Sample.store 5%nat [false; false; true]))
  = Raise DatabaseError
  /\ option_map status
       (stored (snd (update_report_status 1 "acknowledged" "admin-1" None
                       (mkSession Sample.store Sample.store 5%nat [false; false; true])))
          1)
     = Some "acknowledged".
Proof.
  destruct (update_report_status_can_fail_after_commit 1 "acknowledged" "admin-1" None
              (mkSession Sample.store Sample.store 5%nat [false; false; true])
              Sample.pothole _ [] eq_refl ltac:(discriminate) eq_refl) as [_ H].
  destruct (H eq_refl) as [H1 [_ [H2 _]]]. split; [exact H1 | exact H2].
Defined.

(** ** The errors of a resolution *)

Lemma query_report_cases (s : Session) (report_id : Z) :
  (exists s', query_report report_id s
              = (Ok (find_report report_id (reports (working s))), s')
              /\ committed s' = committed s /\ working s' = working s
              /\ clock s' = clock s)
  \/ (exists s', query_report report_id s = (Raise DatabaseError, s')
                 /\ committed s' = committed s /\ working s' = working s
                 /\ clock s' = clock s).
Proof.
  unfold query_report, bind, round_trip, get_working, ret.
  destruct (faults s) as [|[|] fs].
  - left. eexists. repeat split.
  - right. eexists. repeat split.
  - left. eexists. repeat split.
Qed.

Section ResolutionErrors.

Import ResolutionService.

Variables (env : Env) (report_id : Z) (admin_user : User) (resolution_image : UploadFile)
          (admin_notes : option string) (provided_lat provided_lon : option R)
          (admin_verification_image : option UploadFile).

Lemma gate_cases (s : Session) :
  exists s',
    committed s' = committed s /\ working s' = working s
    /\ ((if face_verification_required env then
           latest_fv <- try_except
                          (query_latest_face_verification report_id (u_id admin_user))
                          (fun _ => ret None) ;;
           match latest_fv with
           | None =>
               raise (HTTPException 403 (Text
                 "Face verification required before resolving this report. Set FACE_VERIFICATION_REQUIRED=false to disable this requirement."))
           | Some _ => ret tt
           end
         else ret tt) s = (Ok tt, s')
        \/ (if face_verification_required env then
              latest_fv <- try_except
                             (query_latest_face_verification report_id (u_id admin_user))
                             (fun _ => ret None) ;;
              match latest_fv with
              | None =>
                  raise (HTTPException 403 (Text
                    "Face verification required before resolving this report. Set FACE_VERIFICATION_REQUIRED=false to disable this requirement."))
              | Some _ => ret tt
              end
            else ret tt) s
           = (Raise (HTTPException 403 (Text
                "Face verification required before resolving this report. Set FACE_VERIFICATION_REQUIRED=false to disable this requirement.")),
              s')).
Proof.
  destruct (face_verification_required env).
  2:{ exists s. split; [reflexivity|]. split; [reflexivity|]. left. reflexivity. }
  unfold query_latest_face_verification, try_except, bind, round_trip, get_working, ret,
    raise.
  destruct (faults s) as [|[|] fs]; cbn [working].
  - exists s. split; [reflexivity|]. split; [reflexivity|].
    destruct (latest_face_verification report_id (u_id admin_user)
                (face_verifications (working s))); [left | right]; reflexivity.
  - eexists. split; [|split; [|right; reflexivity]]; reflexivity.
  - eexists (mkSession (committed s) (working s) (clock s) fs).
    split; [reflexivity|]. split; [reflexivity|].
    destruct (latest_face_verification report_id (u_id admin_user)
                (face_verifications (working s))); [left | right]; reflexivity.
Qed.

(** X17.  The exceptions of [resolve_report], whatever the database does:
    an [HTTPException] with status 400, 403, 404 or 500, nothing else.  With
    a status other than 500 nothing was written: the database and the
    working copy of the session are as before the call. *)
Theorem resolve_report_errors (s : Session) (e : exn) :
  fst (resolve_report env report_id admin_user resolution_image admin_notes
         provided_lat provided_lon admin_verification_image s) = Raise e ->
  exists code what,
    e = HTTPException code what
    /\ In code [400; 403; 404; 500]%Z
    /\ (code <> 500%Z ->
        committed (snd (resolve_report env report_id admin_user resolution_image
                          admin_notes provided_lat provided_lon
                          admin_verification_image s)) = committed s
        /\ working (snd (resolve_report env report_id admin_user resolution_image
                           admin_notes provided_lat provided_lon
                           admin_verification_image s)) = working s).
Proof.
  unfold resolve_report, try_except.
  destruct (query_report_cases s report_id)
    as [[s1 [E1 [Hc1 [Hw1 _]]]] | [s1 [E1 _]]].
  2:{ rewrite (bind_fails _ _ _ _ _ E1). cbv [rollback raise bind fst snd].
      intros [= <-]. exists 500%Z. eexists. split; [reflexivity|].
      split; [cbn; tauto | intros H; contradiction]. }
  rewrite (bind_ok _ _ _ _ _ E1).
  destruct (find_report report_id (reports (working s))) as [report|].
  2:{ cbv [raise fst snd]. intros [= <-]. exists 404%Z. eexists.
      split; [reflexivity|]. split; [cbn; tauto | intros _; split; assumption]. }
  destruct (String.eqb (status report) "resolved"); cbn [when].
  { rewrite (bind_fails (raise _) _ s1 s1 _ eq_refl). cbv [raise fst snd].
    intros [= <-]. exists 400%Z. eexists.
    split; [reflexivity|]. split; [cbn; tauto | intros _; split; assumption]. }
  rewrite (bind_ok (ret tt) _ s1 s1 tt eq_refl).
  destruct (gate_cases s1) as [s2 [Hc2 [Hw2 [E2|E2]]]].
  2:{ rewrite (bind_fails _ _ _ _ _ E2). cbv [raise fst snd].
      intros [= <-]. exists 403%Z. eexists.
      split; [reflexivity|]. split; [cbn; tauto | intros _; split; congruence]. }
  rewrite (bind_ok _ _ _ _ _ E2).
  destruct (ExifService.extract_gps_from_image resolution_image) as [[lat lon]|].
  2:{ cbv [raise fst snd]. intros [= <-]. exists 400%Z. eexists.
      split; [reflexivity|]. split; [cbn; tauto | intros _; split; congruence]. }
  destruct (verify_resolution_location (latitude report) (longitude report) lat lon)
    as [[|] d]; cbn [negb when].
  2:{ rewrite (bind_fails (raise _) _ s2 s2 _ eq_refl). cbv [raise fst snd].
      intros [= <-]. exists 400%Z. eexists.
      split; [reflexivity|]. split; [cbn; tauto | intros _; split; congruence]. }
  rewrite (bind_ok (ret tt) _ s2 s2 tt eq_refl).
  match goal with
  | |- context [bind (resolve_report_with_evidence ?a ?b ?c) ?k s2] =>
      assert (Hs : raises service_error (bind (resolve_report_with_evidence a b c) k));
      [ apply raises_bind; [apply resolve_report_with_evidence_raises|];
        intros ?;
        repeat first [apply service_error_database | raises_step]
      | specialize (Hs s2);
        destruct (bind (resolve_report_with_evidence a b c) k s2) as [[x|e'] s3] ]
  end.
  { cbn [fst]. intros H. discriminate H. }
  destruct (Hs e' eq_refl) as [[msg ->] | ->];
    cbv [rollback raise bind fst snd]; intros [= <-];
    exists 500%Z; eexists; (split; [reflexivity|]);
    (split; [cbn; tauto | intros H; contradiction]).
Qed.

Lemma extract_gps_sound (image : UploadFile) (lat lon : R) :
  ExifService.extract_gps_from_image image = Some (lat, lon) ->
  ExifService.validate_gps_coordinates lat lon = true.
Proof.
  unfold ExifService.extract_gps_from_image, ExifService.validate_gps_coordinates.
  destruct (String.eqb (content image) ""); [discriminate|].
  destruct (exif_gps image) as [[la lo]|]; [|discriminate].
  destruct (PyFloat.Rleb (-90) la && PyFloat.Rleb la 90) eqn:Ela; cbn [negb];
    [|discriminate].
  destruct (PyFloat.Rleb (-180) lo && PyFloat.Rleb lo 180) eqn:Elo; cbn [negb];
    [|discriminate].
  destruct (PyFloat.Reqb la 0 && PyFloat.Reqb lo 0); [discriminate|].
  intros [= <- <-]. rewrite Ela, Elo. reflexivity.
Qed.

(** X16.  Evidence that fails the location check: [resolve_report] raises
    the 400 error that carries the distance and the 30 meter bound, and
    leaves the session as it was.  The distance it reports is more than 30
    meters, or infinite; it is infinite exactly when the stored coordinates
    of the report are out of range, so that no photo can resolve such a
    report. *)
Theorem resolve_report_refuses_distant_evidence :
  forall (s : Session) (report : Report) (lat lon : R) (d : pyfloat),
    healthy s ->
    find_report report_id (reports (working s)) = Some report ->
    status report <> "resolved" ->
    gate_open env (working s) report_id admin_user = true ->
    ExifService.extract_gps_from_image resolution_image = Some (lat, lon) ->
    verify_resolution_location (latitude report) (longitude report) lat lon
    = (false, d) ->
    resolve_report env report_id admin_user resolution_image admin_notes
      provided_lat provided_lon admin_verification_image s
    = (Raise (HTTPException 400 (EvidenceTooFar d max_distance_meters)), s)
    /\ (forall x, d = PyFloat.Finite x -> (30 < x)%R)
    /\ (d = PyFloat.Inf
        <-> ExifService.validate_gps_coordinates (latitude report) (longitude report)
            = false).
Proof.
  intros s report lat lon d Hh Hfind Hst Hgate Hgps Hver. split; [|split].
  - unfold resolve_report. rewrite Hgps. unfold try_except at 1.
    rewrite (bind_ok _ _ _ _ _ (query_report_healthy s report_id Hh)).
    rewrite Hfind. cbv beta iota.
    rewrite (proj2 (String.eqb_neq _ _) Hst). cbn [when].
    rewrite (bind_ok (ret tt) _ s s tt eq_refl).
    rewrite (bind_ok _ _ _ _ _ (gate_run env report_id admin_user s Hh Hgate)).
    rewrite Hver. cbv beta iota zeta. cbn [negb when].
    rewrite (bind_fails (raise _) _ s s _ eq_refl). reflexivity.
  - intros x ->. unfold verify_resolution_location in Hver.
    injection Hver as Hle Hd. rewrite Hd in Hle. unfold max_distance_meters in Hle.
    destruct (Rle_or_lt x 30%R) as [H|H]; [|exact H].
    apply (proj2 (leb_Finite x 30%R)) in H. congruence.
  - unfold verify_resolution_location in Hver. injection Hver as _ Hd.
    pose proof (distance_cases (latitude report) (longitude report) lat lon) as Hcases.
    rewrite Hd in Hcases. rewrite (extract_gps_sound _ _ _ Hgps), andb_true_r in Hcases.
    destruct d as [x|].
    + destruct Hcases as [Hv _]. split; [discriminate | congruence].
    + split; [intros _; exact Hcases | reflexivity].
Qed.

End ResolutionErrors.

(** The sample pothole is resolved on site, with a selfie: one verification
    row is stored. *)
Lemma resolve_report_records_the_resolution_witness :
  healthy Sample.session /\ fresh Sample.session
  /\ admin_verifications
       (committed
          (snd (ResolutionService.resolve_report Sample.env 1 Sample.admin
                  Sample.evidence_on_site (Some "Filled and sealed") None None
                  (Some Sample.photo_without_gps) Sample.session)))
     = [mkAdminVerification 1 "admin-1" "/uploads/admin_verifications/1_admin-1.jpg"].
Proof.
  assert (Hgps : ExifService.extract_gps_from_image Sample.evidence_on_site
                 = Some (12%R, 77%R)).
  { apply extract_gps_valid; try reflexivity; try discriminate; try lra; left; lra. }
  assert (Hver : ResolutionService.verify_resolution_location
                   (latitude Sample.pothole) (longitude Sample.pothole) 12 77
                 = (true, PyFloat.Finite 0)).
  { apply (verify_same_point 12 77); lra. }
  split; [reflexivity|]. split; [reflexivity|].
  destruct (resolve_report_records_the_resolution Sample.env 1 Sample.admin
              Sample.evidence_on_site (Some "Filled and sealed") None None
              (Some Sample.photo_without_gps) Sample.session Sample.pothole 12 77
              (PyFloat.Finite 0) eq_refl eq_refl eq_refl ltac:(discriminate) eq_refl
              Hgps Hver) as [_ [_ [_ [Hv _]]]].
  exact Hv.
Defined.

(** A report stored with latitude 120 is not resolved by a photo taken
    anywhere: the distance is infinite. *)
Lemma resolve_report_refuses_distant_evidence_witness :
  healthy Cases.misplaced_session
  /\ ResolutionService.resolve_report Sample.env 1 Sample.admin Sample.evidence_on_site
       None None None None Cases.misplaced_session
     = (Raise (HTTPException 400
                 (EvidenceTooFar PyFloat.Inf ResolutionService.max_distance_meters)),
        Cases.misplaced_session).
Proof.
  assert (Hgps : ExifService.extract_gps_from_image Sample.evidence_on_site
                 = Some (12%R, 77%R)).
  { apply extract_gps_valid; try reflexivity; try discriminate; try lra; left; lra. }
  assert (Hver : ResolutionService.verify_resolution_location
                   (latitude Cases.misplaced) (longitude Cases.misplaced) 12 77
                 = (false, PyFloat.Inf)).
  { apply (verify_invalid_origin 120 77 12 77).
    unfold ExifService.validate_gps_coordinates.
    rewrite (Rleb_false 120 90) by lra. rewrite andb_false_r. reflexivity. }
  split; [reflexivity|].
  destruct (resolve_report_refuses_distant_evidence Sample.env 1 Sample.admin
              Sample.evidence_on_site None None None None Cases.misplaced_session
              Cases.misplaced 12 77 PyFloat.Inf eq_refl eq_refl ltac:(discriminate)
              eq_refl Hgps Hver) as [H _].
  exact H.
Defined.

(** A photo without GPS is refused with status 400, and nothing is written. *)
Lemma resolve_report_errors_witness :
  exists code what,
    HTTPException 400 (Text missing_exif_message) = HTTPException code what
    /\ In code [400; 403; 404; 500]%Z
    /\ (code <> 500%Z ->
        committed (snd (ResolutionService.resolve_report Sample.env 1 Sample.admin
                          Sample.photo_without_gps None None None None Sample.session))
        = committed Sample.session
        /\ working (snd (ResolutionService.resolve_report Sample.env 1 Sample.admin
                           Sample.photo_without_gps None None None None Sample.session))
           = working Sample.session).
Proof.
  apply (resolve_report_errors Sample.env 1 Sample.admin Sample.photo_without_gps
           None None None None Sample.session).
  rewrite (resolve_report_missing_evidence Sample.env 1 Sample.admin
             Sample.photo_without_gps None None None None Sample.session Sample.pothole
             eq_refl eq_refl eq_refl ltac:(discriminate) eq_refl).
  reflexivity.
Defined.

(** ** Reading a resolution *)

Section ResolutionDetailsOf.

Import ResolutionService.

Variable users : list User.

Lemma latest_verification_total (report_id : Z) (s : Session) :
  exists v s',
    try_except (query_latest_admin_verification report_id) (fun _ => ret None) s
    = (Ok v, s')
    /\ committed s' = committed s /\ working s' = working s
    /\ (healthy s ->
        s' = s
        /\ v = find (fun v => Z.eqb (v_report_id v) report_id)
                 (rev (admin_verifications (working s)))).
Proof.
  unfold query_latest_admin_verification, try_except, bind, round_trip, get_working, ret,
    healthy.
  destruct (faults s) as [|[|] fs].
  - eexists. exists s. split; [reflexivity|]. split; [reflexivity|].
    split; [reflexivity|]. intros _. split; reflexivity.
  - eexists. eexists. split; [reflexivity|]. cbn [committed working].
    split; [reflexivity|]. split; [reflexivity|]. intros H. discriminate H.
  - eexists. eexists. split; [reflexivity|]. cbn [committed working].
    split; [reflexivity|]. split; [reflexivity|]. intros H. discriminate H.
Qed.

Lemma admin_name_total (by_ : option string) (s : Session) :
  exists n s',
    try_except
      (match by_ with
       | Some admin_id =>
           if String.eqb admin_id "" then ret None
           else
             admin_user <- query_user users admin_id ;;
             ret (option_map u_full_name admin_user)
       | None => ret None
       end)
      (fun _ => ret None) s
    = (Ok n, s')
    /\ committed s' = committed s /\ working s' = working s
    /\ (healthy s ->
        s' = s
        /\ n = match by_ with
               | Some admin_id =>
                   if String.eqb admin_id "" then None
                   else option_map u_full_name
                          (find (fun u => String.eqb (u_id u) admin_id) users)
               | None => None
               end).
Proof.
  unfold healthy. destruct by_ as [admin_id|].
  2:{ exists None, s. split; [reflexivity|]. split; [reflexivity|].
      split; [reflexivity|]. intros _. split; reflexivity. }
  destruct (String.eqb admin_id "").
  { exists None, s. split; [reflexivity|]. split; [reflexivity|].
    split; [reflexivity|]. intros _. split; reflexivity. }
  unfold query_user, try_except, bind, round_trip, ret.
  destruct (faults s) as [|[|] fs].
  - eexists. exists s. split; [reflexivity|]. split; [reflexivity|].
    split; [reflexivity|]. intros _. split; reflexivity.
  - eexists. eexists. split; [reflexivity|]. cbn [committed working].
    split; [reflexivity|]. split; [reflexivity|]. intros H. discriminate H.
  - eexists. eexists. split; [reflexivity|]. cbn [committed working].
    split; [reflexivity|]. split; [reflexivity|]. intros H. discriminate H.
Qed.

(** X20.  [get_resolution_details] never raises and changes no data.  It
    answers with details only for a report that is stored as resolved, and
    then with the resolution columns of that report and its original
    coordinates; for a report that is missing or has another status, and
    when the first query fails, the answer is empty. *)
Theorem resolution_details_only_when_resolved :
  forall (s : Session) (report_id : Z),
    exists answer s',
      get_resolution_details users report_id s = (Ok answer, s')
      /\ committed s' = committed s /\ working s' = working s
      /\ (forall details, answer = Some details ->
            exists report,
              find_report report_id (reports (working s)) = Some report
              /\ status report = "resolved"
              /\ rd_report_id details = report_id
              /\ rd_resolved_by details = resolved_by report
              /\ rd_admin_id details = resolved_by report
              /\ rd_resolved_at details = resolved_at report
              /\ rd_resolution_image_url details = resolution_image_url report
              /\ rd_resolution_coordinates details = resolution_coordinates report
              /\ rd_admin_notes details = Models.admin_notes report
              /\ rd_original_coordinates details = (latitude report, longitude report))
      /\ (healthy s ->
          forall report,
            find_report report_id (reports (working s)) = Some report ->
            status report = "resolved" -> answer <> None).
Proof.
  intros s report_id. unfold get_resolution_details. unfold try_except at 1.
  destruct (query_report_cases s report_id)
    as [[s1 [E1 [Hc1 [Hw1 _]]]] | [s1 [E1 [Hc1 [Hw1 _]]]]].
  2:{ rewrite (bind_fails _ _ _ _ _ E1). exists None, s1.
      split; [reflexivity|]. split; [exact Hc1|]. split; [exact Hw1|].
      split; [intros details H; discriminate H|].
      intros Hh. exfalso. revert E1. unfold query_report, bind, round_trip.
      rewrite Hh. discriminate. }
  rewrite (bind_ok _ _ _ _ _ E1).
  destruct (find_report report_id (reports (working s))) as [report|].
  2:{ exists None, s1. split; [reflexivity|]. split; [exact Hc1|]. split; [exact Hw1|].
      split; [intros details H; discriminate H | intros _ report H; discriminate H]. }
  destruct (String.eqb (status report) "resolved") eqn:Est; cbn [negb].
  2:{ exists None, s1. split; [reflexivity|]. split; [exact Hc1|]. split; [exact Hw1|].
      split; [intros details H; discriminate H|].
      intros _ r [= <-] Hst. rewrite Hst in Est. discriminate Est. }
  apply String.eqb_eq in Est.
  destruct (latest_verification_total report_id s1) as [v [s2 [E2 [Hc2 [Hw2 _]]]]].
  rewrite (bind_ok _ _ _ _ _ E2).
  destruct (admin_name_total (resolved_by report) s2) as [n [s3 [E3 [Hc3 [Hw3 _]]]]].
  rewrite (bind_ok _ _ _ _ _ E3).
  eexists. exists s3. split; [reflexivity|].
  split; [congruence|]. split; [congruence|]. split.
  - intros details [= <-]. exists report. repeat split. exact Est.
  - intros _ r _ _ H. discriminate H.
Qed.

Lemma get_resolution_details_healthy (s : Session) (report_id : Z) (report : Report) :
  healthy s ->
  find_report report_id (reports (working s)) = Some report ->
  status report = "resolved" ->
  get_resolution_details users report_id s
  = (Ok (Some (mkResolutionDetails report_id (resolved_by report) (resolved_at report)
                 (resolution_image_url report) (resolution_coordinates report)
                 (Models.admin_notes report)
                 (option_map v_verification_image_url
                    (find (fun v => Z.eqb (v_report_id v) report_id)
                       (rev (admin_verifications (working s)))))
                 (resolved_by report)
                 (match resolved_by report with
                  | Some admin_id =>
                      if String.eqb admin_id "" then None
                      else option_map u_full_name
                             (find (fun u => String.eqb (u_id u) admin_id) users)
                  | None => None
                  end)
                 (latitude report, longitude report))), s).
Proof.
  intros Hh Hfind Hst. unfold get_resolution_details. unfold try_except at 1.
  rewrite (bind_ok _ _ _ _ _ (query_report_healthy s report_id Hh)).
  rewrite Hfind. cbv beta iota. rewrite Hst, String.eqb_refl. cbn [negb].
  destruct (latest_verification_total report_id s) as [v [s2 [E2 [_ [_ H2]]]]].
  destruct (H2 Hh) as [-> ->]. rewrite (bind_ok _ _ _ _ _ E2).
  destruct (admin_name_total (resolved_by report) s) as [n [s3 [E3 [_ [_ H3]]]]].
  destruct (H3 Hh) as [-> ->]. rewrite (bind_ok _ _ _ _ _ E3).
  reflexivity.
Qed.

End ResolutionDetailsOf.

(** X21.  Reading back a resolution.  After a successful [resolve_report]
    by an admin who is in the users table, [get_resolution_details] returns
    what the resolution wrote: the admin and the name of the admin, the URL
    of the evidence photo, the position of the photo with the rounded
    distance, the notes of the request, the coordinates of the report, and
    the URL of the selfie when one was uploaded. *)
Theorem resolution_details_after_resolve :
  forall (env : Env) (users : list User) (report_id : Z) (admin_user : User)
         (resolution_image : UploadFile) (admin_notes : option string)
         (provided_lat provided_lon : option R)
         (admin_verification_image : option UploadFile)
         (s : Session) (report : Report) (lat lon : R) (d : pyfloat),
    healthy s ->
    find_report report_id (reports (working s)) = Some report ->
    status report <> "resolved" ->
    gate_open env (working s) report_id admin_user = true ->
    ExifService.extract_gps_from_image resolution_image = Some (lat, lon) ->
    ResolutionService.verify_resolution_location (latitude report) (longitude report)
      lat lon = (true, d) ->
    u_id admin_user <> "" ->
    find (fun u => String.eqb (u_id u) (u_id admin_user)) users = Some admin_user ->
    let out := ResolutionService.resolve_report env report_id admin_user resolution_image
                 admin_notes provided_lat provided_lon admin_verification_image s in
    exists details,
      fst (ResolutionService.get_resolution_details users report_id (snd out))
      = Ok (Some details)
      /\ ResolutionService.rd_resolved_by details = Some (u_id admin_user)
      /\ ResolutionService.rd_admin_name details = Some (u_full_name admin_user)
      /\ ResolutionService.rd_resolution_image_url details
         = Some (upload_image_to_storage env resolution_image (content resolution_image))
      /\ ResolutionService.rd_resolution_coordinates details
         = Some (mkResolutionCoordinates lat lon (PyFloat.round2_t d) "EXIF from image")
      /\ ResolutionService.rd_admin_notes details = admin_notes
      /\ ResolutionService.rd_original_coordinates details
         = (latitude report, longitude report)
      /\ (forall selfie,
            admin_verification_image = Some selfie ->
            upload_admin_verification_image env selfie (content selfie) report_id
              (u_id admin_user) <> "" ->
            ResolutionService.rd_admin_verification_image_url details
            = Some (upload_admin_verification_image env selfie (content selfie) report_id
                      (u_id admin_user))).
Proof.
  intros env users report_id admin_user resolution_image admin_notes provided_lat
    provided_lon admin_verification_image s report lat lon d
    Hh Hfind Hst Hgate Hgps Hver Hid Huser. cbv zeta.
  destruct (resolve_report_healthy env report_id admin_user resolution_image admin_notes
              provided_lat provided_lon admin_verification_image s report lat lon d
              Hh Hfind Hst Hgate Hgps Hver) as [dict [E _]].
  rewrite E. cbn [snd].
  match goal with
  | |- context [ResolutionService.get_resolution_details users report_id ?st] =>
      set (s' := st)
  end.
  assert (Hfind' : exists r',
             find_report report_id (reports (working s')) = Some r'
             /\ r' = resolution (u_id admin_user) (S (clock s))
                       (upload_image_to_storage env resolution_image
                          (content resolution_image))
                       (mkResolutionCoordinates lat lon (PyFloat.round2_t d)
                          "EXIF from image")
                       admin_notes
                       (transition "resolved" (u_id admin_user) (clock s)
                          (Some (NoteGeoVerified d)) report)).
  { eexists. split; [|reflexivity].
    unfold s', resolved_store, evidence_store. cbn [working reports].
    rewrite map_on_report by apply transition_preserves_id.
    rewrite find_report_on_report by (intros r; apply transition_preserves_id).
    rewrite Hfind. reflexivity. }
  destruct Hfind' as [r' [Hfind' Hr']].
  rewrite (get_resolution_details_healthy users s' report_id r' eq_refl Hfind')
    by (rewrite Hr'; reflexivity).
  eexists. split; [reflexivity|]. subst r'.
  cbn [ResolutionService.rd_resolved_by ResolutionService.rd_admin_name
       ResolutionService.rd_resolution_image_url
       ResolutionService.rd_resolution_coordinates ResolutionService.rd_admin_notes
       ResolutionService.rd_original_coordinates
       ResolutionService.rd_admin_verification_image_url].
  split; [reflexivity|]. split.
  { change (resolved_by _) with (Some (u_id admin_user)). cbv beta iota.
    rewrite (proj2 (String.eqb_neq _ _) Hid), Huser. reflexivity. }
  split; [reflexivity|]. split; [reflexivity|]. split; [reflexivity|].
  split; [reflexivity|].
  intros selfie -> Hurl.
  unfold s', resolved_store, evidence_store, selfie_rows.
  cbn [working admin_verifications].
  rewrite (proj2 (String.eqb_neq _ _) Hurl).
  rewrite rev_app_distr. cbn [rev app find v_report_id].
  rewrite Z.eqb_refl. reflexivity.
Qed.

(** The sample pothole, resolved on site by the sample admin. *)
Lemma resolution_details_after_resolve_witness :
  healthy Sample.session
  /\ exists details,
       fst (ResolutionService.get_resolution_details Cases.users 1
              (snd (ResolutionService.resolve_report Sample.env 1 Sample.admin
                      Sample.evidence_on_site (Some "Filled and sealed") None None
                      (Some Sample.photo_without_gps) Sample.session)))
       = Ok (Some details)
       /\ ResolutionService.rd_admin_name details = Some "Ravi"
       /\ ResolutionService.rd_admin_verification_image_url details
          = Some "/uploads/admin_verifications/1_admin-1.jpg".
Proof.
  assert (Hgps : ExifService.extract_gps_from_image Sample.evidence_on_site
                 = Some (12%R, 77%R)).
  { apply extract_gps_valid; try reflexivity; try discriminate; try lra; left; lra. }
  assert (Hver : ResolutionService.verify_resolution_location
                   (latitude Sample.pothole) (longitude Sample.pothole) 12 77
                 = (true, PyFloat.Finite 0)).
  { apply (verify_same_point 12 77); lra. }
  split; [reflexivity|].
  destruct (resolution_details_after_resolve Sample.env Cases.users 1 Sample.admin
              Sample.evidence_on_site (Some "Filled and sealed") None None
              (Some Sample.photo_without_gps) Sample.session Sample.pothole 12 77
              (PyFloat.Finite 0) eq_refl eq_refl ltac:(discriminate) eq_refl
              Hgps Hver ltac:(discriminate) eq_refl)
    as [details [H1 [_ [H2 [_ [_ [_ [_ H3]]]]]]]].
  exists details. split; [exact H1|]. split; [exact H2|].
  apply (H3 Sample.photo_without_gps eq_refl). discriminate.
Defined.

(** ** Deletion by the citizen *)

Section CitizenDeletion.

Import Main.

Lemma find_absent (p : Report -> bool) (l : list Report) :
  (forall r, In r l -> p r = false) -> find p l = None.
Proof.
  induction l as [|r l IH]; [reflexivity|].
  intros H. cbn [find]. rewrite (H r (or_introl eq_refl)).
  apply IH. intros r' Hin. apply H. right. exact Hin.
Qed.

Lemma find_foreign_report (report_id : Z) (user_id : string) (report : Report)
    (l : list Report) :
  NoDup (map id l) ->
  find_report report_id l = Some report ->
  reporter_id report <> user_id ->
  find (fun r => Z.eqb (id r) report_id && String.eqb (reporter_id r) user_id) l = None.
Proof.
  unfold find_report. induction l as [|r l IH]; [discriminate|].
  cbn [map find]. intros Hnd Hfind Hother. inversion Hnd as [|x xs Hnotin Hnd']; subst.
  destruct (Z.eqb (id r) report_id) eqn:E; cbn [andb].
  - injection Hfind as ->. rewrite (proj2 (String.eqb_neq _ _) Hother).
    apply find_absent. intros r' Hin.
    destruct (Z.eqb (id r') report_id) eqn:E'; [|reflexivity].
    exfalso. apply Hnotin. apply Z.eqb_eq in E, E'. rewrite E, <- E'.
    apply in_map. exact Hin.
  - apply IH; assumption.
Qed.

Lemma delete_citizen_report_run (s : Session) (report_id : Z) (report : Report)
    (reason : string) (current_user : User) :
  healthy s ->
  find_report report_id (reports (working s)) = Some report ->
  reporter_id report = u_id current_user ->
  is_deleted report = false ->
  delete_citizen_report report_id reason current_user s
  = (Ok "Report deleted successfully",
     let w' := with_reports
                 (map (on_report report_id (deletion reason (clock s)))
                    (reports (working s))) (working s) in
     mkSession w' w' (S (clock s)) []).
Proof.
  unfold healthy. destruct s as [c w k f]. cbn [faults working clock].
  intros -> Hfind Hown Hdel.
  unfold delete_citizen_report, try_except, bind, when, query_own_report.
  cbv [round_trip bind get_working ret faults working].
  rewrite (find_own_report _ _ _ _ Hfind Hown), Hdel.
  cbv [now clock]. rewrite !update_report_run.
  cbv [commit bind round_trip faults working committed clock ret].
  cbv zeta. f_equal. f_equal; cbn [with_reports reports report_status_history
    admin_verifications face_verifications report_upvotes report_comments];
    rewrite !map_on_report by (intros x; reflexivity); reflexivity.
Qed.

Lemma delete_citizen_report_deleted (s : Session) (report_id : Z) (report : Report)
    (reason : string) (current_user : User) :
  healthy s ->
  find_report report_id (reports (working s)) = Some report ->
  reporter_id report = u_id current_user ->
  is_deleted report = true ->
  delete_citizen_report report_id reason current_user s
  = (Raise (HTTPException 400 (Text "Report has already been deleted")), s).
Proof.
  unfold healthy. intros Hh Hfind Hown Hdel.
  unfold delete_citizen_report, try_except, bind, when, query_own_report.
  cbv [round_trip bind get_working ret]. rewrite Hh.
  rewrite (find_own_report _ _ _ _ Hfind Hown), Hdel. reflexivity.
Qed.

Lemma in_on_report (report_id : Z) (f : Report -> Report) (l : list Report) (r : Report) :
  preserves_id f ->
  In r (map (on_report report_id f) l) -> id r = report_id ->
  exists r0, In r0 l /\ r = f r0.
Proof.
  intros Hf Hin Hid. apply in_map_iff in Hin. destruct Hin as [r0 [<- Hin]].
  exists r0. split; [exact Hin|]. unfold on_report in *.
  destruct (Z.eqb (id r0) report_id) eqn:E; [reflexivity|].
  apply Z.eqb_neq in E. contradiction.
Qed.

(** X22.  Deletion by the citizen, on a database that answers.  A report
    of another user is answered like a missing one (404) and a deleted one
    with 400, both without a change.  Otherwise the report is kept and
    marked: deleted flag, reason, time and the status "deleted", its other
    columns as before; every report with another key is untouched; no row
    is written to the status history; from then on the report is no
    candidate of the duplicate check, and a second deletion is refused. *)
Theorem citizen_deletion_is_soft_and_final :
  forall (s : Session) (report_id : Z) (report : Report) (reason again : string)
         (current_user : User),
    healthy s ->
    find_report report_id (reports (working s)) = Some report ->
    let out := delete_citizen_report report_id reason current_user s in
    (reporter_id report <> u_id current_user ->
     NoDup (map id (reports (working s))) ->
     out = (Raise (HTTPException 404 (Text "Report not found or access denied")), s))
    /\ (reporter_id report = u_id current_user -> is_deleted report = true ->
        out = (Raise (HTTPException 400 (Text "Report has already been deleted")), s))
    /\ (reporter_id report = u_id current_user -> is_deleted report = false ->
        fst out = Ok "Report deleted successfully"
        /\ (exists r',
               stored (snd out) report_id = Some r'
               /\ is_deleted r' = true /\ status r' = "deleted"
               /\ deletion_reason r' = Some reason
               /\ deleted_at r' = Some (clock s)
               /\ identity r' = identity report
               /\ status_history r' = status_history report
               /\ resolved_at r' = resolved_at report)
        /\ (forall other, other <> report_id ->
              stored (snd out) other = find_report other (reports (working s)))
        /\ report_status_history (committed (snd out))
           = report_status_history (working s)
        /\ (forall r, In r (candidates_of (committed (snd out))) -> id r <> report_id)
        /\ delete_citizen_report report_id again current_user (snd out)
           = (Raise (HTTPException 400 (Text "Report has already been deleted")),
              snd out)).
Proof.
  intros s report_id report reason again current_user Hh Hfind. cbv zeta.
  split; [|split].
  - intros Hother Hnd. unfold healthy in Hh.
    unfold delete_citizen_report, try_except, bind, query_own_report.
    cbv [round_trip bind get_working ret]. rewrite Hh.
    rewrite (find_foreign_report _ _ _ _ Hnd Hfind Hother). reflexivity.
  - intros Hown Hdel.
    apply (delete_citizen_report_deleted s report_id report); assumption.
  - intros Hown Hdel.
    rewrite (delete_citizen_report_run s report_id report reason current_user
               Hh Hfind Hown Hdel).
    cbv zeta. cbn [fst snd].
    assert (Hstored : find_report report_id
                        (map (on_report report_id (deletion reason (clock s)))
                           (reports (working s)))
                      = Some (deletion reason (clock s) report)).
    { rewrite find_report_on_report by (intros x; reflexivity).
      rewrite Hfind. reflexivity. }
    split; [reflexivity|]. split; [|split; [|split; [|split]]].
    + exists (deletion reason (clock s) report). split; [exact Hstored|].
      repeat split; reflexivity.
    + intros other Hne. unfold stored. cbn [committed with_reports reports].
      apply find_report_other; [intros x; reflexivity | exact Hne].
    + reflexivity.
    + intros r Hin Hid. unfold candidates_of in Hin. apply filter_In in Hin.
      destruct Hin as [Hin Hactive]. cbn [committed with_reports reports] in Hin.
      destruct (in_on_report report_id (deletion reason (clock s)) _ r
                  (fun x => eq_refl) Hin Hid) as [r0 [_ ->]].
      cbn in Hactive. discriminate Hactive.
    + apply (delete_citizen_report_deleted _ report_id
               (deletion reason (clock s) report));
        [reflexivity | exact Hstored | exact Hown | reflexivity].
Qed.

End CitizenDeletion.

(** The citizen deletes the sample pothole, and tries again. *)
Lemma citizen_deletion_is_soft_and_final_witness :
  healthy Sample.session
  /\ fst (Main.delete_citizen_report 1 "fixed by neighbours" Sample.citizen Sample.session)
     = Ok "Report deleted successfully"
  /\ fst (Main.delete_citizen_report 1 "again" Sample.citizen
            (snd (Main.delete_citizen_report 1 "fixed by neighbours" Sample.citizen
                    Sample.session)))
     = Raise (HTTPException 400 (Text "Report has already been deleted")).
Proof.
  split; [reflexivity|].
  destruct (citizen_deletion_is_soft_and_final Sample.session 1 Sample.pothole
              "fixed by neighbours" "again" Sample.citizen eq_refl eq_refl)
    as [_ [_ H]].
  destruct (H eq_refl eq_refl) as [H1 [_ [_ [_ [_ H2]]]]].
  split; [exact H1|]. rewrite H2. reflexivity.
Defined.

(** ** The status endpoint *)

Section StatusEndpoint.

Variables (report_id : Z) (new_status : string) (notes : option Note)
          (current_admin : User).


End StatusEndpoint.

(** ** Creating a report *)

Section Creation.

Import Main.


Lemma valid_needs_coordinates (title category : string) (la lo : R) (mcq_data : Json) :
  ExifService.validate_gps_coordinates la lo = false ->
  ReportService.valid title category la lo mcq_data = false.
Proof.
  unfold ExifService.validate_gps_coordinates, ReportService.valid. intros Hv.
  destruct (PyFloat.Rleb (-90) la), (PyFloat.Rleb la 90), (PyFloat.Rleb (-180) lo),
    (PyFloat.Rleb lo 180); cbn [andb] in Hv; try discriminate Hv;
    repeat (rewrite ?andb_false_r; cbn [andb]); reflexivity.
Qed.

Lemma valid_needs_category (title category : string) (la lo : R) (mcq_data : Json) :
  (String.length category = 0 \/ 100 < String.length category)%nat ->
  ReportService.valid title category la lo mcq_data = false.
Proof.
  unfold ReportService.valid. intros Hlen.
  destruct (Nat.leb 1 (String.length category)) eqn:E1;
    [|repeat (rewrite ?andb_false_r; cbn [andb]); reflexivity].
  destruct (Nat.leb (String.length category) 100) eqn:E2;
    [|repeat (rewrite ?andb_false_r; cbn [andb]); reflexivity].
  apply Nat.leb_le in E1, E2. lia.
Qed.

Variables (env : Env) (title : string) (description : option string) (category : string)
          (image : UploadFile) (latitude longitude : option R)
          (mcq_responses : option string) (current_user : User).


Lemma calculate_distance_invalid_target (lat1 lon1 la lo : R) :
  ExifService.validate_gps_coordinates la lo = false ->
  ResolutionService.calculate_distance lat1 lon1 la lo = PyFloat.Inf.
Proof.
  intros Hv. pose proof (distance_cases lat1 lon1 la lo) as H.
  destruct (ResolutionService.calculate_distance lat1 lon1 la lo) as [x|];
    [|reflexivity].
  destruct H as [H _]. rewrite Hv, andb_false_r in H. discriminate H.
Qed.

Lemma scan_invalid_target (candidates : list Report) (cat : string) (la lo : R) :
  ExifService.validate_gps_coordinates la lo = false ->
  scan candidates cat la lo None PyFloat.Inf = (None, PyFloat.Inf).
Proof.
  intros Hv. induction candidates as [|r l IH]; [reflexivity|].
  cbn [scan]. destruct (negb (String.eqb (normalize (Models.category r)) cat));
    [exact IH|].
  rewrite (calculate_distance_invalid_target _ _ _ _ Hv). cbn [PyFloat.leb andb].
  exact IH.
Qed.

(** X25.  What [create_issue_report] checks of its input.  An upload
    without an image content type, an upload of more than 10 MB, and a
    request with neither an EXIF position nor both form coordinates are
    refused with a 400 before the database is touched.  A position in the
    EXIF block wins over the coordinates of the form.  The coordinates of
    the form are checked by the validation of the report data only: on a
    database that answers, a latitude or longitude out of range matches no
    existing report and is answered with the internal error 500, nothing
    being written.  An empty category, or one of more than 100 characters,
    is never created, whatever the database does. *)
Theorem create_issue_report_checks_its_input :
  forall s : Session,
    ((content_type image = None
      \/ exists ct, content_type image = Some ct
                    /\ PyStr.startswith ct "image/" = false) ->
     create_issue_report env title description category image latitude longitude
       mcq_responses current_user s
     = (Raise (HTTPException 400 (Text "File must be an image (JPEG/PNG)")), s))
    /\ ((exists ct, content_type image = Some ct
                    /\ PyStr.startswith ct "image/" = true) ->
        Z.ltb (10 * 1024 * 1024) (Z.of_nat (String.length (content image))) = true ->
        create_issue_report env title description category image latitude longitude
          mcq_responses current_user s
        = (Raise (HTTPException 400 (Text "File size must be less than 10MB")), s))
    /\ (acceptable_upload image ->
        final_coordinates image latitude longitude = None ->
        create_issue_report env title description category image latitude longitude
          mcq_responses current_user s
        = (Raise (HTTPException 400 (Text
             "GPS coordinates are required. Either provide them in the image EXIF data or as form parameters.")),
           s))
    /\ (forall p other_latitude other_longitude,
          ExifService.extract_gps_from_image image = Some p ->
          create_issue_report env title description category image latitude longitude
            mcq_responses current_user s
          = create_issue_report env title description category image other_latitude
              other_longitude mcq_responses current_user s)
    /\ (forall la lo,
          healthy s -> acceptable_upload image ->
          ExifService.extract_gps_from_image image = None ->
          latitude = Some la -> longitude = Some lo ->
          ExifService.validate_gps_coordinates la lo = false ->
          create_issue_report env title description category image latitude longitude
            mcq_responses current_user s
          = (Raise (HTTPException 500
                      (Text "Internal server error while creating report")), s))
    /\ (forall la lo,
          acceptable_upload image ->
          final_coordinates image latitude longitude = Some (la, lo) ->
          (String.length category = 0 \/ 100 < String.length category)%nat ->
          forall data,
            fst (create_issue_report env title description category image latitude
                   longitude mcq_responses current_user s)
            <> Ok (Created "Report created successfully." data)).
Proof.
  intros s. split; [|split; [|split; [|split; [|split]]]].
  - intros H. unfold create_issue_report, try_except, bind, when.
    destruct H as [-> | [ct [-> ->]]]; reflexivity.
  - intros [ct [Hct Hpre]] Hsize. unfold create_issue_report, try_except, bind, when.
    rewrite Hct, Hpre, Hsize. reflexivity.
  - intros [[ct [Hct Hpre]] Hsize] Hfinal.
    unfold create_issue_report, try_except, bind, when.
    rewrite Hct, Hpre, Hsize. cbn [negb]. cbv [ret].
    unfold final_coordinates in Hfinal.
    destruct (ExifService.extract_gps_from_image image) as [[a b]|]; [discriminate|].
    destruct latitude as [a|]; [|reflexivity].
    destruct longitude as [b|]; [discriminate | reflexivity].
  - intros [a b] other_latitude other_longitude Hgps.
    unfold create_issue_report. rewrite Hgps. reflexivity.
  - intros la lo Hh Hok Hgps Hla Hlo Hv.
    assert (Hfinal : final_coordinates image latitude longitude = Some (la, lo)).
    { unfold final_coordinates. rewrite Hgps, Hla, Hlo. reflexivity. }
    assert (Hdup : duplicate_check category la lo s = (Ok None, s)).
    { rewrite (duplicate_check_healthy category la lo s Hh).
      rewrite (scan_invalid_target _ _ _ _ Hv). reflexivity. }
    apply (create_issue_report_refused env title description category image latitude
             longitude mcq_responses current_user s s la lo Hok Hfinal Hdup).
    unfold well_formed. cbv zeta.
    rewrite (valid_needs_coordinates _ _ _ _ _ Hv). discriminate.
  - intros la lo Hok Hfinal Hlen data.
    destruct (duplicate_check_total category la lo s) as [dup [s' [Hdup _]]].
    destruct dup as [existing|].
    + rewrite (create_issue_report_duplicate env title description category image
                 latitude longitude mcq_responses current_user s s' la lo existing
                 Hok Hfinal Hdup).
      cbn [fst]. discriminate.
    + rewrite (create_issue_report_refused env title description category image
                 latitude longitude mcq_responses current_user s s' la lo Hok Hfinal
                 Hdup).
      * cbn [fst]. discriminate.
      * unfold well_formed. cbv zeta.
        rewrite (valid_needs_category _ _ _ _ _ Hlen). discriminate.
Qed.

End Creation.


(** ** What every run keeps *)

Section Inv.

Context {A B : Type} (P : Session -> Prop).

Lemma inv_ret (a : A) : inv P (ret a).
Proof. intros s H. exact H. Qed.

Lemma inv_raise (e : exn) : inv P (@raise A e).
Proof. intros s H. exact H. Qed.

Lemma inv_bind (m : M A) (k : A -> M B) :
  inv P m -> (forall a, inv P (k a)) -> inv P (bind m k).
Proof.
  intros Hm Hk s H. unfold bind. specialize (Hm s H).
  destruct (m s) as [[a|e] s']; cbn [snd] in *; [apply Hk; exact Hm | exact Hm].
Qed.

Lemma inv_try_except (body : M A) (handler : exn -> M A) :
  inv P body -> (forall e, inv P (handler e)) -> inv P (try_except body handler).
Proof.
  intros Hm Hk s H. unfold try_except. specialize (Hm s H).
  destruct (body s) as [[a|e] s']; cbn [snd] in *; [exact Hm | apply Hk; exact Hm].
Qed.

End Inv.

Lemma inv_when (P : Session -> Prop) (b : bool) (m : M unit) : inv P m -> inv P (when b m).
Proof. intros H. destruct b; [exact H | apply inv_ret]. Qed.

Lemma inv_validate_lifecycle (P : Session -> Prop) (current new_status : string) :
  inv P (validate_lifecycle current new_status).
Proof. intros s H. rewrite validate_lifecycle_run. exact H. Qed.

Section InvBoth.

Variable I : Store -> Prop.

Lemma inv_round_trip : inv (both I) round_trip.
Proof. intros s H. unfold round_trip. destruct (faults s) as [|[|] fs]; exact H. Qed.

Lemma inv_commit : inv (both I) commit.
Proof.
  intros s [Hc Hw]. unfold commit, bind. pose proof (inv_round_trip s (conj Hc Hw)) as H.
  destruct (round_trip s) as [[[]|e] s']; cbn [snd] in *; [|exact H].
  destruct H as [_ H]. split; exact H.
Qed.

Lemma inv_rollback : inv (both I) rollback.
Proof. intros s [Hc Hw]. split; exact Hc. Qed.

Lemma inv_now : inv (both I) now.
Proof. intros s H. exact H. Qed.

Lemma inv_get_working : inv (both I) get_working.
Proof. intros s H. exact H. Qed.

Lemma inv_update_report (report_id : Z) (f : Report -> Report) :
  (forall w, I w -> I (apply_update report_id f w)) ->
  inv (both I) (update_report report_id f).
Proof. intros Hf s [Hc Hw]. split; [exact Hc | apply Hf; exact Hw]. Qed.

Lemma inv_add_status_history (h : ReportStatusHistory) :
  (forall w, I w -> I (with_history (report_status_history w ++ [h]) w)) ->
  inv (both I) (add_status_history h).
Proof. intros Hf s [Hc Hw]. split; [exact Hc | apply Hf; exact Hw]. Qed.

Lemma inv_add_admin_verification (v : AdminVerification) :
  (forall w, I w -> I (with_verifications (admin_verifications w ++ [v]) w)) ->
  inv (both I) (add_admin_verification v).
Proof. intros Hf s [Hc Hw]. split; [exact Hc | apply Hf; exact Hw]. Qed.

Lemma inv_add_report (r : Report) :
  (forall w, I w -> I (with_reports (reports w ++ [r]) w)) ->
  inv (both I) (add_report r).
Proof. intros Hf s [Hc Hw]. split; [exact Hc | apply Hf; exact Hw]. Qed.

End InvBoth.

Ltac inv_step :=
  lazymatch goal with
  | |- inv _ (bind (raise _) _) => apply inv_raise
  | |- inv _ (bind _ _) => apply inv_bind; [|intros ?]
  | |- inv _ (try_except _ _) => apply inv_try_except; [|intros ?]
  | |- inv _ (when _ _) => apply inv_when
  | |- inv _ (ret _) => apply inv_ret
  | |- inv _ (raise _) => apply inv_raise
  | |- inv _ round_trip => apply inv_round_trip
  | |- inv _ refresh => apply inv_round_trip
  | |- inv _ commit => apply inv_commit
  | |- inv _ rollback => apply inv_rollback
  | |- inv _ now => apply inv_now
  | |- inv _ get_working => apply inv_get_working
  | |- inv _ (validate_lifecycle _ _) => apply inv_validate_lifecycle
  | |- inv _ (query_report _) => unfold query_report
  | |- inv _ (ResolutionService.query_latest_face_verification _ _) =>
      unfold ResolutionService.query_latest_face_verification
  | |- inv _ (Main.query_own_report _ _) => unfold Main.query_own_report
  | |- inv _ Main.query_candidates => unfold Main.query_candidates
  | |- inv _ (Main.count_rows _ _) => unfold Main.count_rows
  | |- inv _ (Main.duplicate_check _ _ _) => unfold Main.duplicate_check
  | |- inv _ (_update_status_history_json _ _ _ _) => unfold _update_status_history_json
  | |- inv _ (update_report _ _) => apply inv_update_report
  | |- inv _ (add_status_history _) => apply inv_add_status_history
  | |- inv _ (add_admin_verification _) => apply inv_add_admin_verification
  | |- inv _ (add_report _) => apply inv_add_report
  | |- inv _ (ReportService.new_ReportCreate _ _ _ _ _ _) =>
      unfold ReportService.new_ReportCreate
  | |- inv _ (ReportService.create_report _ _ _) => unfold ReportService.create_report
  | |- inv _ (let _ := _ in _) => cbv zeta
  | |- inv _ (match ?x with _ => _ end) => destruct x
  end.

Section Vocabulary.

Lemma in_vocabulary_update (report_id : Z) (f : Report -> Report) (w : Store) :
  (forall r, In (status r) vocabulary -> In (status (f r)) vocabulary) ->
  in_vocabulary w -> in_vocabulary (apply_update report_id f w).
Proof.
  intros Hf Hw r Hin. unfold apply_update in Hin. cbn [with_reports reports] in Hin.
  apply in_map_iff in Hin. destruct Hin as [r0 [<- Hin0]]. specialize (Hw r0 Hin0).
  unfold on_report. destruct (Z.eqb (id r0) report_id); [apply Hf; exact Hw | exact Hw].
Qed.

Lemma in_vocabulary_add (r : Report) (w : Store) :
  In (status r) vocabulary ->
  in_vocabulary w -> in_vocabulary (with_reports (reports w ++ [r]) w).
Proof.
  intros Hr Hw r' Hin. cbn [with_reports reports] in Hin. apply in_app_or in Hin.
  destruct Hin as [Hin|[<-|[]]]; [apply Hw; exact Hin | exact Hr].
Qed.

Ltac vocabulary_step :=
  first
    [ inv_step
    | intros w Hw; exact Hw
    | intros w Hw; apply in_vocabulary_add; [cbn; tauto | exact Hw]
    | intros w Hw; apply in_vocabulary_update; [|exact Hw]; intros ? ?;
      first [assumption | cbn; tauto] ].

Lemma update_report_status_vocabulary (report_id : Z) (new_status changed_by : string)
    (notes : option Note) :
  inv (both in_vocabulary) (update_report_status report_id new_status changed_by notes).
Proof.
  unfold update_report_status.
  destruct (PyStr.mem new_status valid_statuses) eqn:Hmem.
  2:{ cbn [negb when]. repeat inv_step. }
  assert (Hnew : In new_status vocabulary).
  { apply mem_In in Hmem. unfold valid_statuses in Hmem. unfold vocabulary.
    cbn in *. tauto. }
  repeat vocabulary_step.
Qed.

Lemma resolve_report_with_evidence_vocabulary (report_id : Z) (changed_by : string)
    (notes : option Note) :
  inv (both in_vocabulary) (resolve_report_with_evidence report_id changed_by notes).
Proof. unfold resolve_report_with_evidence. repeat vocabulary_step. Qed.

Lemma resolve_report_vocabulary (env : Env) (report_id : Z) (admin_user : User)
    (resolution_image : UploadFile) (admin_notes : option string)
    (provided_lat provided_lon : option R)
    (admin_verification_image : option UploadFile) :
  inv (both in_vocabulary)
    (ResolutionService.resolve_report env report_id admin_user resolution_image
       admin_notes provided_lat provided_lon admin_verification_image).
Proof.
  unfold ResolutionService.resolve_report.
  repeat first [apply resolve_report_with_evidence_vocabulary | vocabulary_step].
Qed.

Lemma create_issue_report_vocabulary (env : Env) (title : string)
    (description : option string) (category : string) (image : UploadFile)
    (latitude longitude : option R) (mcq_responses : option string)
    (current_user : User) :
  inv (both in_vocabulary)
    (Main.create_issue_report env title description category image latitude longitude
       mcq_responses current_user).
Proof. unfold Main.create_issue_report. repeat vocabulary_step. Qed.

Lemma delete_citizen_report_vocabulary (report_id : Z) (reason : string)
    (current_user : User) :
  inv (both in_vocabulary) (Main.delete_citizen_report report_id reason current_user).
Proof. unfold Main.delete_citizen_report. repeat vocabulary_step. Qed.

(** X29.  The status column only ever holds one of six values: "pending",
    "reported", "acknowledged", "in_progress", "resolved", "deleted".  If it
    does so before a status update, a resolution, a creation or a deletion
    by the citizen, it does so afterwards, in the database and in the
    working copy of the session, whatever the arguments are and whatever
    the database does on the way. *)
Theorem status_vocabulary_is_kept :
  forall (env : Env) (report_id : Z) (new_status changed_by reason title category : string)
         (notes : option Note) (admin_notes : option string)
         (description : option string) (user : User)
         (image : UploadFile) (selfie : option UploadFile)
         (latitude longitude : option R) (mcq_responses : option string),
    inv (both in_vocabulary)
      (update_report_status report_id new_status changed_by notes)
    /\ inv (both in_vocabulary)
         (resolve_report_with_evidence report_id changed_by notes)
    /\ inv (both in_vocabulary)
         (ResolutionService.resolve_report env report_id user image admin_notes
            latitude longitude selfie)
    /\ inv (both in_vocabulary)
         (Main.create_issue_report env title description category image latitude
            longitude mcq_responses user)
    /\ inv (both in_vocabulary) (Main.delete_citizen_report report_id reason user)
    /\ inv (both in_vocabulary)
         (Main.update_report_status report_id new_status notes user).
Proof.
  intros. split; [apply update_report_status_vocabulary|].
  split; [apply resolve_report_with_evidence_vocabulary|].
  split; [apply resolve_report_vocabulary|].
  split; [apply create_issue_report_vocabulary|].
  split; [apply delete_citizen_report_vocabulary|].
  unfold Main.update_report_status.
  repeat first [apply update_report_status_vocabulary | inv_step].
Qed.

End Vocabulary.

Section AppendOnly.

Variable w0 : Store.

Lemma grows_refl (w : Store) : grows w w.
Proof. repeat split; exists []; rewrite app_nil_r; reflexivity. Qed.

Lemma grows_update (report_id : Z) (f : Report -> Report) (w : Store) :
  (forall r, identity (f r) = identity r) ->
  grows w0 w -> grows w0 (apply_update report_id f w).
Proof.
  intros Hf [[more Hr] [Hh Hv]]. split; [|split; assumption].
  exists more. unfold apply_update. cbn [with_reports reports].
  rewrite map_map, <- Hr. apply map_ext. intros r. unfold on_report.
  destruct (Z.eqb (id r) report_id); [apply Hf | reflexivity].
Qed.

Lemma grows_history (h : ReportStatusHistory) (w : Store) :
  grows w0 w -> grows w0 (with_history (report_status_history w ++ [h]) w).
Proof.
  intros [Hr [[more Hh] Hv]]. split; [exact Hr|]. split; [|exact Hv].
  exists (more ++ [h])%list. unfold with_history. cbn [report_status_history].
  rewrite Hh, app_assoc. reflexivity.
Qed.

Lemma grows_verifications (v : AdminVerification) (w : Store) :
  grows w0 w -> grows w0 (with_verifications (admin_verifications w ++ [v]) w).
Proof.
  intros [Hr [Hh [more Hv]]]. split; [exact Hr|]. split; [exact Hh|].
  exists (more ++ [v])%list. unfold with_verifications. cbn [admin_verifications].
  rewrite Hv, app_assoc. reflexivity.
Qed.

Lemma grows_add (r : Report) (w : Store) :
  grows w0 w -> grows w0 (with_reports (reports w ++ [r]) w).
Proof.
  intros [[more Hr] [Hh Hv]]. split; [|split; assumption].
  exists (more ++ [identity r])%list. cbn [with_reports reports].
  rewrite map_app, Hr, app_assoc. reflexivity.
Qed.

Ltac grows_step :=
  first
    [ inv_step
    | intros w Hw; apply grows_update; [intros ?; reflexivity | exact Hw]
    | intros w Hw; apply grows_history; exact Hw
    | intros w Hw; apply grows_verifications; exact Hw
    | intros w Hw; apply grows_add; exact Hw ].

Lemma update_report_status_grows (report_id : Z) (new_status changed_by : string)
    (notes : option Note) :
  inv (both (grows w0)) (update_report_status report_id new_status changed_by notes).
Proof. unfold update_report_status. repeat grows_step. Qed.

Lemma resolve_report_with_evidence_grows (report_id : Z) (changed_by : string)
    (notes : option Note) :
  inv (both (grows w0)) (resolve_report_with_evidence report_id changed_by notes).
Proof. unfold resolve_report_with_evidence. repeat grows_step. Qed.

Lemma resolve_report_grows (env : Env) (report_id : Z) (admin_user : User)
    (resolution_image : UploadFile) (admin_notes : option string)
    (provided_lat provided_lon : option R)
    (admin_verification_image : option UploadFile) :
  inv (both (grows w0))
    (ResolutionService.resolve_report env report_id admin_user resolution_image
       admin_notes provided_lat provided_lon admin_verification_image).
Proof.
  unfold ResolutionService.resolve_report.
  repeat first [apply resolve_report_with_evidence_grows | grows_step].
Qed.

Lemma create_issue_report_grows (env : Env) (title : string)
    (description : option string) (category : string) (image : UploadFile)
    (latitude longitude : option R) (mcq_responses : option string)
    (current_user : User) :
  inv (both (grows w0))
    (Main.create_issue_report env title description category image latitude longitude
       mcq_responses current_user).
Proof. unfold Main.create_issue_report. repeat grows_step. Qed.

Lemma delete_citizen_report_grows (report_id : Z) (reason : string)
    (current_user : User) :
  inv (both (grows w0)) (Main.delete_citizen_report report_id reason current_user).
Proof. unfold Main.delete_citizen_report. repeat grows_step. Qed.

(** X30.  The tables only grow.  Through a status update, a resolution, a
    creation and a deletion by the citizen, whatever the arguments are and
    whatever the database does on the way, every report that was there is
    still there, at its place and with its key, reporter, title, category,
    coordinates and time of the report; and the rows of the status history
    and of the admin verifications that were there are still the first
    rows of their tables, unchanged.  None of these operations removes or
    rewrites a row of the history. *)
Theorem tables_only_grow :
  forall (env : Env) (report_id : Z) (new_status changed_by reason title category : string)
         (notes : option Note) (admin_notes : option string)
         (description : option string) (user : User)
         (image : UploadFile) (selfie : option UploadFile)
         (latitude longitude : option R) (mcq_responses : option string),
    inv (both (grows w0)) (update_report_status report_id new_status changed_by notes)
    /\ inv (both (grows w0)) (resolve_report_with_evidence report_id changed_by notes)
    /\ inv (both (grows w0))
         (ResolutionService.resolve_report env report_id user image admin_notes
            latitude longitude selfie)
    /\ inv (both (grows w0))
         (Main.create_issue_report env title description category image latitude
            longitude mcq_responses user)
    /\ inv (both (grows w0)) (Main.delete_citizen_report report_id reason user)
    /\ inv (both (grows w0))
         (Main.update_report_status report_id new_status notes user).
Proof.
  intros. split; [apply update_report_status_grows|].
  split; [apply resolve_report_with_evidence_grows|].
  split; [apply resolve_report_grows|].
  split; [apply create_issue_report_grows|].
  split; [apply delete_citizen_report_grows|].
  unfold Main.update_report_status.
  repeat first [apply update_report_status_grows | inv_step].
Qed.

End AppendOnly.

(** From the sample session, whose reports are all "reported": after a
    resolution on a database that fails at the last commit, the statuses are
    still in the vocabulary, and nothing that was stored is lost. *)
Lemma status_vocabulary_is_kept_witness :
  both in_vocabulary Sample.session_failing_last_commit
  /\ both in_vocabulary
       (snd (ResolutionService.resolve_report Sample.env 1 Sample.admin
               Sample.evidence_on_site None None None (Some Sample.photo_without_gps)
               Sample.session_failing_last_commit)).
Proof.
  assert (H : both in_vocabulary Sample.session_failing_last_commit).
  { split; intros r [<-|[]]; cbn; tauto. }
  split; [exact H|].
  destruct (status_vocabulary_is_kept Sample.env 1 "" "" "" "" "" None None None
              Sample.admin Sample.evidence_on_site (Some Sample.photo_without_gps)
              None None None) as [_ [_ [Hr _]]].
  exact (Hr _ H).
Defined.

Lemma tables_only_grow_witness :
  both (grows Sample.store) Sample.session_failing_last_commit
  /\ both (grows Sample.store)
       (snd (ResolutionService.resolve_report Sample.env 1 Sample.admin
               Sample.evidence_on_site None None None (Some Sample.photo_without_gps)
               Sample.session_failing_last_commit)).
Proof.
  assert (H : both (grows Sample.store) Sample.session_failing_last_commit).
  { split; apply grows_refl. }
  split; [exact H|].
  destruct (tables_only_grow Sample.store Sample.env 1 "" "" "" "" "" None None None
              Sample.admin Sample.evidence_on_site (Some Sample.photo_without_gps)
              None None None) as [_ [_ [Hr _]]].
  exact (Hr _ H).
Defined.

(** ** The report service *)

Section ReportServiceMore.

Import ReportService.

Lemma find_removed (report_id : Z) (l : list Report) :
  NoDup (map id l) -> find_report report_id (remove_report report_id l) = None.
Proof.
  unfold find_report. induction l as [|r l IH]; [reflexivity|].
  cbn [map remove_report]. intros Hnd. inversion Hnd as [|x xs Hnotin Hnd']; subst.
  destruct (Z.eqb (id r) report_id) eqn:E.
  - apply find_absent. intros r' Hin.
    destruct (Z.eqb (id r') report_id) eqn:E'; [|reflexivity].
    exfalso. apply Hnotin. apply Z.eqb_eq in E, E'. rewrite E, <- E'.
    apply in_map. exact Hin.
  - cbn [find]. rewrite E. apply IH. exact Hnd'.
Qed.

Lemma find_other_removed (report_id other : Z) (l : list Report) :
  other <> report_id ->
  find_report other (remove_report report_id l) = find_report other l.
Proof.
  intros Hne. unfold find_report. induction l as [|r l IH]; [reflexivity|].
  cbn [remove_report]. destruct (Z.eqb (id r) report_id) eqn:E.
  - cbn [find]. apply Z.eqb_eq in E.
    destruct (Z.eqb (id r) other) eqn:E'; [|reflexivity].
    apply Z.eqb_eq in E'. congruence.
  - cbn [find]. destruct (Z.eqb (id r) other); [reflexivity | exact IH].
Qed.

Lemma length_removed (report_id : Z) (report : Report) (l : list Report) :
  find_report report_id l = Some report ->
  S (length (remove_report report_id l)) = length l.
Proof.
  unfold find_report. induction l as [|r l IH]; [discriminate|].
  cbn [find remove_report]. destruct (Z.eqb (id r) report_id); [reflexivity|].
  intros H. cbn [length]. rewrite (IH H). reflexivity.
Qed.

Lemma delete_report_run (s : Session) (report_id : Z) (report : Report) :
  healthy s ->
  find_report report_id (reports (working s)) = Some report ->
  delete_report report_id s
  = (Ok true,
     let w' := with_reports (remove_report report_id (reports (working s)))
                 (working s) in
     mkSession w' w' (S (clock s)) []).
Proof.
  unfold healthy. destruct s as [c w k f]. cbn [faults working clock].
  intros -> Hfind.
  unfold delete_report, try_except, bind.
  cbv [query_report bind round_trip get_working put_working ret faults working].
  rewrite Hfind.
  cbv [commit bind round_trip faults working committed clock ret].
  reflexivity.
Qed.

(** X26.  [delete_report] of the report service removes the row for good.
    For a key that is not in the table it answers [False] and changes
    nothing.  For a stored report, with keys that are distinct, it answers
    [True]; afterwards [get_report_by_id] finds nothing under the key, the
    other reports are stored as before, and the table has one row less.
    The rows of the status history are not deleted with the report:
    [get_status_history] still returns them, while the timeline of the
    report is empty. *)
Theorem delete_report_removes_the_row :
  forall (s : Session) (report_id : Z),
    healthy s ->
    let out := delete_report report_id s in
    (find_report report_id (reports (working s)) = None -> out = (Ok false, s))
    /\ (forall report,
          find_report report_id (reports (working s)) = Some report ->
          NoDup (map id (reports (working s))) ->
          fst out = Ok true
          /\ get_report_by_id report_id (snd out) = (Ok None, snd out)
          /\ (forall other, other <> report_id ->
                stored (snd out) other = find_report other (reports (working s)))
          /\ S (length (reports (committed (snd out))))
             = length (reports (working s))
          /\ report_status_history (committed (snd out))
             = report_status_history (working s)
          /\ fst (get_status_history report_id (snd out))
             = fst (get_status_history report_id s)
          /\ fst (get_report_status_timeline report_id (snd out)) = Ok None).
Proof.
  intros s report_id Hh. cbv zeta. split.
  - intros Hnone. unfold healthy in Hh.
    unfold delete_report, try_except, bind.
    cbv [query_report bind round_trip get_working ret]. rewrite Hh, Hnone.
    reflexivity.
  - intros report Hfind Hnd.
    rewrite (delete_report_run s report_id report Hh Hfind). cbv zeta. cbn [fst snd].
    set (w' := with_reports (remove_report report_id (reports (working s)))
                 (working s)).
    set (s' := mkSession w' w' (S (clock s)) []).
    assert (Hgone : find_report report_id (reports (working s')) = None).
    { apply find_removed. exact Hnd. }
    split; [reflexivity|]. split; [|split; [|split; [|split; [|split]]]].
    + unfold get_report_by_id. rewrite (query_report_healthy s' report_id eq_refl).
      rewrite Hgone. reflexivity.
    + intros other Hne. unfold stored. apply find_other_removed. exact Hne.
    + apply (length_removed report_id report). exact Hfind.
    + reflexivity.
    + rewrite (get_status_history_healthy s' report_id eq_refl).
      rewrite (get_status_history_healthy s report_id Hh). reflexivity.
    + rewrite (timeline_run_missing s' report_id eq_refl Hgone). reflexivity.
Qed.

Local Open Scope R_scope.

(** X27.  [get_reports_by_location] returns the reports of a box, not of a
    circle: exactly the stored reports whose latitude and whose longitude
    each differ from the point by at most [radius_km / 111] degrees.
    Reports that were deleted by their citizen are among them.  A negative
    radius gives nothing, a larger radius gives at least what a smaller
    one gives, and a failure of the database is raised, not swallowed. *)
Theorem reports_by_location_is_a_box :
  forall (s : Session) (latitude longitude radius_km : R),
    match fst (get_reports_by_location latitude longitude radius_km s) with
    | Raise e => e = DatabaseError /\ exists fs, faults s = true :: fs
    | Ok found =>
        (forall r,
            In r found
            <-> In r (reports (working s))
                /\ Rabs (Models.latitude r - latitude) <= radius_km / 111
                /\ Rabs (Models.longitude r - longitude) <= radius_km / 111)
        /\ (radius_km < 0 -> found = [])
        /\ (forall r, In r (reports (working s)) ->
                      Models.latitude r = latitude -> Models.longitude r = longitude ->
                      0 <= radius_km -> In r found)
        /\ (forall larger more,
              radius_km <= larger ->
              fst (get_reports_by_location latitude longitude larger s) = Ok more ->
              incl found more)
    end.
Proof.
  intros s latitude longitude radius_km.
  assert (Hbox : forall radius r,
             In r (filter
                     (fun report =>
                        PyFloat.Rleb (Rabs (Models.latitude report - latitude))
                          (radius / 111)
                        && PyFloat.Rleb (Rabs (Models.longitude report - longitude))
                             (radius / 111))
                     (reports (working s)))
             <-> In r (reports (working s))
                 /\ Rabs (Models.latitude r - latitude) <= radius / 111
                 /\ Rabs (Models.longitude r - longitude) <= radius / 111).
  { intros radius r. rewrite filter_In, andb_true_iff, !Rleb_spec. reflexivity. }
  assert (Hrun : forall radius,
             fst (get_reports_by_location latitude longitude radius s)
             = match faults s with
               | true :: _ => Raise DatabaseError
               | _ => Ok (filter
                            (fun report =>
                               PyFloat.Rleb (Rabs (Models.latitude report - latitude))
                                 (radius / 111)
                               && PyFloat.Rleb
                                    (Rabs (Models.longitude report - longitude))
                                    (radius / 111))
                            (reports (working s)))
               end).
  { intros radius. unfold get_reports_by_location, bind, round_trip, get_working, ret.
    destruct (faults s) as [|[|] fs]; reflexivity. }
  rewrite (Hrun radius_km).
  destruct (faults s) as [|[|] fs] eqn:Hf.
  2:{ split; [reflexivity | exists fs; reflexivity]. }
  all: split; [apply Hbox|]; split; [|split].
  all: try (intros Hneg;
            match goal with
            | |- ?l = [] =>
                destruct l as [|r rest] eqn:El; [reflexivity|];
                assert (Hin : In r l) by (rewrite El; left; reflexivity);
                rewrite El in Hin; rewrite <- El in Hin;
                apply Hbox in Hin; destruct Hin as [_ [Hlat _]];
                pose proof (Rabs_pos (Models.latitude r - latitude));
                exfalso; lra
            end).
  all: try (intros r Hin Hlat Hlon Hpos; apply Hbox; split; [exact Hin|];
            rewrite Hlat, Hlon, !Rminus_diag, Rabs_R0; lra).
  all: intros larger more Hle Hmore; rewrite (Hrun larger) in Hmore;
    injection Hmore as <-; intros r Hin; apply Hbox; apply Hbox in Hin;
    destruct Hin as [Hin [Hlat Hlon]]; split; [exact Hin|]; lra.
Qed.

End ReportServiceMore.

(** The sample pothole is deleted from the table. *)
Lemma delete_report_removes_the_row_witness :
  healthy Sample.session
  /\ fst (ReportService.delete_report 1 Sample.session) = Ok true
  /\ ReportService.get_report_by_id 1 (snd (ReportService.delete_report 1 Sample.session))
     = (Ok None, snd (ReportService.delete_report 1 Sample.session)).
Proof.
  split; [reflexivity|].
  destruct (delete_report_removes_the_row Sample.session 1 eq_refl) as [_ H].
  destruct (H Sample.pothole eq_refl) as [H1 [H2 _]].
  - constructor; [intros [] | constructor].
  - split; [exact H1 | exact H2].
Defined.

(** ** Levels *)

Section Levels.

Import GamificationService.

Local Open Scope Z_scope.

(** X28.  [compute_level] in terms of the tiers Bronze 0-499, Silver
    500-999, Gold 1000-1999 and Platinum from 2000: the name is the tier of
    the points, the second component the points gained above the lower
    bound of the tier, the third the span of the tier.  Below 3000 points
    the progress stays below the span (and is not negative from 0 points
    on); from 3000 points on the progress of Platinum reaches or exceeds
    its span of 1000.  Negative points are Bronze with negative
    progress. *)
Theorem compute_level_tiers :
  forall points : Z,
    let '(name, xp_in_level, xp_required) := compute_level points in
    (name = "Bronze"%string <-> points < 500)
    /\ (name = "Silver"%string <-> 500 <= points < 1000)
    /\ (name = "Gold"%string <-> 1000 <= points < 2000)
    /\ (name = "Platinum"%string <-> 2000 <= points)
    /\ xp_in_level
       = points - (if String.eqb name "Bronze" then 0
                   else if String.eqb name "Silver" then 500
                   else if String.eqb name "Gold" then 1000 else 2000)
    /\ xp_required = (if String.eqb name "Bronze" || String.eqb name "Silver"
                      then 500 else 1000)
    /\ (0 <= points -> 0 <= xp_in_level)
    /\ (xp_in_level < xp_required <-> points < 3000).
Proof.
  intros points. unfold compute_level.
  destruct (Z.leb 2000 points) eqn:E1;
    [|destruct (Z.leb 1000 points) eqn:E2; [|destruct (Z.leb 500 points) eqn:E3]];
    repeat match goal with
           | H : Z.leb _ _ = true |- _ => apply Z.leb_le in H
           | H : Z.leb _ _ = false |- _ => apply Z.leb_gt in H
           end;
    cbn;
    repeat split; intros; try discriminate; try reflexivity; lia.
Qed.

End Levels.
